(** * Knative topology utilities: resolver, rollup, node/edge factories,
      graph assembler and mutation operations.

    The development embeds the TypeScript module of the Knative plugin that
    turns a snapshot of cluster resources into a topology graph.  Arrays are
    lists, objects are records, optional properties are [option]s and
    strings are [string]s.  The [percent] weights of traffic entries are
    JavaScript numbers, that is IEEE-754 doubles ([float], the primitive
    binary64 numbers); the sizes of the node table are rationals ([Q]). *)

From Stdlib Require Import String List ZArith QArith Lia Bool Ascii Arith Floats.
Import ListNotations.
Close Scope Q_scope.
Open Scope string_scope.
Open Scope list_scope.

Set Implicit Arguments.

(** ** JavaScript primitives *)

Module Js.

(** Truthiness of a string: only the empty string is falsy. *)
Definition truthy (s : string) : bool := negb (s =? "").

(** Truthiness of a possibly undefined string. *)
Definition truthy_opt (o : option string) : bool :=
  match o with
  | Some s => truthy s
  | None => false
  end.

(** [a === b] on two possibly undefined strings. *)
Definition strict_eq (a b : option string) : bool :=
  match a, b with
  | Some x, Some y => x =? y
  | None, None => true
  | _, _ => false
  end.

(** [_.findIndex]: position of the first element satisfying [p]
    ([None] stands for [-1]). *)
Fixpoint findIndex {A} (p : A -> bool) (l : list A) : option nat :=
  match l with
  | [] => None
  | x :: tl => if p x then Some 0 else option_map S (findIndex p tl)
  end.

(** [l[i] = f(l[i])] for an index inside the array. *)
Fixpoint update_at {A} (i : nat) (f : A -> A) (l : list A) : list A :=
  match l, i with
  | [], _ => []
  | x :: tl, 0 => f x :: tl
  | x :: tl, S j => x :: update_at j f tl
  end.

(** Array destructuring [const [x] = l]. *)
Definition first {A} (l : list A) : option A :=
  match l with
  | [] => None
  | x :: _ => Some x
  end.

(** [Array.prototype.includes] on strings. *)
Definition includes (l : list string) (s : string) : bool :=
  existsb (fun x => x =? s) l.

(** [ToNumber] of a value that is a number or [undefined]: [undefined]
    becomes [NaN]. *)
Definition toNumber (v : option float) : float :=
  match v with
  | Some x => x
  | None => nan
  end.

(** [a + b] on two values that are numbers or [undefined]: the addition of
    doubles, and [NaN] as soon as one side is [undefined]. *)
Definition add (a b : option float) : option float :=
  Some (toNumber a + toNumber b)%float.

(** [a > b] on two numbers; false as soon as one of them is [NaN]. *)
Definition gt (a b : float) : bool := (b <? a)%float.

End Js.

(** ** Resources *)

(** An entry of [metadata.ownerReferences]; only its [uid] is read. *)
Record OwnerReference := { owner_uid : string }.

Record ObjectMetadata := {
  uid : string;
  name : string;
  namespace : option string;
  ownerReferences : option (list OwnerReference);
  labels : list (string * string);
  annotations : list (string * string)
}.

(** One entry of a service's [status.traffic]; [percent] is a number, or
    [undefined] when the entry has none. *)
Record Traffic := {
  revisionName : string;
  percent : option float;
  traffic_url : option string
}.

Record Status := {
  traffic : option (list Traffic);
  status_url : option string
}.

(** [{apiVersion, kind, name}]; every property may be undefined. *)
Record ObjectReference := {
  ref_apiVersion : option string;
  ref_kind : option string;
  ref_name : option string
}.

(** [spec.sink]: an object reference, a raw uri, or (old style) a bare
    [name]. *)
Record Sink := {
  sink_ref : option ObjectReference;
  sink_uri : option string;
  sink_name : option string
}.

Record Subscriber := { subscriber_ref : option ObjectReference }.

(** An entry of a channel's subscriber list. *)
Record SubscriberEntry := { subscriber_uid : option string }.

Record Spec := {
  sink : option Sink;
  broker : option string;
  subscriber : option Subscriber;
  channel : option ObjectReference;
  subscribable_subscribers : option (list SubscriberEntry);
  subscribers : option (list SubscriberEntry);
  (** every other property of [spec], uninterpreted *)
  spec_rest : list (string * string)
}.

Record Resource := {
  apiVersion : option string;
  kind : string;
  metadata : ObjectMetadata;
  spec : option Spec;
  status : option Status
}.

(** ** Resource resolver *)

(** [_.map(_.get(resource, ['metadata','ownerReferences'], []), o => o.uid)];
    [resource] itself may be undefined. *)
Definition parentUids (resource : option Resource) : list string :=
  match resource with
  | Some r =>
      match ownerReferences (metadata r) with
      | Some owners => map owner_uid owners
      | None => []
      end
  | None => []
  end.

Definition getParentResource (resource : option Resource)
    (resources : list Resource) : option Resource :=
  let parentUids := parentUids resource in
  Js.first (filter (fun r => Js.includes parentUids (uid (metadata r))) resources).

(** ** Snapshot *)

(** The resource snapshot.  The categories the module reads without testing
    for their presence are fields; every other category, in particular the
    dynamically discovered ones, is reached by key through [others]. *)
Record TopologyDataResources := {
  deployments : list Resource;
  configurations : list Resource;
  revisions : list Resource;
  ksservices : list Resource;
  brokers : list Resource;
  others : string -> option (list Resource)
}.

(** [resources[key]?.data]. *)
Definition category (resources : TopologyDataResources) (key : string)
    : option (list Resource) :=
  if key =? "deployments" then Some (deployments resources)
  else if key =? "configurations" then Some (configurations resources)
  else if key =? "revisions" then Some (revisions resources)
  else if key =? "ksservices" then Some (ksservices resources)
  else if key =? "brokers" then Some (brokers resources)
  else others resources key.

(** [resources[key]?.data ?? []]. *)
Definition categoryOrEmpty (resources : TopologyDataResources) (key : string)
    : list Resource :=
  match category resources key with
  | Some l => l
  | None => []
  end.

(** The lists returned by [getDynamicEventSourcesModelRefs()] and
    [getDynamicChannelModelRefs()]: category keys discovered at run time and
    held outside the arguments of the functions below. *)
Record DynamicModels := {
  eventSourceModelRefs : list string;
  channelModelRefs : list string
}.

(** ** Graph model *)

Module NodeType.
Definition EventSource := "event-source".
Definition KnService := "knative-service".
Definition Revision := "knative-revision".
Definition PubSub := "event-pubsub".
Definition SinkUri := "sink-uri".
End NodeType.

Module EdgeType.
Definition Traffic := "revision-traffic".
Definition EventSource := "event-source-link".
Definition EventPubSubLink := "event-pubsub-link".
End EdgeType.

(** The record synthesized for a sink that is only a URI:
    [{metadata: {uid, namespace}, spec: {sinkUri}, type: {nodeType}}]. *)
Record SinkUriObj := {
  su_uid : string;
  su_namespace : string;
  su_sinkUri : string;
  su_nodeType : string
}.

(** What a node or an overview item carries as its resource. *)
Inductive TopologyResourceObject :=
| K8sObject (r : Resource)
| SinkUriObject (o : SinkUriObj).

Definition resourceNamespace (o : TopologyResourceObject) : option string :=
  match o with
  | K8sObject r => namespace (metadata r)
  | SinkUriObject s => Some (su_namespace s)
  end.

(** A replica set with the pods rolled up under it. *)
Record ReplicaSetItem := {
  rs_obj : Resource;
  rs_pods : option (list Resource)
}.

(** [_.get(rs, 'pods', [])] on a possibly undefined replica set. *)
Definition podsOf (rs : option ReplicaSetItem) : list Resource :=
  match rs with
  | Some r => match rs_pods r with Some p => p | None => [] end
  | None => []
  end.

Record BuildConfigItem := {
  bc_obj : Resource;
  bc_builds : list Resource
}.

(** [resources: {pods, current}] attached to a revision. *)
Record RevResources := {
  rr_pods : list Resource;
  rr_current : option ReplicaSetItem
}.

(** A revision, possibly extended with [resources]. *)
Record RevK8sResourceKind := {
  rev_obj : Resource;
  rev_resources : option RevResources
}.

(** The facets a Knative rollup or an enrichment function supplies
    ([KnativeItem]); [None] is an absent property. *)
Record KnativeItem := {
  kn_configurations : option (list Resource);
  kn_revisions : option (list RevK8sResourceKind);
  kn_ksroutes : option (list Resource);
  kn_buildConfigs : option (list BuildConfigItem);
  kn_pods : option (list Resource);
  kn_eventSources : option (list Resource);
  kn_eventingsubscription : option (list Resource);
  kn_ksservices : option (list Resource);
  kn_triggers : option (list Resource);
  kn_deployments : option (list Resource);
  kn_pipelines : option (list Resource);
  kn_pipelineRuns : option (list Resource)
}.

Definition noFacets : KnativeItem :=
  {| kn_configurations := None; kn_revisions := None; kn_ksroutes := None;
     kn_buildConfigs := None; kn_pods := None; kn_eventSources := None;
     kn_eventingsubscription := None; kn_ksservices := None;
     kn_triggers := None; kn_deployments := None; kn_pipelines := None;
     kn_pipelineRuns := None |}.

(** A property of [b] overrides the one of [a]. *)
Definition override {A} (a b : option A) : option A :=
  match b with
  | Some _ => b
  | None => a
  end.

(** Object spread [{...a, ...b}] on facets. *)
Definition spread (a b : KnativeItem) : KnativeItem :=
  {| kn_configurations := override (kn_configurations a) (kn_configurations b);
     kn_revisions := override (kn_revisions a) (kn_revisions b);
     kn_ksroutes := override (kn_ksroutes a) (kn_ksroutes b);
     kn_buildConfigs := override (kn_buildConfigs a) (kn_buildConfigs b);
     kn_pods := override (kn_pods a) (kn_pods b);
     kn_eventSources := override (kn_eventSources a) (kn_eventSources b);
     kn_eventingsubscription :=
       override (kn_eventingsubscription a) (kn_eventingsubscription b);
     kn_ksservices := override (kn_ksservices a) (kn_ksservices b);
     kn_triggers := override (kn_triggers a) (kn_triggers b);
     kn_deployments := override (kn_deployments a) (kn_deployments b);
     kn_pipelines := override (kn_pipelines a) (kn_pipelines b);
     kn_pipelineRuns := override (kn_pipelineRuns a) (kn_pipelineRuns b) |}.

(** The overview item of one top-level resource: the properties every rollup
    sets, and the facets. *)
Record TopologyOverviewItem := {
  obj : TopologyResourceObject;
  alerts : option (list (string * string));
  current : option ReplicaSetItem;
  isRollingOut : option bool;
  previous : option ReplicaSetItem;
  routes : list Resource;
  services : list Resource;
  associatedDeployment : option Resource;
  facets : KnativeItem
}.

(** An enrichment function: [(resource, resources) => item | undefined]. *)
Definition KnativeUtil :=
  Resource -> TopologyDataResources -> option KnativeItem.

(** [utils.reduce((acc, util) => ({...acc, ...util(resource, resources)}), item)]
    when [utils] is given, [item] otherwise. *)
Definition applyUtils (utils : option (list KnativeUtil)) (resource : Resource)
    (resources : TopologyDataResources) (item : KnativeItem) : KnativeItem :=
  match utils with
  | Some us =>
      fold_left
        (fun acc util =>
           match util resource resources with
           | Some extra => spread acc extra
           | None => acc
           end)
        us item
  | None => item
  end.

(** [TopologyDataObject.data]. *)
Record DataPayload := {
  dp_url : option string;
  dp_kind : option string;
  dp_editURL : option string;
  dp_vcsURI : option string;
  dp_isKnativeResource : option bool;
  dp_pipeline : option Resource;
  dp_pipelineRuns : option (list Resource);
  dp_build : option Resource;
  sinkUri : option string
}.

Record TopologyDataObject := {
  tdo_id : string;
  tdo_name : option string;
  tdo_type : string;
  tdo_resource : TopologyResourceObject;
  tdo_resources : TopologyOverviewItem;
  tdo_data : DataPayload
}.

Inductive NodeShape := rect | circle.

(** Sizing, visibility and shape hints of a node. *)
Record ModelProps := {
  width : Q;
  height : Q;
  visible : bool;
  collapsed : option bool;
  group : option bool;
  shape : option NodeShape;
  style_padding : list Q
}.

Record NodeModel := {
  node_id : string;
  node_type : string;
  node_resource : option TopologyResourceObject;
  node_data : option TopologyDataObject;
  node_children : list string;
  node_props : option ModelProps
}.

Inductive EdgeData :=
| NoData
| TrafficData (percent : option float)
| ConnectionData (obj : Resource) (connections : list Resource).

Record EdgeModel := {
  edge_id : string;
  edge_type : string;
  source : string;
  target : string;
  data : EdgeData
}.

Record Model := {
  nodes : list NodeModel;
  edges : list EdgeModel
}.

(** [node.data?.data?.sinkUri]. *)
Definition nodeSinkUri (n : NodeModel) : option string :=
  match node_data n with
  | Some d => sinkUri (tdo_data d)
  | None => None
  end.

(** The template literal [`${a}_${b}`]. *)
Definition edgeId (a b : string) : string := (a ++ "_" ++ b)%string.

(** A model descriptor of the console ([K8sKind]). *)
Record K8sKind := {
  model_apiGroup : string;
  model_apiVersion : string;
  model_kind : string;
  model_plural : string
}.

(** ** What the module imports

    Constants and helpers of the other console packages.  They are the
    interface the module is written against; the development is generic in
    them. *)
Class Platform := {
  (** the models module *)
  EventingBrokerModel : K8sKind;
  ServiceModel : K8sKind;
  EventingTriggerModel : K8sKind;
  DeploymentModel : K8sKind;
  PodModel : K8sKind;
  (** sizing constants *)
  NODE_WIDTH : Q;
  NODE_HEIGHT : Q;
  NODE_PADDING : list Q;
  KNATIVE_GROUP_NODE_WIDTH : Q;
  KNATIVE_GROUP_NODE_HEIGHT : Q;
  KNATIVE_GROUP_NODE_PADDING : list Q;
  WorkloadModelProps : ModelProps;
  (** module/k8s *)
  apiVersionForModel : K8sKind -> string;
  referenceFor : TopologyResourceObject -> string;
  modelFor : string -> K8sKind;
  (** shared rollup helpers *)
  getReplicaSetsForResource :
    Resource -> TopologyDataResources -> list ReplicaSetItem;
  getBuildConfigsForResource :
    Resource -> TopologyDataResources -> list BuildConfigItem;
  getServicesForResource : Resource -> TopologyDataResources -> list Resource;
  getRoutesForServices :
    list Resource -> TopologyDataResources -> list Resource;
  getResourcePausedAlert : Resource -> list (string * string);
  getBuildAlerts : list BuildConfigItem -> list (string * string);
  (** generic topology helpers *)
  getImageForIconClass : string -> string;
  createTopologyNodeData :
    Resource -> TopologyOverviewItem -> string -> string -> TopologyDataObject;
  getTopologyGroupItems : Resource -> option NodeModel;
  mergeGroup : option NodeModel -> list NodeModel -> list NodeModel;
  filterBasedOnActiveApplication :
    list (option Resource) -> string -> list (option Resource)
}.

(** [{...obj, apiVersion: apiVersionForModel(model), kind: model.kind}]. *)
Definition asModel `{Platform} (model : K8sKind) (o : Resource) : Resource :=
  {| apiVersion := Some (apiVersionForModel model);
     kind := model_kind model;
     metadata := metadata o;
     spec := spec o;
     status := status o |}.

(** Modelled from the spec: [getOwnedResources] is a helper of the shared
    package; [findOwned(parent, candidates)] returns all candidates whose
    [ownerReferences] includes [parent.uid], in candidate order. *)
Definition getOwnedResources (parent : Resource) (candidates : list Resource)
    : list Resource :=
  filter (fun c => Js.includes (parentUids (Some c)) (uid (metadata parent)))
         candidates.

(** Object and array lookups that tolerate an absent value. *)
Definition lookupKey (k : string) (l : list (string * string)) : option string :=
  match find (fun kv => fst kv =? k) l with
  | Some kv => Some (snd kv)
  | None => None
  end.

(** [resource.metadata.uid], for use where [uid] names a local. *)
Definition metaUid (r : Resource) : string := uid (metadata r).

Definition objUid (o : TopologyResourceObject) : string :=
  match o with
  | K8sObject r => uid (metadata r)
  | SinkUriObject s => su_uid s
  end.

Definition objName (o : TopologyResourceObject) : option string :=
  match o with
  | K8sObject r => Some (name (metadata r))
  | SinkUriObject _ => None
  end.

Definition objLabels (o : TopologyResourceObject) : list (string * string) :=
  match o with
  | K8sObject r => labels (metadata r)
  | SinkUriObject _ => []
  end.

Definition objAnnotations (o : TopologyResourceObject)
    : list (string * string) :=
  match o with
  | K8sObject r => annotations (metadata r)
  | SinkUriObject _ => []
  end.

(** [a || b] on possibly undefined strings. *)
Definition orElse (a b : option string) : option string :=
  if Js.truthy_opt a then a else b.

(** ** Node sizing table *)

Section NodeFactory.

Context `{Platform}.

Definition getKnNodeModelProps (type : string) : ModelProps :=
  if type =? NodeType.EventSource then
    {| width := NODE_WIDTH; height := NODE_HEIGHT; visible := true;
       collapsed := None; group := None; shape := None;
       style_padding := NODE_PADDING |}
  else if type =? NodeType.KnService then
    {| width := KNATIVE_GROUP_NODE_WIDTH;
       height := KNATIVE_GROUP_NODE_HEIGHT; visible := true;
       collapsed := Some false; group := Some true; shape := Some rect;
       style_padding := KNATIVE_GROUP_NODE_PADDING |}
  else if type =? NodeType.PubSub then
    {| width := NODE_WIDTH; height := (NODE_HEIGHT / (2 # 1))%Q;
       visible := true; collapsed := None; group := None;
       shape := Some rect; style_padding := NODE_PADDING |}
  else if type =? NodeType.SinkUri then
    {| width := (NODE_WIDTH * (3 # 4))%Q;
       height := (NODE_HEIGHT * (3 # 4))%Q; visible := true;
       collapsed := None; group := None; shape := Some circle;
       style_padding := NODE_PADDING |}
  else WorkloadModelProps.

(** One round of the loop of lodash's [_.maxBy] ([baseExtremum] with the
    comparator [>]), on the percent [computed] and the entry [result] kept
    so far: an entry without percent is passed over ([current != null]);
    the first entry kept is the first whose percent is not [NaN]
    ([current === current]); after that an entry replaces the one kept
    when its percent is greater. *)
Definition maxByStep (best : option (float * Traffic)) (value : Traffic)
    : option (float * Traffic) :=
  match percent value with
  | None => best
  | Some current =>
      match best with
      | None =>
          if (current =? current)%float then Some (current, value) else None
      | Some (computed, _) =>
          if Js.gt current computed then Some (current, value) else best
      end
  end.

(** [_.maxBy(traffic, 'percent')]. *)
Definition maxByPercent (l : list Traffic) : option Traffic :=
  option_map snd (fold_left maxByStep l None).

Definition getKnativeServiceRoutesURL (ksvc : TopologyResourceObject)
    : option string :=
  match ksvc with
  | SinkUriObject _ => Some ""
  | K8sObject r =>
      match status r with
      | None => Some ""
      | Some st =>
          let maximumTraffic :=
            maxByPercent (match traffic st with Some l => l | None => [] end) in
          orElse
            (match maximumTraffic with
             | Some t => traffic_url t
             | None => None
             end)
            (status_url st)
      end
  end.

(** ** Revisions kept by traffic and by application *)

(** [service && service.status && _.find(service.status.traffic,
    {revisionName})], as a truth value. *)
Definition hasTraffic (service : option Resource) (revision : Resource)
    : bool :=
  match service with
  | Some s =>
      match status s with
      | Some st =>
          match traffic st with
          | Some tr =>
              match find (fun t => revisionName t =? name (metadata revision))
                         tr with
              | Some _ => true
              | None => false
              end
          | None => false
          end
      | None => false
      end
  | None => false
  end.

Definition filterRevisionsByActiveApplication (revisions : list Resource)
    (resources : TopologyDataResources) (application : string)
    : list Resource :=
  fold_left
    (fun filteredRevisions revision =>
       let configuration :=
         getParentResource (Some revision) (configurations resources) in
       let service := getParentResource configuration (ksservices resources) in
       let hasTraffic := hasTraffic service revision in
       let isServicePartofGroup :=
         (0 <? length (filterBasedOnActiveApplication [service] application))%nat in
       if hasTraffic && isServicePartofGroup
       then filteredRevisions ++ [revision]
       else filteredRevisions)
    revisions [].

(** [undefined] when the resource has no [status.traffic]. *)
Definition filterRevisionsBaseOnTrafficStatus (resource : Resource)
    (revisions : list Resource) : option (list Resource) :=
  match status resource with
  | None => None
  | Some st =>
      match traffic st with
      | None => None
      | Some tr =>
          Some
            (fold_left
               (fun acc curr =>
                  match find (fun rev =>
                                revisionName curr =? name (metadata rev))
                             revisions with
                  | Some el => acc ++ [el]
                  | None => acc
                  end)
               tr [])
      end
  end.

End NodeFactory.

(** ** Rollup builder *)

Section Rollup.

Context `{Platform}.

(** Object spread [{...a, ...b}] on alert tables. *)
Definition spreadAlerts (a b : list (string * string))
    : list (string * string) :=
  filter (fun kv => match lookupKey (fst kv) b with
                    | Some _ => false
                    | None => true
                    end) a ++ b.

(** One round of the reducer of [getKnativeServiceData]: the revision,
    extended with the pods and the current replica set of its deployment
    when it owns one, and those pods. *)
Definition revisionDeployment (resources : TopologyDataResources)
    (revision : Resource) : RevK8sResourceKind * option (list Resource) :=
  match getOwnedResources revision (deployments resources) with
  | d :: _ =>
      let depObj := asModel DeploymentModel d in
      let replicaSets := getReplicaSetsForResource depObj resources in
      let current := nth_error replicaSets 0 in
      let previous := nth_error replicaSets 1 in
      let pods := podsOf current ++ podsOf previous in
      ({| rev_obj := revision;
          rev_resources := Some {| rr_pods := pods; rr_current := current |} |},
       Some pods)
  | [] => ({| rev_obj := revision; rev_resources := None |}, None)
  end.

Definition getKnativeServiceData (resource : Resource)
    (resources : TopologyDataResources) (utils : option (list KnativeUtil))
    : KnativeItem :=
  let configurations := getOwnedResources resource (configurations resources) in
  let revisions :=
    match configurations with
    | c0 :: _ => Some (getOwnedResources c0 (revisions resources))
    | [] => None
    end in
  let revisionsDeploymentData :=
    fold_left
      (fun acc revision =>
         let '(revisionDep, pods) := revisionDeployment resources revision in
         (fst acc ++ [revisionDep],
          match pods with
          | Some ps => snd acc ++ ps
          | None => snd acc
          end))
      (match revisions with Some l => l | None => [] end)
      ([], []) in
  let ksroutes :=
    match category resources "ksroutes" with
    | Some l => Some (getOwnedResources resource l)
    | None => None
    end in
  let buildConfigs := getBuildConfigsForResource resource resources in
  let overviewItem :=
    {| kn_configurations := Some configurations;
       kn_revisions := Some (fst revisionsDeploymentData);
       kn_ksroutes := ksroutes;
       kn_buildConfigs := Some buildConfigs;
       kn_pods := Some (snd revisionsDeploymentData);
       kn_eventSources := None; kn_eventingsubscription := None;
       kn_ksservices := None; kn_triggers := None; kn_deployments := None;
       kn_pipelines := None; kn_pipelineRuns := None |} in
  applyUtils utils resource resources overviewItem.

Definition isSome {A} (o : option A) : bool :=
  match o with
  | Some _ => true
  | None => false
  end.

Definition createKnativeDeploymentItems (resource : Resource)
    (resources : TopologyDataResources) (utils : option (list KnativeUtil))
    : TopologyOverviewItem :=
  match getOwnedResources resource (deployments resources) with
  | d :: _ =>
      let depObj := asModel DeploymentModel d in
      let replicaSets := getReplicaSetsForResource depObj resources in
      let current := nth_error replicaSets 0 in
      let previous := nth_error replicaSets 1 in
      let isRollingOut := isSome current && isSome previous in
      let buildConfigs := getBuildConfigsForResource depObj resources in
      let services := getServicesForResource depObj resources in
      let routes := getRoutesForServices services resources in
      let alerts :=
        spreadAlerts (getResourcePausedAlert depObj)
                     (getBuildAlerts buildConfigs) in
      {| obj := K8sObject resource;
         alerts := Some alerts;
         current := current;
         isRollingOut := Some isRollingOut;
         previous := previous;
         routes := routes;
         services := services;
         associatedDeployment := Some depObj;
         facets :=
           applyUtils utils resource resources
             {| kn_configurations := None; kn_revisions := None;
                kn_ksroutes := None;
                kn_buildConfigs := Some buildConfigs;
                kn_pods := Some (podsOf current ++ podsOf previous);
                kn_eventSources := None; kn_eventingsubscription := None;
                kn_ksservices := None; kn_triggers := None;
                kn_deployments := None; kn_pipelines := None;
                kn_pipelineRuns := None |} |}
  | [] =>
      let knResources := getKnativeServiceData resource resources utils in
      {| obj := K8sObject resource;
         alerts := None;
         current := None;
         isRollingOut := None;
         previous := None;
         routes := [];
         services := [];
         associatedDeployment := None;
         facets :=
           spread
             {| kn_configurations := None; kn_revisions := None;
                kn_ksroutes := None; kn_buildConfigs := Some [];
                kn_pods := None; kn_eventSources := None;
                kn_eventingsubscription := None; kn_ksservices := None;
                kn_triggers := None; kn_deployments := None;
                kn_pipelines := None; kn_pipelineRuns := None |}
             knResources |}
  end.

Definition getKnativeDynamicResources (resources : TopologyDataResources)
    (dynamicProps : list string) : list Resource :=
  fold_left (fun acc currProp => acc ++ categoryOrEmpty resources currProp)
            dynamicProps [].

(** [spec?.subscriber?.ref]. *)
Definition subscriberRef (r : Resource) : option ObjectReference :=
  match spec r with
  | Some sp =>
      match subscriber sp with
      | Some sb => subscriber_ref sb
      | None => None
      end
  | None => None
  end.

Definition refName (o : option ObjectReference) : option string :=
  match o with
  | Some rf => ref_name rf
  | None => None
  end.

Definition refKind (o : option ObjectReference) : option string :=
  match o with
  | Some rf => ref_kind rf
  | None => None
  end.

(** [spec?.sink]. *)
Definition specSink (r : Resource) : option Sink :=
  match spec r with
  | Some sp => sink sp
  | None => None
  end.

(** [spec?.sink?.uri]. *)
Definition specSinkUri (r : Resource) : option string :=
  match specSink r with
  | Some s => sink_uri s
  | None => None
  end.

(** [spec?.broker]. *)
Definition specBroker (r : Resource) : option string :=
  match spec r with
  | Some sp => broker sp
  | None => None
  end.

Definition createPubSubDataItems (dyn : DynamicModels) (resource : Resource)
    (resources : TopologyDataResources) : TopologyOverviewItem :=
  let resKind := kind resource in
  let name' := name (metadata resource) in
  let subscriptionData := categoryOrEmpty resources "eventingsubscription" in
  let triggerList := categoryOrEmpty resources "triggers" in
  let eventSourceProps := eventSourceModelRefs dyn in
  let eventSources :=
    fold_left
      (fun acc evSrc =>
         let sinkRes :=
           match specSink evSrc with
           | Some s => sink_ref s
           | None => None
           end in
         if Js.strict_eq (Some resKind) (refKind sinkRes)
            && Js.strict_eq (Some name') (refName sinkRes)
         then acc ++ [evSrc]
         else acc)
      (getKnativeDynamicResources resources eventSourceProps) [] in
  let subscribers :=
    match spec resource with
    | Some sp =>
        match subscribable_subscribers sp with
        | Some l => Some l
        | None => subscribers sp
        end
    | None => None
    end in
  let channelSubsData :=
    fold_left
      (fun acc subs =>
         let subUid := uid (metadata subs) in
         let isSubscribableData :=
           Js.findIndex
             (fun e => Js.strict_eq (subscriber_uid e) (Some subUid))
             (match subscribers with Some l => l | None => [] end) in
         match isSubscribableData with
         | Some _ =>
             let subscriptionSvc := subscriberRef subs in
             (fst acc ++ [subs],
              fold_left
                (fun svcs svc =>
                   if Js.strict_eq (Some (kind svc)) (refKind subscriptionSvc)
                      && Js.strict_eq (Some (name (metadata svc)))
                                      (refName subscriptionSvc)
                   then svcs ++ [svc]
                   else svcs)
                (ksservices resources) (snd acc))
         | None => acc
         end)
      subscriptionData ([], []) in
  let base :=
    {| kn_configurations := None; kn_revisions := None; kn_ksroutes := None;
       kn_buildConfigs := Some []; kn_pods := None;
       kn_eventSources := Some eventSources;
       kn_eventingsubscription := Some (fst channelSubsData);
       kn_ksservices := Some (snd channelSubsData);
       kn_triggers := None; kn_deployments := None; kn_pipelines := None;
       kn_pipelineRuns := None |} in
  let triggersData :=
    if resKind =? model_kind EventingBrokerModel then
      let tData :=
        fold_left
          (fun tData trigger =>
             let brokerName := specBroker trigger in
             let knService :=
               find (fun svc =>
                       Js.strict_eq (Some (name (metadata svc)))
                                    (refName (subscriberRef trigger))
                       && Js.strict_eq (Some (kind svc))
                                       (refKind (subscriberRef trigger)))
                    (ksservices resources) in
             if Js.strict_eq (Some name') brokerName
             then (match knService with
                   | Some s => fst tData ++ [s]
                   | None => fst tData
                   end,
                   snd tData ++ [trigger])
             else tData)
          triggerList ([], []) in
      let labelled (model : K8sKind) :=
        match category resources (model_plural model) with
        | Some l =>
            Some
              (map (fun o =>
                      {| apiVersion := apiVersion o;
                         kind := model_kind model;
                         metadata := metadata o;
                         spec := spec o;
                         status := status o |})
                   (filter
                      (fun resourceObject =>
                         Js.strict_eq
                           (lookupKey "eventing.knative.dev/broker"
                                      (labels (metadata resourceObject)))
                           (Some name'))
                      l))
        | None => None
        end in
      {| kn_configurations := None; kn_revisions := None;
         kn_ksroutes := None; kn_buildConfigs := None;
         kn_pods := labelled PodModel;
         kn_eventSources := None; kn_eventingsubscription := None;
         kn_ksservices := Some (fst tData);
         kn_triggers := Some (snd tData);
         kn_deployments := labelled DeploymentModel;
         kn_pipelines := None; kn_pipelineRuns := None |}
    else noFacets in
  {| obj := K8sObject resource;
     alerts := None;
     current := None;
     isRollingOut := None;
     previous := None;
     routes := [];
     services := [];
     associatedDeployment := None;
     facets := spread base triggersData |}.

End Rollup.

(** ** URI escaping *)

(** [encodeURIComponent] on the UTF-8 bytes of a string: letters, digits and
    [- _ . ! ~ * ' ( )] are kept, every other byte becomes [%XX]. *)
Module Uri.

Definition unreserved (c : ascii) : bool :=
  let n := nat_of_ascii c in
  (((65 <=? n) && (n <=? 90)) || ((97 <=? n) && (n <=? 122))
   || ((48 <=? n) && (n <=? 57)))%nat
  || existsb (Nat.eqb n) [45; 95; 46; 33; 126; 42; 39; 40; 41].

Definition hexDigit (n : nat) : ascii :=
  if (n <? 10)%nat then ascii_of_nat (48 + n) else ascii_of_nat (55 + n).

Fixpoint encodeURIComponent (s : string) : string :=
  match s with
  | EmptyString => EmptyString
  | String c tl =>
      if unreserved c then String c (encodeURIComponent tl)
      else
        let n := nat_of_ascii c in
        String "%"
          (String (hexDigit (n / 16))
             (String (hexDigit (n mod 16)) (encodeURIComponent tl)))
  end.

End Uri.

(** ** Node factory *)

Section Factories.

Context `{Platform}.

(** Modelled from the spec: [getTopologyNodeItem] is a helper of the
    generic topology package; a graph node is
    [{id (= resource uid), type, resource, data, sizing hints, children}],
    the hints falling back to the generic workload sizing. *)
Definition getTopologyNodeItem (resource : Resource) (type : string)
    (data : option TopologyDataObject) (nodeProps : option ModelProps)
    (children : list string) : NodeModel :=
  {| node_id := uid (metadata resource);
     node_type := type;
     node_resource := Some (K8sObject resource);
     node_data := data;
     node_children := children;
     node_props :=
       Some (match nodeProps with
             | Some p => p
             | None => WorkloadModelProps
             end) |}.

Definition getKnativeTopologyNodeItems (resource : Resource) (type : string)
    (data : TopologyDataObject) (resources : option TopologyDataResources)
    : list NodeModel :=
  let revisionNodes :=
    match resources with
    | Some rs =>
        if type =? NodeType.KnService then
          let configurations :=
            getOwnedResources resource (configurations rs) in
          let configUidData :=
            match configurations with
            | c0 :: _ => Some (uid (metadata c0))
            | [] => None
            end in
          let ChildData :=
            filter
              (fun rev =>
                 match configUidData with
                 | Some u => Js.includes (parentUids (Some rev)) u
                 | None => false
                 end)
              (revisions rs) in
          match filterRevisionsBaseOnTrafficStatus resource ChildData with
          | Some kept =>
              fold_left
                (fun acc c =>
                   let uidRev := uid (metadata c) in
                   (fst acc ++ [uidRev],
                    snd acc
                    ++ [getTopologyNodeItem c NodeType.Revision None
                          (Some (getKnNodeModelProps NodeType.Revision)) []]))
                kept ([], [])
          | None => ([], [])
          end
        else ([], [])
    | None => ([], [])
    end in
  let children := fst revisionNodes in
  let nodes := snd revisionNodes in
  nodes
  ++ [getTopologyNodeItem resource type (Some data)
        (Some (getKnNodeModelProps type)) children].

Definition getSinkUriTopologyNodeItems (type : string) (id : string)
    (data : TopologyDataObject) : list NodeModel :=
  let nodeProps := getKnNodeModelProps type in
  [ {| node_id := id;
       node_type := type;
       node_resource := Some (tdo_resource data);
       node_data := Some data;
       node_children := [];
       node_props := Some nodeProps |} ].

(** ** Edge factory *)

Definition getSinkUriTopologyEdgeItems (resource : Resource)
    (targetUid : string) : list EdgeModel :=
  let uid := uid (metadata resource) in
  let sinkUri := specSinkUri resource in
  if Js.truthy_opt sinkUri && Js.truthy uid then
    [ {| edge_id := edgeId uid targetUid;
         edge_type := EdgeType.EventSource;
         source := uid;
         target := targetUid;
         data := NoData |} ]
  else [].

Definition getSinkTargetUid (nodeData : list NodeModel)
    (sinkUri : option string) : string :=
  match find (fun n => Js.strict_eq sinkUri (nodeSinkUri n)) nodeData with
  | Some sinkNodeData => node_id sinkNodeData
  | None => ""
  end.

Definition getEventSourcesData (dyn : DynamicModels) (sinkUri : string)
    (resources : TopologyDataResources) : list Resource :=
  let eventSourceProps := eventSourceModelRefs dyn in
  fold_left
    (fun acc evSrc =>
       let evSrcSinkUri :=
         match specSinkUri evSrc with
         | Some u => u
         | None => ""
         end in
       if sinkUri =? evSrcSinkUri then acc ++ [evSrc] else acc)
    (getKnativeDynamicResources resources eventSourceProps) [].

(** [spec.sink.ref || spec.sink], reduced to the [name] it is read for;
    the outer [None] is an absent sink. *)
Definition sinkTargetName (resource : Resource) : option (option string) :=
  match specSink resource with
  | Some s =>
      match sink_ref s with
      | Some rf => Some (ref_name rf)
      | None => Some (sink_name s)
      end
  | None => None
  end.

Definition getEventTopologyEdgeItems (resource : Resource)
    (data : list Resource) : list EdgeModel :=
  let uid := uid (metadata resource) in
  match sinkTargetName resource with
  | Some targetName =>
      fold_left
        (fun edges res =>
           let resUid := metaUid res in
           let resName := name (metadata res) in
           if Js.strict_eq (Some resName) targetName then
             edges
             ++ [ {| edge_id := edgeId uid resUid;
                     edge_type := EdgeType.EventSource;
                     source := uid;
                     target := resUid;
                     data := NoData |} ]
           else edges)
        data []
  | None => []
  end.

Definition getTriggerTopologyEdgeItems (broker : Resource)
    (resources : TopologyDataResources) : list EdgeModel :=
  let uid := uid (metadata broker) in
  let name' := name (metadata broker) in
  fold_left
    (fun edges trigger =>
       let brokerName := specBroker trigger in
       let connectedService := refName (subscriberRef trigger) in
       if Js.strict_eq (Some name') brokerName then
         match find (fun svc =>
                       Js.strict_eq (Some (name (metadata svc)))
                                    connectedService)
                    (ksservices resources) with
         | Some knativeService =>
             let serviceUid := metaUid knativeService in
             edges
             ++ [ {| edge_id := edgeId uid serviceUid;
                     edge_type := EdgeType.EventPubSubLink;
                     source := uid;
                     target := serviceUid;
                     data := ConnectionData trigger
                               [broker; knativeService] |} ]
         | None => edges
         end
       else edges)
    (categoryOrEmpty resources "triggers") [].

Definition getSubscriptionTopologyEdgeItems (resource : Resource)
    (resources : TopologyDataResources) : list EdgeModel :=
  let uid := uid (metadata resource) in
  let name' := name (metadata resource) in
  fold_left
    (fun edges subRes =>
       let channelData :=
         match spec subRes with
         | Some sp => channel sp
         | None => None
         end in
       if Js.strict_eq (Some name') (refName channelData) then
         match subscriberRef subRes with
         | Some svcData =>
             fold_left
               (fun edges res =>
                  let resUid := metaUid res in
                  let resName := name (metadata res) in
                  if Js.strict_eq (Some resName) (ref_name svcData) then
                    edges
                    ++ [ {| edge_id := edgeId uid resUid;
                            edge_type := EdgeType.EventPubSubLink;
                            source := uid;
                            target := resUid;
                            data := ConnectionData subRes [resource; res] |} ]
                  else edges)
               (ksservices resources) edges
         | None => edges
         end
       else edges)
    (categoryOrEmpty resources "eventingsubscription") [].

(** [edge.data.percent += p]. *)
Definition addPercent (p : option float) (e : EdgeModel) : EdgeModel :=
  {| edge_id := edge_id e;
     edge_type := edge_type e;
     source := source e;
     target := target e;
     data := match data e with
             | TrafficData q => TrafficData (Js.add q p)
             | d => d
             end |}.

(** The body of the loop of [getTrafficTopologyEdgeItems]: one entry of
    [status.traffic] read against the edges built so far. *)
Definition trafficStep (uid : string) (data : list Resource)
    (edges : list EdgeModel) (res : Traffic) : list EdgeModel :=
  let resname := revisionName res in
  let trafficPercent := percent res in
  let revisionObj := find (fun rev => name (metadata rev) =? resname) data in
  match revisionObj with
  | Some rev =>
      let resUid := metaUid rev in
      if Js.truthy resUid then
        match Js.findIndex (fun edge => edge_id edge =? edgeId uid resUid)
                           edges with
        | Some revisionIndex =>
            Js.update_at revisionIndex (addPercent trafficPercent) edges
        | None =>
            edges
            ++ [ {| edge_id := edgeId uid resUid;
                    edge_type := EdgeType.Traffic;
                    source := uid;
                    target := resUid;
                    data := TrafficData trafficPercent |} ]
        end
      else edges
  | None => edges
  end.

Definition getTrafficTopologyEdgeItems (resource : Resource)
    (data : list Resource) : list EdgeModel :=
  let uid := uid (metadata resource) in
  let trafficSvc :=
    match status resource with
    | Some st => match traffic st with Some l => l | None => [] end
    | None => []
    end in
  fold_left (trafficStep uid data) trafficSvc [].

End Factories.

(** ** Graph assembler *)

Section Assembler.

Context `{Platform}.

Definition isInternalResource (resource : Resource) : bool :=
  if negb (kind resource =? model_kind EventingBrokerModel)
     && isSome (ownerReferences (metadata resource))
  then true
  else false.

Definition createTopologyServiceNodeData (resource : Resource)
    (svcRes : TopologyOverviewItem) (type : string) : TopologyDataObject :=
  let pipelines :=
    match kn_pipelines (facets svcRes) with Some l => l | None => [] end in
  let pipelineRuns :=
    match kn_pipelineRuns (facets svcRes) with Some l => l | None => [] end in
  let knativeSvc := obj svcRes in
  let uid := objUid knativeSvc in
  let labels := objLabels knativeSvc in
  let annotations := objAnnotations knativeSvc in
  {| tdo_id := uid;
     tdo_name :=
       orElse (objName knativeSvc)
              (lookupKey "app.kubernetes.io/instance" labels);
     tdo_type := type;
     tdo_resource := K8sObject resource;
     tdo_resources := svcRes;
     tdo_data :=
       {| dp_url := getKnativeServiceRoutesURL knativeSvc;
          dp_kind := Some (referenceFor knativeSvc);
          dp_editURL := lookupKey "app.openshift.io/edit-url" annotations;
          dp_vcsURI := lookupKey "app.openshift.io/vcs-uri" annotations;
          dp_isKnativeResource := Some true;
          dp_pipeline := nth_error pipelines 0;
          dp_pipelineRuns := Some pipelineRuns;
          dp_build :=
            match kn_buildConfigs (facets svcRes) with
            | Some (bc :: _) => nth_error (bc_builds bc) 0
            | _ => None
            end;
          sinkUri := None |} |}.

Definition createTopologyPubSubNodeData (resource : Resource)
    (res : TopologyOverviewItem) (type : string) : TopologyDataObject :=
  {| tdo_id := objUid (obj res);
     tdo_name :=
       orElse (objName (obj res))
              (lookupKey "app.kubernetes.io/instance" (objLabels (obj res)));
     tdo_type := type;
     tdo_resource := K8sObject resource;
     tdo_resources := res;
     tdo_data :=
       {| dp_url := None;
          dp_kind := Some (referenceFor (obj res));
          dp_editURL := None;
          dp_vcsURI := None;
          dp_isKnativeResource := Some true;
          dp_pipeline := None;
          dp_pipelineRuns := None;
          dp_build := None;
          sinkUri := None |} |}.

(** [{...p, sinkUri}]. *)
Definition withSinkUri (p : DataPayload) (u : string) : DataPayload :=
  {| dp_url := dp_url p; dp_kind := dp_kind p; dp_editURL := dp_editURL p;
     dp_vcsURI := dp_vcsURI p;
     dp_isKnativeResource := dp_isKnativeResource p;
     dp_pipeline := dp_pipeline p; dp_pipelineRuns := dp_pipelineRuns p;
     dp_build := dp_build p; sinkUri := Some u |}.

(** [{...item, obj, eventSources}]. *)
Definition withSinkObj (item : TopologyOverviewItem)
    (o : TopologyResourceObject) (evs : list Resource)
    : TopologyOverviewItem :=
  {| obj := o; alerts := alerts item; current := current item;
     isRollingOut := isRollingOut item; previous := previous item;
     routes := routes item; services := services item;
     associatedDeployment := associatedDeployment item;
     facets :=
       spread (facets item)
         {| kn_configurations := None; kn_revisions := None;
            kn_ksroutes := None; kn_buildConfigs := None; kn_pods := None;
            kn_eventSources := Some evs;
            kn_eventingsubscription := None; kn_ksservices := None;
            kn_triggers := None; kn_deployments := None;
            kn_pipelines := None; kn_pipelineRuns := None |} |}.

(** The data object of the synthetic node of a sink URI. *)
Definition sinkUriData (dyn : DynamicModels)
    (resources : TopologyDataResources) (data : TopologyDataObject)
    (sinkUri : string) (sinkTargetUid : string) : TopologyDataObject :=
  let eventSourcesData := getEventSourcesData dyn sinkUri resources in
  let sinkUriObj :=
    {| su_uid := sinkTargetUid;
       su_namespace :=
         match orElse (resourceNamespace (obj (tdo_resources data)))
                      (Some "") with
         | Some ns => ns
         | None => ""
         end;
       su_sinkUri := sinkUri;
       su_nodeType := NodeType.SinkUri |} in
  {| tdo_id := sinkTargetUid;
     tdo_name := Some "URI";
     tdo_type := NodeType.SinkUri;
     tdo_resource := SinkUriObject sinkUriObj;
     tdo_resources :=
       withSinkObj (tdo_resources data) (SinkUriObject sinkUriObj)
                   eventSourcesData;
     tdo_data := withSinkUri (tdo_data data) sinkUri |}.

(** The body of the loop of [transformKnNodeData] for an event source. *)
Definition eventSourceStep (dyn : DynamicModels)
    (resources : TopologyDataResources) (utils : option (list KnativeUtil))
    (type : string) (knDataModel : Model) (res : Resource) : Model :=
  let item := createKnativeDeploymentItems res resources utils in
  let data :=
    createTopologyNodeData res item type
      (getImageForIconClass "icon-openshift") in
  let nodes1 :=
    nodes knDataModel
    ++ getKnativeTopologyNodeItems res type data (Some resources) in
  let edges1 :=
    edges knDataModel ++ getEventTopologyEdgeItems res (ksservices resources) in
  let sinkUri := specSinkUri res in
  let sinkTargetUid := getSinkTargetUid nodes1 sinkUri in
  let sinkPart :=
    match sinkUri with
    | Some u =>
        if Js.truthy u then
          let created :=
            if negb (Js.truthy sinkTargetUid) then
              let sinkTargetUid := Uri.encodeURIComponent u in
              (nodes1
               ++ getSinkUriTopologyNodeItems NodeType.SinkUri sinkTargetUid
                    (sinkUriData dyn resources data u sinkTargetUid),
               sinkTargetUid)
            else (nodes1, sinkTargetUid) in
          (fst created,
           edges1 ++ getSinkUriTopologyEdgeItems res (snd created))
        else (nodes1, edges1)
    | None => (nodes1, edges1)
    end in
  let edges3 :=
    if negb (isInternalResource res) then
      fold_left
        (fun es currentProp =>
           match category resources currentProp with
           | Some d => es ++ getEventTopologyEdgeItems res d
           | None => es
           end)
        (channelModelRefs dyn) (snd sinkPart)
    else snd sinkPart in
  let edges4 := edges3 ++ getEventTopologyEdgeItems res (brokers resources) in
  let newGroup := getTopologyGroupItems res in
  {| nodes := mergeGroup newGroup (fst sinkPart); edges := edges4 |}.

Definition knServiceStep (resources : TopologyDataResources)
    (utils : option (list KnativeUtil)) (type : string)
    (knDataModel : Model) (res : Resource) : Model :=
  let item := createKnativeDeploymentItems res resources utils in
  let data := createTopologyServiceNodeData res item type in
  let nodes1 :=
    nodes knDataModel
    ++ getKnativeTopologyNodeItems res type data (Some resources) in
  let edges1 :=
    edges knDataModel ++ getTrafficTopologyEdgeItems res (revisions resources) in
  let newGroup := getTopologyGroupItems res in
  {| nodes := mergeGroup newGroup nodes1; edges := edges1 |}.

(** The body of the loop for a pub/sub resource.  The loop computes the
    overview item of every resource, with the enrichment functions, before
    it looks at the type; the pub/sub case does not read it. *)
Definition pubSubStep (dyn : DynamicModels)
    (resources : TopologyDataResources) (utils : option (list KnativeUtil))
    (type : string) (knDataModel : Model) (res : Resource) : Model :=
  let item := createKnativeDeploymentItems res resources utils in
  if negb (isInternalResource res) then
    let itemData := createPubSubDataItems dyn res resources in
    let data := createTopologyPubSubNodeData res itemData type in
    let nodes1 :=
      nodes knDataModel
      ++ getKnativeTopologyNodeItems res type data (Some resources) in
    let edges1 :=
      if kind res =? model_kind EventingBrokerModel
      then edges knDataModel ++ getTriggerTopologyEdgeItems res resources
      else edges knDataModel ++ getSubscriptionTopologyEdgeItems res resources in
    let newGroup := getTopologyGroupItems res in
    {| nodes := mergeGroup newGroup nodes1; edges := edges1 |}
  else knDataModel.

(** [dyn] is what the two registry getters return while the graph is
    built. *)
Definition transformKnNodeData (dyn : DynamicModels)
    (knResourcesData : list Resource) (type : string)
    (resources : TopologyDataResources) (utils : option (list KnativeUtil))
    : Model :=
  fold_left
    (fun knDataModel res =>
       if type =? NodeType.EventSource then
         eventSourceStep dyn resources utils type knDataModel res
       else if type =? NodeType.KnService then
         knServiceStep resources utils type knDataModel res
       else if type =? NodeType.PubSub then
         pubSubStep dyn resources utils type knDataModel res
       else
         (* [default: break]: the overview item has been computed all the
            same, and nothing reads it *)
         let item := createKnativeDeploymentItems res resources utils in
         knDataModel)
    knResourcesData {| nodes := []; edges := [] |}.

End Assembler.

(** ** Mutation operations *)

(** A reference to an object: [===] on objects compares [addr], never the
    content. *)
Record Ref (A : Type) := {
  addr : nat;
  deref : A
}.

Definition sameRef {A B} (a : Ref A) (b : Ref B) : bool :=
  (addr a =? addr b)%nat.

(** The error a failed API call rejects with. *)
Record ErrorValue := { message : string }.

(** A settled promise with values in [A] and rejection reasons in [E]. *)
Inductive Promise (A E : Type) :=
| Resolved (a : A)
| Rejected (reason : E).

Arguments Resolved {A E} a.
Arguments Rejected {A E} reason.

(** The reasons a promise of this module rejects with: [undefined] for
    [Promise.reject()], or the error of the API client. *)
Definition Reason := option ErrorValue.

(** The trigger object literal of [createEventingTrigger]. *)
Record TriggerObject := {
  trigger_apiVersion : string;
  trigger_kind : string;
  trigger_name : string;
  trigger_namespace : option string;
  trigger_broker : string;
  trigger_subscriber_ref : ObjectReference
}.

Inductive ApiCall :=
| Create (model : K8sKind) (payload : TriggerObject)
| Update (model : K8sKind) (payload : Resource).

Record ErrorModalProps := {
  title : string;
  error_message : string;
  showIcon : bool
}.

(** What an operation does to the outside: API calls issued and error
    modals opened, in order. *)
Inductive Effect :=
| Issued (call : ApiCall)
| Notified (props : ErrorModalProps).

(** A computation that returns [A] and leaves a trace of effects. *)
Definition Eff (A : Type) : Type := (list Effect * A)%type.

Definition ret {A} (a : A) : Eff A := ([], a).

Definition bind {A B} (m : Eff A) (k : A -> Eff B) : Eff B :=
  let '(t1, a) := m in
  let '(t2, b) := k a in
  (t1 ++ t2, b).

Notation "x <- m ;; k" := (bind m (fun x => k))
  (at level 61, m at next level, right associativity).

Definition trace {A} (m : Eff A) : list Effect := fst m.
Definition result {A} (m : Eff A) : A := snd m.

(** The API client: how the cluster settles a call; a failed call rejects
    with an error. *)
Definition ApiClient := ApiCall -> Promise Resource ErrorValue.

Section Mutations.

Context `{Platform}.

Variable cluster : ApiClient.

Definition k8sCreate (model : K8sKind) (payload : TriggerObject)
    : Eff (Promise Resource ErrorValue) :=
  ([Issued (Create model payload)], cluster (Create model payload)).

Definition k8sUpdate (model : K8sKind) (payload : Resource)
    : Eff (Promise Resource ErrorValue) :=
  ([Issued (Update model payload)], cluster (Update model payload)).

Definition errorModal (props : ErrorModalProps) : Eff unit :=
  ([Notified props], tt).

(** A promise of the API client, returned as it is. *)
Definition passOn {A} (p : Promise A ErrorValue) : Promise A Reason :=
  match p with
  | Resolved a => Resolved a
  | Rejected e => Rejected (Some e)
  end.

(** [{...spec, sink}]; an absent [spec] spreads to nothing. *)
Definition withSink (sp : option Spec) (s : Sink) : Spec :=
  match sp with
  | Some sp =>
      {| sink := Some s; broker := broker sp; subscriber := subscriber sp;
         channel := channel sp;
         subscribable_subscribers := subscribable_subscribers sp;
         subscribers := subscribers sp; spec_rest := spec_rest sp |}
  | None =>
      {| sink := Some s; broker := None; subscriber := None;
         channel := None; subscribable_subscribers := None;
         subscribers := None; spec_rest := [] |}
  end.

(** The sink written for a target. *)
Definition sinkFor (target : TopologyResourceObject) : Sink :=
  match target with
  | SinkUriObject o =>
      if NodeType.SinkUri =? su_nodeType o then
        {| sink_ref := None; sink_uri := Some (su_sinkUri o);
           sink_name := None |}
      else
        {| sink_ref :=
             Some {| ref_apiVersion := None; ref_kind := None;
                     ref_name := None |};
           sink_uri := None; sink_name := None |}
  | K8sObject t =>
      let targetName := name (metadata t) in
      {| sink_ref :=
           Some {| ref_apiVersion := apiVersion t;
                   ref_kind := Some (kind t);
                   ref_name := Some targetName |};
         sink_uri := None; sink_name := None |}
  end.

Definition createKnativeEventSourceSink (source : option (Ref Resource))
    (target : option (Ref TopologyResourceObject))
    : Eff (Promise Resource Reason) :=
  match source, target with
  | Some src, Some tgt =>
      if sameRef src tgt then ret (Rejected None)
      else
        let source := deref src in
        let sink := sinkFor (deref tgt) in
        let updatePayload :=
          {| apiVersion := apiVersion source;
             kind := kind source;
             metadata := metadata source;
             spec := Some (withSink (spec source) sink);
             status := None |} in
        updated <- k8sUpdate (modelFor (referenceFor (K8sObject source)))
                     updatePayload ;;
        ret (passOn updated)
  | _, _ => ret (Rejected None)
  end.

(** [random] is what [getRandomChars()] returns.  The promise resolves
    with the created object, or with [undefined] once the handler of
    [catch] has run. *)
Definition createEventingTrigger (random : string) (broker : Resource)
    (service : Resource) : Eff (Promise (option Resource) Reason) :=
  let trigger :=
    {| trigger_apiVersion :=
         (model_apiGroup EventingTriggerModel ++ "/"
          ++ model_apiVersion EventingTriggerModel)%string;
       trigger_kind := model_kind EventingTriggerModel;
       trigger_name :=
         (name (metadata broker) ++ "-trigger-" ++ random)%string;
       trigger_namespace := namespace (metadata broker);
       trigger_broker := name (metadata broker);
       trigger_subscriber_ref :=
         {| ref_apiVersion :=
              Some (model_apiGroup ServiceModel ++ "/"
                    ++ model_apiVersion ServiceModel)%string;
            ref_kind := Some (model_kind ServiceModel);
            ref_name := Some (name (metadata service)) |} |} in
  created <- k8sCreate EventingTriggerModel trigger ;;
  match created with
  | Resolved r => ret (Resolved (Some r))
  | Rejected error =>
      _ <- errorModal
             {| title := "Error creating trigger";
                error_message := message error;
                showIcon := true |} ;;
      ret (Resolved None)
  end.

End Mutations.

(** ** A sample platform and sample resources

    Concrete helpers, used to run the module on examples. *)

Module Sample.

Definition brokerModel : K8sKind :=
  {| model_apiGroup := "eventing.knative.dev"; model_apiVersion := "v1";
     model_kind := "Broker"; model_plural := "brokers" |}.

Definition serviceModel : K8sKind :=
  {| model_apiGroup := "serving.knative.dev"; model_apiVersion := "v1";
     model_kind := "Service"; model_plural := "services" |}.

Definition triggerModel : K8sKind :=
  {| model_apiGroup := "eventing.knative.dev"; model_apiVersion := "v1";
     model_kind := "Trigger"; model_plural := "triggers" |}.

Definition deploymentModel : K8sKind :=
  {| model_apiGroup := "apps"; model_apiVersion := "v1";
     model_kind := "Deployment"; model_plural := "deployments" |}.

Definition podModel : K8sKind :=
  {| model_apiGroup := "core"; model_apiVersion := "v1";
     model_kind := "Pod"; model_plural := "pods" |}.

Definition workloadProps : ModelProps :=
  {| width := (104 # 1)%Q; height := (104 # 1)%Q; visible := true;
     collapsed := None; group := Some false; shape := None;
     style_padding := [(0 # 1)%Q; (20 # 1)%Q] |}.

Definition partOf (r : Resource) : option string :=
  lookupKey "app.kubernetes.io/part-of" (labels (metadata r)).

(** An application group node for a resource carrying the part-of label. *)
Definition groupItems (r : Resource) : option NodeModel :=
  match partOf r with
  | Some app =>
      Some {| node_id := ("group:" ++ app)%string;
              node_type := "part-of";
              node_resource := None;
              node_data := None;
              node_children := [uid (metadata r)];
              node_props := Some workloadProps |}
  | None => None
  end.

Definition addChildren (extra : list string) (n : NodeModel) : NodeModel :=
  {| node_id := node_id n; node_type := node_type n;
     node_resource := node_resource n; node_data := node_data n;
     node_children :=
       node_children n
       ++ filter (fun c => negb (Js.includes (node_children n) c)) extra;
     node_props := node_props n |}.

(** Push the group unless a node of that id and type is there already, in
    which case only its children grow. *)
Definition merge (newGroup : option NodeModel) (existing : list NodeModel)
    : list NodeModel :=
  match newGroup with
  | None => existing
  | Some g =>
      let same n := (node_id n =? node_id g) && (node_type n =? "part-of") in
      match Js.findIndex same existing with
      | Some i => Js.update_at i (addChildren (node_children g)) existing
      | None => existing ++ [g]
      end
  end.

Definition nodeData (r : Resource) (item : TopologyOverviewItem)
    (type icon : string) : TopologyDataObject :=
  {| tdo_id := uid (metadata r);
     tdo_name := Some (name (metadata r));
     tdo_type := type;
     tdo_resource := K8sObject r;
     tdo_resources := item;
     tdo_data :=
       {| dp_url := None; dp_kind := Some (kind r); dp_editURL := None;
          dp_vcsURI := None; dp_isKnativeResource := Some true;
          dp_pipeline := None; dp_pipelineRuns := None; dp_build := None;
          sinkUri := None |} |}.

Definition activeApplication (l : list (option Resource)) (app : string)
    : list (option Resource) :=
  if Js.truthy app then
    filter (fun o => match o with
                     | Some r => Js.strict_eq (partOf r) (Some app)
                     | None => false
                     end) l
  else l.

Definition platform : Platform :=
  {| EventingBrokerModel := brokerModel;
     ServiceModel := serviceModel;
     EventingTriggerModel := triggerModel;
     DeploymentModel := deploymentModel;
     PodModel := podModel;
     NODE_WIDTH := (104 # 1)%Q;
     NODE_HEIGHT := (104 # 1)%Q;
     NODE_PADDING := [(0 # 1)%Q; (20 # 1)%Q];
     KNATIVE_GROUP_NODE_WIDTH := (300 # 1)%Q;
     KNATIVE_GROUP_NODE_HEIGHT := (180 # 1)%Q;
     KNATIVE_GROUP_NODE_PADDING := [(16 # 1)%Q; (24 # 1)%Q];
     WorkloadModelProps := workloadProps;
     apiVersionForModel :=
       fun m => (model_apiGroup m ++ "/" ++ model_apiVersion m)%string;
     referenceFor := fun o => match o with
                              | K8sObject r => kind r
                              | SinkUriObject _ => ""
                              end;
     modelFor := fun ref =>
       {| model_apiGroup := ""; model_apiVersion := "";
          model_kind := ref; model_plural := "" |};
     getReplicaSetsForResource := fun _ _ => [];
     getBuildConfigsForResource := fun _ _ => [];
     getServicesForResource := fun _ _ => [];
     getRoutesForServices := fun _ _ => [];
     getResourcePausedAlert := fun _ => [];
     getBuildAlerts := fun _ => [];
     getImageForIconClass := fun c => c;
     createTopologyNodeData := nodeData;
     getTopologyGroupItems := groupItems;
     mergeGroup := merge;
     filterBasedOnActiveApplication := activeApplication |}.

(** A resource with the given kind, uid, name and owners. *)
Definition mk (k u n : string) (owners : option (list string)) : Resource :=
  {| apiVersion := Some "v1";
     kind := k;
     metadata :=
       {| uid := u; name := n; namespace := Some "ns";
          ownerReferences :=
            match owners with
            | Some l => Some (map (fun o => {| owner_uid := o |}) l)
            | None => None
            end;
          labels := []; annotations := [] |};
     spec := None;
     status := None |}.

Definition withStatus (r : Resource) (tr : option (list Traffic)) : Resource :=
  {| apiVersion := apiVersion r; kind := kind r; metadata := metadata r;
     spec := spec r;
     status := Some {| traffic := tr; status_url := None |} |}.

Definition withSpecSink (r : Resource) (s : Sink) : Resource :=
  {| apiVersion := apiVersion r; kind := kind r; metadata := metadata r;
     spec :=
       Some {| sink := Some s; broker := None; subscriber := None;
               channel := None; subscribable_subscribers := None;
               subscribers := None; spec_rest := [("mode", "Reference")] |};
     status := status r |}.

Definition entry (rev : string) (p : float) : Traffic :=
  {| revisionName := rev; percent := Some p; traffic_url := None |}.

Definition uriSink (u : string) : Sink :=
  {| sink_ref := None; sink_uri := Some u; sink_name := None |}.

Definition refSink (k n : string) : Sink :=
  {| sink_ref := Some {| ref_apiVersion := Some "v1"; ref_kind := Some k;
                         ref_name := Some n |};
     sink_uri := None; sink_name := None |}.

Definition snapshot (deps confs revs svcs brs : list Resource)
    (rest : string -> option (list Resource)) : TopologyDataResources :=
  {| deployments := deps; configurations := confs; revisions := revs;
     ksservices := svcs; brokers := brs; others := rest |}.

Definition noOthers : string -> option (list Resource) := fun _ => None.

(** A service owning two configurations, each owning one revision. *)
Definition svc : Resource :=
  withStatus (mk "Service" "svc-uid" "svc" None)
             (Some [entry "r1" 30; entry "r1" 20]).
Definition conf1 : Resource := mk "Configuration" "c1-uid" "c1" (Some ["svc-uid"]).
Definition conf2 : Resource := mk "Configuration" "c2-uid" "c2" (Some ["svc-uid"]).
Definition rev1 : Resource := mk "Revision" "r1-uid" "r1" (Some ["c1-uid"]).
Definition rev2 : Resource := mk "Revision" "r2-uid" "r2" (Some ["c2-uid"]).

Definition servingSnapshot : TopologyDataResources :=
  snapshot [] [conf1; conf2] [rev1; rev2] [svc] [] noOthers.

(** Two event sources sending to the same URI, and one sending to a
    channel. *)
Definition src1 : Resource :=
  withSpecSink (mk "PingSource" "es1-uid" "es1" None) (uriSink "http://x").
Definition src2 : Resource :=
  withSpecSink (mk "ApiServerSource" "es2-uid" "es2" None) (uriSink "http://x").
Definition src3 : Resource :=
  withSpecSink (mk "PingSource" "es3-uid" "es3" None)
               (refSink "InMemoryChannel" "ch").
Definition chan : Resource := mk "InMemoryChannel" "ch-uid" "ch" None.

Definition channelKey := "messaging.knative.dev~v1~InMemoryChannel".

Definition eventingSnapshot : TopologyDataResources :=
  snapshot [] [] [] [] []
           (fun k => if k =? channelKey then Some [chan] else None).

(** The registry before and after the channel models are discovered. *)
Definition registryEmpty : DynamicModels :=
  {| eventSourceModelRefs := []; channelModelRefs := [] |}.
Definition registryLoaded : DynamicModels :=
  {| eventSourceModelRefs := []; channelModelRefs := [channelKey] |}.

(** A cluster that accepts nothing, and one that echoes updates. *)
Definition failing : ApiClient :=
  fun _ => Rejected {| message := "admission webhook denied the request" |}.

Definition accepting : ApiClient :=
  fun call => match call with
              | Update _ r => Resolved r
              | Create _ t =>
                  Resolved (mk (trigger_kind t) "new-uid" (trigger_name t) None)
              end.

End Sample.


(** ** Further operations of the module *)

Section MoreOperations.

Context `{Platform}.

Variable cluster : ApiClient.

(** [{...spec, subscriber}]; an absent [spec] spreads to nothing. *)
Definition withSubscriber (sp : option Spec) (s : Subscriber) : Spec :=
  match sp with
  | Some sp =>
      {| sink := sink sp; broker := broker sp; subscriber := Some s;
         channel := channel sp;
         subscribable_subscribers := subscribable_subscribers sp;
         subscribers := subscribers sp; spec_rest := spec_rest sp |}
  | None =>
      {| sink := None; broker := None; subscriber := Some s;
         channel := None; subscribable_subscribers := None;
         subscribers := None; spec_rest := [] |}
  end.

Definition createEventingPubSubSink (subObj : option Resource)
    (target : option Resource) : Eff (Promise Resource Reason) :=
  match subObj, target with
  | Some subObj, Some target =>
      let subscriptionObj :=
        {| apiVersion := apiVersion subObj; kind := kind subObj;
           metadata := metadata subObj; spec := spec subObj;
           status := None |} in
      let sink :=
        {| subscriber_ref :=
             Some {| ref_apiVersion := apiVersion target;
                     ref_kind := Some (kind target);
                     ref_name := Some (name (metadata target)) |} |} in
      let updatePayload :=
        {| apiVersion := apiVersion subscriptionObj;
           kind := kind subscriptionObj;
           metadata := metadata subscriptionObj;
           spec := Some (withSubscriber (spec subscriptionObj) sink);
           status := None |} in
      updated <- k8sUpdate cluster
                   (modelFor (referenceFor (K8sObject subscriptionObj)))
                   updatePayload ;;
      ret (passOn updated)
  | _, _ => ret (Rejected None)
  end.

(** [o[k] = v] on an object used as a map: an existing key keeps its place
    and takes the new value, a new key is added. *)
Fixpoint setProperty {V} (k : string) (v : V) (o : list (string * V))
    : list (string * V) :=
  match o with
  | [] => [(k, v)]
  | (k', v') :: tl =>
      if k' =? k then (k, v) :: tl else (k', v') :: setProperty k v tl
  end.

(** [o[k]]. *)
Definition getProperty {V} (k : string) (o : list (string * V)) : option V :=
  match find (fun kv => fst kv =? k) o with
  | Some kv => Some (snd kv)
  | None => None
  end.

(** [_.omit(item, ['pipelines', 'pipelineRuns', 'buildConfigs'])]. *)
Definition omitBuildFacets (item : TopologyOverviewItem)
    : TopologyOverviewItem :=
  {| obj := obj item; alerts := alerts item; current := current item;
     isRollingOut := isRollingOut item; previous := previous item;
     routes := routes item; services := services item;
     associatedDeployment := associatedDeployment item;
     facets :=
       {| kn_configurations := kn_configurations (facets item);
          kn_revisions := kn_revisions (facets item);
          kn_ksroutes := kn_ksroutes (facets item);
          kn_buildConfigs := None;
          kn_pods := kn_pods (facets item);
          kn_eventSources := kn_eventSources (facets item);
          kn_eventingsubscription := kn_eventingsubscription (facets item);
          kn_ksservices := kn_ksservices (facets item);
          kn_triggers := kn_triggers (facets item);
          kn_deployments := kn_deployments (facets item);
          kn_pipelines := None;
          kn_pipelineRuns := None |} |}.

(** The data object [getRevisionsData] stores for one resource. *)
Definition revisionNodeData (resources : TopologyDataResources)
    (utils : option (list KnativeUtil)) (res : Resource)
    : TopologyDataObject :=
  let item := createKnativeDeploymentItems res resources utils in
  let revisionItem := omitBuildFacets item in
  createTopologyNodeData res revisionItem NodeType.Revision
    (getImageForIconClass "icon-openshift").

Definition getRevisionsData (knResourcesData : list Resource)
    (resources : TopologyDataResources) (utils : option (list KnativeUtil))
    : list (string * TopologyDataObject) :=
  fold_left
    (fun revisionData res =>
       let uid := uid (metadata res) in
       setProperty uid (revisionNodeData resources utils res) revisionData)
    knResourcesData [].

End MoreOperations.

(** ** Sample pub/sub resources and a sample deployment *)

Module PubSubSample.

Definition withSpec (r : Resource) (sp : Spec) : Resource :=
  {| apiVersion := apiVersion r; kind := kind r; metadata := metadata r;
     spec := Some sp; status := status r |}.

Definition serviceRef (n : string) : Subscriber :=
  {| subscriber_ref :=
       Some {| ref_apiVersion := Some "serving.knative.dev/v1";
               ref_kind := Some "Service"; ref_name := Some n |} |}.

Definition triggerSpec (b n : string) : Spec :=
  {| sink := None; broker := Some b; subscriber := Some (serviceRef n);
     channel := None; subscribable_subscribers := None; subscribers := None;
     spec_rest := [] |}.

Definition subscriptionSpec (ch n : string) : Spec :=
  {| sink := None; broker := None; subscriber := Some (serviceRef n);
     channel :=
       Some {| ref_apiVersion := Some "messaging.knative.dev/v1";
               ref_kind := Some "InMemoryChannel"; ref_name := Some ch |};
     subscribable_subscribers := None; subscribers := None;
     spec_rest := [] |}.

Definition brokerRes : Resource := Sample.mk "Broker" "b-uid" "default" None.

(** Two triggers binding the broker to the same service. *)
Definition trigger1 : Resource :=
  withSpec (Sample.mk "Trigger" "t1-uid" "t1" None) (triggerSpec "default" "svc").
Definition trigger2 : Resource :=
  withSpec (Sample.mk "Trigger" "t2-uid" "t2" None) (triggerSpec "default" "svc").

Definition subscription1 : Resource :=
  withSpec (Sample.mk "Subscription" "s1-uid" "s1" None)
           (subscriptionSpec "ch" "svc").

(** A second service with the name of the first. *)
Definition svcTwin : Resource := Sample.mk "Service" "svc2-uid" "svc" None.

Definition snapshot : TopologyDataResources :=
  Sample.snapshot [] [] [] [Sample.svc; svcTwin] [brokerRes]
    (fun k => if k =? "triggers" then Some [trigger1; trigger2]
              else if k =? "eventingsubscription" then Some [subscription1]
              else None).

(** A deployment owned by the sample service. *)
Definition deployment : Resource :=
  Sample.mk "Deployment" "dep-uid" "svc-deployment" (Some ["svc-uid"]).

Definition deployedSnapshot : TopologyDataResources :=
  Sample.snapshot [deployment] [Sample.conf1] [Sample.rev1] [Sample.svc] []
                  Sample.noOthers.

(** A deployment as a list call returns it, without a kind, owned by the
    first revision; and a platform on which a resource typed as a
    deployment has a new and an old replica set, each with one pod. *)
Definition bareDeployment : Resource :=
  Sample.mk "" "dep1-uid" "rev1-deployment" (Some ["r1-uid"]).

Definition podNew : Resource := Sample.mk "Pod" "p2-uid" "pod-new" None.
Definition podOld : Resource := Sample.mk "Pod" "p1-uid" "pod-old" None.

Definition replicaSets (dep : Resource) (_ : TopologyDataResources)
    : list ReplicaSetItem :=
  if kind dep =? "Deployment" then
    [ {| rs_obj := Sample.mk "ReplicaSet" "rs2-uid" "rs-new" None;
         rs_pods := Some [podNew] |};
      {| rs_obj := Sample.mk "ReplicaSet" "rs1-uid" "rs-old" None;
         rs_pods := Some [podOld] |} ]
  else [].

Definition rollingPlatform : Platform :=
  {| EventingBrokerModel := Sample.brokerModel;
     ServiceModel := Sample.serviceModel;
     EventingTriggerModel := Sample.triggerModel;
     DeploymentModel := Sample.deploymentModel;
     PodModel := Sample.podModel;
     NODE_WIDTH := (104 # 1)%Q;
     NODE_HEIGHT := (104 # 1)%Q;
     NODE_PADDING := [(0 # 1)%Q; (20 # 1)%Q];
     KNATIVE_GROUP_NODE_WIDTH := (300 # 1)%Q;
     KNATIVE_GROUP_NODE_HEIGHT := (180 # 1)%Q;
     KNATIVE_GROUP_NODE_PADDING := [(16 # 1)%Q; (24 # 1)%Q];
     WorkloadModelProps := Sample.workloadProps;
     apiVersionForModel :=
       fun m => (model_apiGroup m ++ "/" ++ model_apiVersion m)%string;
     referenceFor := fun o => match o with
                              | K8sObject r => kind r
                              | SinkUriObject _ => ""
                              end;
     modelFor := fun ref =>
       {| model_apiGroup := ""; model_apiVersion := "";
          model_kind := ref; model_plural := "" |};
     getReplicaSetsForResource := replicaSets;
     getBuildConfigsForResource := fun _ _ => [];
     getServicesForResource := fun _ _ => [];
     getRoutesForServices := fun _ _ => [];
     getResourcePausedAlert := fun _ => [];
     getBuildAlerts := fun _ => [];
     getImageForIconClass := fun c => c;
     createTopologyNodeData := Sample.nodeData;
     getTopologyGroupItems := Sample.groupItems;
     mergeGroup := Sample.merge;
     filterBasedOnActiveApplication := Sample.activeApplication |}.

(** The first revision owns [bareDeployment]; the service owns none. *)
Definition rolloutSnapshot : TopologyDataResources :=
  Sample.snapshot [bareDeployment] [Sample.conf1] [Sample.rev1] [Sample.svc]
                  [] Sample.noOthers.

End PubSubSample.

(** * Vocabulary of the properties *)

(** [candidate]'s uid is listed among the owner references of [resource]. *)
Definition listedOwner (resource : option Resource) (candidate : Resource)
    : Prop :=
  exists r owners o,
    resource = Some r /\ ownerReferences (metadata r) = Some owners /\
    In o owners /\ owner_uid o = uid (metadata candidate).

(** [p] is the first of the [candidates], in collection order, that is
    listed among the owner references of [resource]. *)
Definition firstListedOwner (resource : option Resource)
    (candidates : list Resource) (p : Resource) : Prop :=
  exists before after,
    candidates = before ++ p :: after /\ listedOwner resource p /\
    forall c, In c before -> ~ listedOwner resource c.

(** The resource carries an owner reference: its [metadata.ownerReferences]
    has an entry. *)
Definition carriesOwnerReference (resource : Resource) : Prop :=
  exists owners o,
    ownerReferences (metadata resource) = Some owners /\ In o owners.

(** [service] lists [revision] in its [status.traffic]. *)
Definition listsRevision (service revision : Resource) : Prop :=
  exists st tr t,
    status service = Some st /\ traffic st = Some tr /\ In t tr /\
    revisionName t = name (metadata revision).

(** The two-hop chain revision, configuration, service. *)
Definition owningService (resources : TopologyDataResources)
    (revision : Resource) : option Resource :=
  getParentResource
    (getParentResource (Some revision) (configurations resources))
    (ksservices resources).

(** The resource has no [status.traffic]. *)
Definition noTrafficList (resource : Resource) : Prop :=
  match status resource with
  | Some st => traffic st = None
  | None => True
  end.

(** No enrichment function supplies a [revisions] facet for the resource. *)
Definition leaveRevisions (utils : option (list KnativeUtil))
    (resource : Resource) (resources : TopologyDataResources) : Prop :=
  forall us util extra,
    utils = Some us -> In util us -> util resource resources = Some extra ->
    kn_revisions extra = None.

(** [status.traffic] of a resource, or the empty list. *)
Definition trafficOf (resource : Resource) : list Traffic :=
  match status resource with
  | Some st => match traffic st with Some l => l | None => [] end
  | None => []
  end.

(** The revision uid a traffic entry resolves to: the uid of the first
    revision named as the entry says, when that uid is not empty. *)
Definition resolvedUid (data : list Resource) (t : Traffic) : option string :=
  match find (fun rev => name (metadata rev) =? revisionName t) data with
  | Some rev =>
      if Js.truthy (metaUid rev) then Some (metaUid rev) else None
  | None => None
  end.

(** The entries that resolve to the revision of uid [ru]. *)
Definition entriesFor (data : list Resource) (ru : string)
    (entries : list Traffic) : list Traffic :=
  filter (fun t => Js.strict_eq (resolvedUid data t) (Some ru)) entries.

(** The percent of an entry as a number: [NaN] when the entry has none. *)
Definition percentValue (t : Traffic) : float :=
  match percent t with
  | Some x => x
  | None => nan
  end.

(** The percent of the edge that stands for [entries]: that of a single
    entry as it was read; of several, their percents added as doubles from
    the first entry on, in the order of the entries. *)
Definition totalPercent (entries : list Traffic) : option float :=
  match entries with
  | [] => None
  | [t] => percent t
  | t :: rest =>
      Some (fold_left (fun acc t' => (acc + percentValue t')%float) rest
                      (percentValue t))
  end.

(** The percent of the entry is a number other than [NaN]: [_.maxBy]
    ranks the entry. *)
Definition ranked (t : Traffic) : Prop :=
  exists x, percent t = Some x /\ is_nan x = false.

Definition trafficEdge (uid ru : string) (p : option float) : EdgeModel :=
  {| edge_id := edgeId uid ru;
     edge_type := EdgeType.Traffic;
     source := uid;
     target := ru;
     data := TrafficData p |}.

(** What holds of the edges once the entries [processed] have been read. *)
Definition trafficInv (uid : string) (data : list Resource)
    (processed : list Traffic) (es : list EdgeModel) : Prop :=
  NoDup (map target es)
  /\ (forall e, In e es ->
        entriesFor data (target e) processed <> []
        /\ e = trafficEdge uid (target e)
                 (totalPercent (entriesFor data (target e) processed)))
  /\ (forall ru, entriesFor data ru processed <> [] -> In ru (map target es)).

(** The trigger object [createEventingTrigger] sends for a broker, a service
    and the random characters drawn. *)
Definition triggerFor `{Platform} (random : string) (broker service : Resource)
    : TriggerObject :=
  {| trigger_apiVersion :=
       (model_apiGroup EventingTriggerModel ++ "/"
        ++ model_apiVersion EventingTriggerModel)%string;
     trigger_kind := model_kind EventingTriggerModel;
     trigger_name := (name (metadata broker) ++ "-trigger-" ++ random)%string;
     trigger_namespace := namespace (metadata broker);
     trigger_broker := name (metadata broker);
     trigger_subscriber_ref :=
       {| ref_apiVersion :=
            Some (model_apiGroup ServiceModel ++ "/"
                  ++ model_apiVersion ServiceModel)%string;
          ref_kind := Some (model_kind ServiceModel);
          ref_name := Some (name (metadata service)) |} |}.

(** [{uri}] and [{ref: {apiVersion, kind, name}}]. *)
Definition uriOnly (u : string) : Sink :=
  {| sink_ref := None; sink_uri := Some u; sink_name := None |}.

Definition refOnly (v k n : option string) : Sink :=
  {| sink_ref := Some {| ref_apiVersion := v; ref_kind := k; ref_name := n |};
     sink_uri := None; sink_name := None |}.

(** [sp] is [sp0] but for its [sink]. *)
Definition sameButSink (sp sp0 : Spec) : Prop :=
  broker sp = broker sp0 /\ subscriber sp = subscriber sp0
  /\ channel sp = channel sp0
  /\ subscribable_subscribers sp = subscribable_subscribers sp0
  /\ subscribers sp = subscribers sp0 /\ spec_rest sp = spec_rest sp0.

(** The nodes that carry a sink URI, as (uri, (id, type)). *)
Definition sinkEntries (ns : list NodeModel)
    : list (string * (string * string)) :=
  flat_map (fun n => match nodeSinkUri n with
                     | Some u => [(u, (node_id n, node_type n))]
                     | None => []
                     end) ns.

(** The nodes whose embedded sink URI is [u]. *)
Definition sinkNodesFor (u : string) (ns : list NodeModel) : list NodeModel :=
  filter (fun n => Js.strict_eq (nodeSinkUri n) (Some u)) ns.

(** The event source sends to the URI [u]. *)
Definition usesUri (u : string) (res : Resource) : bool :=
  Js.strict_eq (specSinkUri res) (Some u).

(** The edge from an event source to the node of the URI [u]. *)
Definition sinkEdge (res : Resource) (u : string) : EdgeModel :=
  {| edge_id := edgeId (uid (metadata res)) (Uri.encodeURIComponent u);
     edge_type := EdgeType.EventSource;
     source := uid (metadata res);
     target := Uri.encodeURIComponent u;
     data := NoData |}.

(** What the sink-URI bookkeeping needs of the imported helpers: the data
    built for an event source carries no sink URI of its own, and grouping
    neither adds, removes nor renames a node that carries one. *)
Definition HelpersKeepSinkUri `{Platform} : Prop :=
  (forall r item type icon,
      sinkUri (tdo_data (createTopologyNodeData r item type icon)) = None)
  /\ (forall res ns,
         sinkEntries (mergeGroup (getTopologyGroupItems res) ns)
         = sinkEntries ns).

(** What holds of the nodes once the event sources [processed] have been
    read: a URI in use has one node, and no other URI has any. *)
Definition sinkInv (processed : list Resource) (ns : list NodeModel) : Prop :=
  forall u,
    filter (fun e => fst e =? u) (sinkEntries ns)
    = if Js.truthy u && existsb (usesUri u) processed
      then [(u, (Uri.encodeURIComponent u, NodeType.SinkUri))]
      else [].

(** The edges one event source contributes. *)
Definition eventSourceEdges `{Platform} (dyn : DynamicModels)
    (resources : TopologyDataResources) (res : Resource) : list EdgeModel :=
  getEventTopologyEdgeItems res (ksservices resources)
  ++ match specSinkUri res with
     | Some u =>
         if Js.truthy u
         then getSinkUriTopologyEdgeItems res (Uri.encodeURIComponent u)
         else []
     | None => []
     end
  ++ (if negb (isInternalResource res)
      then flat_map (fun prop => match category resources prop with
                                 | Some d => getEventTopologyEdgeItems res d
                                 | None => []
                                 end)
                    (channelModelRefs dyn)
      else [])
  ++ getEventTopologyEdgeItems res (brokers resources).

(** A node without the payload of its data: id, type, children, sizing
    hints and embedded sink URI. *)
Definition nodeKey (n : NodeModel)
    : string * string * list string * option ModelProps * option string :=
  (node_id n, node_type n, node_children n, node_props n, nodeSinkUri n).

(** Grouping looks at nodes through [nodeKey] only. *)
Definition GroupingByKey `{Platform} : Prop :=
  forall g ns ns',
    map nodeKey ns = map nodeKey ns' ->
    map nodeKey (mergeGroup g ns) = map nodeKey (mergeGroup g ns').

(** Two graphs with the same nodes up to payload and the same edges. *)
Definition sameGraph (m1 m2 : Model) : Prop :=
  map nodeKey (nodes m1) = map nodeKey (nodes m2) /\ edges m1 = edges m2.

(** The edge from an event source to a candidate sink. *)
Definition eventEdge (res cand : Resource) : EdgeModel :=
  {| edge_id := edgeId (uid (metadata res)) (uid (metadata cand));
     edge_type := EdgeType.EventSource;
     source := uid (metadata res);
     target := uid (metadata cand);
     data := NoData |}.

(** The name a sink refers to: that of [sink.ref] when there is one, the
    bare [sink.name] otherwise. *)
Definition wantedName (s : Sink) : option string :=
  match sink_ref s with
  | Some rf => ref_name rf
  | None => sink_name s
  end.

(** The edge from a broker or channel to a service, carrying the trigger or
    subscription that binds them. *)
Definition pubSubEdge (from to binding : Resource) : EdgeModel :=
  {| edge_id := edgeId (uid (metadata from)) (uid (metadata to));
     edge_type := EdgeType.EventPubSubLink;
     source := uid (metadata from);
     target := uid (metadata to);
     data := ConnectionData binding [from; to] |}.

(** The trigger names the broker. *)
Definition namesBroker (broker trigger : Resource) : bool :=
  Js.strict_eq (Some (name (metadata broker))) (specBroker trigger).

(** The service is the one a trigger or subscription delivers to, by name. *)
Definition deliversTo (binding svc : Resource) : bool :=
  Js.strict_eq (Some (name (metadata svc))) (refName (subscriberRef binding)).

(** The subscription is on the channel, by name. *)
Definition onChannel (chan subRes : Resource) : bool :=
  Js.strict_eq (Some (name (metadata chan)))
               (refName (match spec subRes with
                         | Some sp => channel sp
                         | None => None
                         end)).

(** An edge that starts at [res], has the id [<source>_<target>] and the
    type [ty]. *)
Definition edgeFrom (res : Resource) (ty : string) (e : EdgeModel) : Prop :=
  source e = uid (metadata res)
  /\ edge_id e = edgeId (source e) (target e)
  /\ edge_type e = ty.

(** The edge type the assembler emits for a node type. *)
Definition edgeTypeFor (type : string) : string :=
  if type =? NodeType.EventSource then EdgeType.EventSource
  else if type =? NodeType.KnService then EdgeType.Traffic
  else EdgeType.EventPubSubLink.

(** The edges one broker or channel contributes. *)
Definition pubSubEdges `{Platform} (resources : TopologyDataResources)
    (res : Resource) : list EdgeModel :=
  if isInternalResource res then []
  else if kind res =? model_kind EventingBrokerModel
       then getTriggerTopologyEdgeItems res resources
       else getSubscriptionTopologyEdgeItems res resources.

(** [typed] is [original] given the api version and the kind of [model],
    with nothing else changed. *)
Definition typedAs `{Platform} (model : K8sKind) (typed original : Resource)
    : Prop :=
  apiVersion typed = Some (apiVersionForModel model)
  /\ kind typed = model_kind model
  /\ metadata typed = metadata original
  /\ spec typed = spec original
  /\ status typed = status original.

(** [pods] are the pods rolled up under a replica set: its [pods] property
    when the replica set is there and has one, no pod otherwise. *)
Definition rolledUpPods (rs : option ReplicaSetItem) (pods : list Resource)
    : Prop :=
  match rs with
  | Some r =>
      match rs_pods r with
      | Some p => pods = p
      | None => pods = []
      end
  | None => pods = []
  end.

(** [pods] are the pods a revision brings to the rollup: none when it owns
    no deployment; otherwise those of the first, then those of the second
    replica set of the first deployment it owns, typed as a deployment. *)
Definition revisionPods `{Platform} (resources : TopologyDataResources)
    (revision : Resource) (pods : list Resource) : Prop :=
  match getOwnedResources revision (deployments resources) with
  | d :: _ =>
      exists depObj current previous,
        typedAs DeploymentModel depObj d
        /\ rolledUpPods
             (nth_error (getReplicaSetsForResource depObj resources) 0)
             current
        /\ rolledUpPods
             (nth_error (getReplicaSetsForResource depObj resources) 1)
             previous
        /\ pods = current ++ previous
  | [] => pods = []
  end.

(** The revision as the rollup lists it: the bare revision when it owns no
    deployment; otherwise the revision with, as [resources], its pods and
    the first replica set of the first deployment it owns. *)
Definition revisionRollup `{Platform} (resources : TopologyDataResources)
    (revision : Resource) (listed : RevK8sResourceKind) : Prop :=
  rev_obj listed = revision
  /\ match getOwnedResources revision (deployments resources) with
     | d :: _ =>
         exists depObj attached,
           typedAs DeploymentModel depObj d
           /\ rev_resources listed = Some attached
           /\ revisionPods resources revision (rr_pods attached)
           /\ rr_current attached
              = nth_error (getReplicaSetsForResource depObj resources) 0
     | [] => rev_resources listed = None
     end.

(** The event source refers to the resource as its sink, by kind and name. *)
Definition sinksTo (resource evSrc : Resource) : bool :=
  let sinkRes :=
    match specSink evSrc with
    | Some s => sink_ref s
    | None => None
    end in
  Js.strict_eq (Some (kind resource)) (refKind sinkRes)
  && Js.strict_eq (Some (name (metadata resource))) (refName sinkRes).

(** The node of a revision kept by traffic. *)
Definition revisionNode `{Platform} (c : Resource) : NodeModel :=
  getTopologyNodeItem c NodeType.Revision None
    (Some (getKnNodeModelProps NodeType.Revision)) [].

(** * Properties *)

(** ** Lists and JavaScript primitives *)

Lemma includes_In (l : list string) (s : string) :
  Js.includes l s = true <-> In s l.
Proof.
  unfold Js.includes. rewrite existsb_exists. split.
  - intros [x [Hin Heq]]. apply String.eqb_eq in Heq. now subst.
  - intros Hin. exists s. split; [assumption | apply String.eqb_refl].
Qed.

Lemma first_filter_Some {A} (p : A -> bool) (l : list A) (x : A) :
  Js.first (filter p l) = Some x <->
  exists before after,
    l = before ++ x :: after /\ p x = true /\
    forall y, In y before -> p y = false.
Proof.
  induction l as [| a l IH]; simpl.
  - split; [discriminate |].
    intros (before & after & Heq & _). destruct before; discriminate.
  - destruct (p a) eqn:Hpa; simpl.
    + split.
      * intros Heq. injection Heq as ->. exists [], l. simpl. intuition.
      * intros (before & after & Heq & Hpx & Hbefore).
        destruct before as [| b before]; simpl in Heq.
        -- now injection Heq as ->.
        -- injection Heq as -> _. rewrite (Hbefore b) in Hpa by (now left).
           discriminate.
    + rewrite IH. split.
      * intros (before & after & -> & Hpx & Hbefore).
        exists (a :: before), after. simpl. repeat split; try assumption.
        intros y [<- | Hy]; auto.
      * intros (before & after & Heq & Hpx & Hbefore).
        destruct before as [| b before]; simpl in Heq.
        -- injection Heq as -> _. congruence.
        -- injection Heq as -> ->. exists before, after.
           repeat split; try assumption. intros y Hy. apply Hbefore. now right.
Qed.

Lemma first_filter_None {A} (p : A -> bool) (l : list A) :
  Js.first (filter p l) = None <-> forall y, In y l -> p y = false.
Proof.
  induction l as [| a l IH]; simpl.
  - split; [intros _ y [] | reflexivity].
  - destruct (p a) eqn:Hpa; simpl.
    + split; [discriminate |]. intros Hall. rewrite (Hall a) in Hpa by (now left).
      discriminate.
    + rewrite IH. split.
      * intros Hall y [<- | Hy]; auto.
      * intros Hall y Hy. apply Hall. now right.
Qed.

Lemma fold_left_push_if {A B} (p : A -> bool) (f : A -> B) (l : list A)
    (acc : list B) :
  fold_left (fun acc x => if p x then acc ++ [f x] else acc) l acc
  = acc ++ map f (filter p l).
Proof.
  revert acc. induction l as [| a l IH]; intros acc; simpl.
  - now rewrite app_nil_r.
  - rewrite IH. destruct (p a); simpl; [| reflexivity].
    now rewrite <- app_assoc.
Qed.

(** ** Resource resolver *)

Lemma parentUids_listed (resource : option Resource) (c : Resource) :
  Js.includes (parentUids resource) (uid (metadata c)) = true
  <-> listedOwner resource c.
Proof.
  rewrite includes_In. unfold parentUids, listedOwner.
  destruct resource as [r |].
  - destruct (ownerReferences (metadata r)) as [owners |] eqn:Hown.
    + rewrite in_map_iff. split.
      * intros (o & Ho & Hin). now exists r, owners, o.
      * intros (r' & owners' & o & Hr & Hown' & Hin & Ho).
        injection Hr as <-. rewrite Hown in Hown'. injection Hown' as <-.
        now exists o.
    + split; [intros [] |].
      intros (r' & owners' & o & Hr & Hown' & _). injection Hr as <-.
      congruence.
  - split; [intros [] |]. intros (r' & ? & ? & Hr & _). discriminate.
Qed.

Lemma parentUids_not_listed (resource : option Resource) (c : Resource) :
  Js.includes (parentUids resource) (uid (metadata c)) = false
  <-> ~ listedOwner resource c.
Proof.
  rewrite <- parentUids_listed.
  destruct (Js.includes _ _); split; congruence.
Qed.

(** C6. [getParentResource] returns the first candidate, in collection
    order, whose uid is listed in the owner references of the resource; it
    returns nothing exactly when no candidate is listed; and a resource
    without owner references (none recorded, or an empty list) has no
    parent whatever the candidates are. *)
Theorem getParentResource_first_listed :
  forall (resource : option Resource) (candidates : list Resource),
    (forall p,
        getParentResource resource candidates = Some p <->
        exists before after,
          candidates = before ++ p :: after /\ listedOwner resource p /\
          forall c, In c before -> ~ listedOwner resource c)
    /\ (getParentResource resource candidates = None <->
        forall c, In c candidates -> ~ listedOwner resource c)
    /\ (forall r,
           resource = Some r ->
           ownerReferences (metadata r) = None
           \/ ownerReferences (metadata r) = Some [] ->
           getParentResource resource candidates = None).
Proof.
  intros resource candidates. unfold getParentResource. repeat split.
  - intros Hp. apply first_filter_Some in Hp.
    destruct Hp as (before & after & Heq & Hp & Hbefore).
    exists before, after. repeat split; try assumption.
    + now apply parentUids_listed.
    + intros c Hc. apply parentUids_not_listed. now apply Hbefore.
  - intros (before & after & Heq & Hp & Hbefore).
    apply first_filter_Some. exists before, after. repeat split; try assumption.
    + now apply parentUids_listed.
    + intros c Hc. apply parentUids_not_listed. now apply Hbefore.
  - intros Hnone c Hc. apply parentUids_not_listed.
    now apply (proj1 (first_filter_None _ _) Hnone).
  - intros Hall. apply first_filter_None. intros c Hc.
    apply parentUids_not_listed. now apply Hall.
  - intros r -> Hown. apply first_filter_None. intros c _.
    apply parentUids_not_listed. intros (r' & owners & o & Hr & Hown' & Hin & _).
    injection Hr as <-. destruct Hown as [Hown | Hown]; rewrite Hown in Hown'.
    + discriminate.
    + injection Hown' as <-. destruct Hin.
Qed.

Lemma getParentResource_first_listed_witness :
  (ownerReferences (metadata Sample.svc) = None
   \/ ownerReferences (metadata Sample.svc) = Some [])
  /\ getParentResource (Some Sample.svc) [Sample.conf1; Sample.conf2] = None.
Proof.
  split.
  - left. reflexivity.
  - apply (proj2 (proj2 (@getParentResource_first_listed
                           (Some Sample.svc) [Sample.conf1; Sample.conf2]))
             Sample.svc eq_refl).
    left. reflexivity.
Defined.

(** ** Internal resources *)

Section InternalResources.

Context `{Platform}.

(** C5, amended.  A resource is internal exactly when its kind is not the
    broker kind and its [metadata.ownerReferences] is present; the code
    tests the property, not its entries.  So a broker is never internal;
    another resource that carries an owner reference is internal; another
    resource without the property is not; and another resource whose
    [ownerReferences] is the empty list is internal all the same. *)
Theorem isInternalResource_iff :
  forall resource : Resource,
    (isInternalResource resource = true <->
     kind resource <> model_kind EventingBrokerModel
     /\ ownerReferences (metadata resource) <> None)
    /\ (kind resource = model_kind EventingBrokerModel ->
        ownerReferences (metadata resource) <> None ->
        isInternalResource resource = false)
    /\ (kind resource <> model_kind EventingBrokerModel ->
        ownerReferences (metadata resource) <> None ->
        isInternalResource resource = true)
    /\ (kind resource <> model_kind EventingBrokerModel ->
        ownerReferences (metadata resource) = None ->
        isInternalResource resource = false)
    /\ (kind resource = model_kind EventingBrokerModel ->
        isInternalResource resource = false)
    /\ (kind resource <> model_kind EventingBrokerModel ->
        carriesOwnerReference resource ->
        isInternalResource resource = true)
    /\ (kind resource <> model_kind EventingBrokerModel ->
        ownerReferences (metadata resource) = Some [] ->
        isInternalResource resource = true).
Proof.
  intros resource. unfold isInternalResource, isSome, carriesOwnerReference.
  destruct (String.eqb_spec (kind resource) (model_kind EventingBrokerModel))
    as [Hk | Hk];
    destruct (ownerReferences (metadata resource)) as [owners |]; simpl;
    repeat split; try congruence; try tauto;
    try (intros [? ?]; congruence);
    try (intros _ (owners' & o & Hnone & _); discriminate Hnone).
Qed.

End InternalResources.

Lemma isInternalResource_iff_witness :
  kind Sample.conf1 <> model_kind (EventingBrokerModel (Platform := Sample.platform))
  /\ ownerReferences (metadata Sample.conf1) <> None
  /\ isInternalResource (H := Sample.platform) Sample.conf1 = true.
Proof.
  assert (Hk : kind Sample.conf1
               <> model_kind (EventingBrokerModel (Platform := Sample.platform)))
    by (simpl; discriminate).
  assert (Ho : ownerReferences (metadata Sample.conf1) <> None)
    by (simpl; discriminate).
  split; [exact Hk | split; [exact Ho |]].
  exact (proj1 (proj2 (proj2 (@isInternalResource_iff Sample.platform
                                 Sample.conf1))) Hk Ho).
Defined.

(** C5, as the specification states it, fails: a channel whose
    [ownerReferences] is the empty list is not a broker and carries no
    owner reference, yet it is internal. *)
Lemma isInternalResource_empty_owners_counterexample :
  let resource := Sample.mk "InMemoryChannel" "ch-uid" "ch" (Some []) in
  kind resource
  <> model_kind (EventingBrokerModel (Platform := Sample.platform))
  /\ ~ carriesOwnerReference resource
  /\ isInternalResource (H := Sample.platform) resource = true
  /\ ~ (isInternalResource (H := Sample.platform) resource = true <->
        kind resource
        <> model_kind (EventingBrokerModel (Platform := Sample.platform))
        /\ carriesOwnerReference resource).
Proof.
  assert (Hnone : ~ carriesOwnerReference
                      (Sample.mk "InMemoryChannel" "ch-uid" "ch" (Some []))).
  { intros (owners & o & Hown & Hin). simpl in Hown.
    injection Hown as <-. destruct Hin. }
  simpl. split; [discriminate |]. split; [exact Hnone |].
  split; [reflexivity |].
  intros [Hcarries _]. destruct (Hcarries eq_refl) as [_ Hc]. now apply Hnone.
Qed.

(** ** Revisions kept by traffic and by application *)

Section Revisions.

Context `{Platform}.

Lemma hasTraffic_iff (service : option Resource) (revision : Resource) :
  hasTraffic service revision = true <->
  exists s, service = Some s /\ listsRevision s revision.
Proof.
  unfold hasTraffic, listsRevision. split.
  - destruct service as [s |]; [| discriminate].
    destruct (status s) as [st |] eqn:Hst; [| discriminate].
    destruct (traffic st) as [tr |] eqn:Htr; [| discriminate].
    destruct (find _ tr) as [t |] eqn:Hfind; [| discriminate].
    intros _. apply find_some in Hfind. destruct Hfind as [Hin Heq].
    apply String.eqb_eq in Heq. exists s. split; [reflexivity |].
    now exists st, tr, t.
  - intros (s & -> & st & tr & t & -> & -> & Hin & Heq).
    destruct (find _ tr) as [t' |] eqn:Hfind; [reflexivity |].
    apply (find_none _ _ Hfind) in Hin. rewrite Heq, String.eqb_refl in Hin.
    discriminate.
Qed.

Lemma getParentResource_Some (resource : option Resource)
    (candidates : list Resource) (p : Resource) :
  getParentResource resource candidates = Some p <->
  firstListedOwner resource candidates p.
Proof.
  unfold getParentResource, firstListedOwner. split.
  - intros Hp. apply first_filter_Some in Hp.
    destruct Hp as (before & after & Heq & Hp & Hbefore).
    exists before, after. repeat split; try assumption.
    + now apply parentUids_listed.
    + intros c Hc. apply parentUids_not_listed. now apply Hbefore.
  - intros (before & after & Heq & Hp & Hbefore).
    apply first_filter_Some. exists before, after. repeat split; try assumption.
    + now apply parentUids_listed.
    + intros c Hc. apply parentUids_not_listed. now apply Hbefore.
Qed.

Lemma owningService_Some (resources : TopologyDataResources)
    (revision service : Resource) :
  owningService resources revision = Some service <->
  exists configuration,
    firstListedOwner (Some revision) (configurations resources) configuration
    /\ firstListedOwner (Some configuration) (ksservices resources) service.
Proof.
  unfold owningService. split.
  - intros Hs.
    destruct (getParentResource (Some revision) (configurations resources))
      as [configuration |] eqn:Hc.
    + exists configuration. split; now apply getParentResource_Some.
    + apply getParentResource_Some in Hs.
      destruct Hs as (_ & _ & _ & (r & _ & _ & Hr & _) & _). discriminate Hr.
  - intros (configuration & Hc & Hs).
    apply getParentResource_Some in Hc. rewrite Hc.
    now apply getParentResource_Some.
Qed.

(** C4. The result is the list of revisions filtered, in order, by a test
    that holds of a revision exactly when there are a configuration and a
    service such that the configuration is the first configuration of the
    snapshot listed among the owner references of the revision, the
    service is the first service of the snapshot listed among the owner
    references of that configuration, the service lists the revision by
    name in its [status.traffic], and the service passes the
    active-application filter.  Both lookups are made on the snapshot
    passed to the call. *)
Theorem filterRevisionsByActiveApplication_keeps :
  forall (revisions : list Resource) (resources : TopologyDataResources)
         (application : string),
  exists keep : Resource -> bool,
    (forall revision,
        keep revision = true <->
        exists configuration service,
          firstListedOwner (Some revision) (configurations resources)
                           configuration
          /\ firstListedOwner (Some configuration) (ksservices resources)
                              service
          /\ listsRevision service revision
          /\ filterBasedOnActiveApplication [Some service] application <> [])
    /\ filterRevisionsByActiveApplication revisions resources application
       = filter keep revisions.
Proof.
  intros revisions resources application.
  exists (fun revision =>
            hasTraffic (owningService resources revision) revision
            && (0 <? length (filterBasedOnActiveApplication
                               [owningService resources revision]
                               application))%nat).
  split.
  - intros revision. rewrite andb_true_iff, hasTraffic_iff, Nat.ltb_lt. split.
    + intros [(s & Hs & Hlists) Hlen].
      destruct (proj1 (owningService_Some resources revision s) Hs)
        as (configuration & Hc & Hsvc).
      exists configuration, s. repeat split; try assumption.
      rewrite Hs in Hlen. intros Hnil. rewrite Hnil in Hlen. simpl in Hlen. lia.
    + intros (configuration & s & Hc & Hsvc & Hlists & Hne).
      assert (Hs : owningService resources revision = Some s)
        by (apply owningService_Some; now exists configuration).
      split; [now exists s |].
      rewrite Hs. destruct (filterBasedOnActiveApplication _ _);
        [congruence | simpl; lia].
  - unfold filterRevisionsByActiveApplication, owningService.
    rewrite (fold_left_push_if _ (fun r => r)). simpl. now rewrite map_id.
Qed.

(** C10. For a resource without [status.traffic],
    [filterRevisionsBaseOnTrafficStatus] returns [undefined], whatever the
    revisions, and the node items of a Knative service node on it are the
    group node alone, with no children. *)
Theorem no_traffic_list_single_node :
  forall resource : Resource,
    noTrafficList resource ->
    (forall revisions,
        filterRevisionsBaseOnTrafficStatus resource revisions = None)
    /\ (forall data resources,
           getKnativeTopologyNodeItems resource NodeType.KnService data
                                       resources
           = [getTopologyNodeItem resource NodeType.KnService (Some data)
                (Some (getKnNodeModelProps NodeType.KnService)) []]
           /\ length (getKnativeTopologyNodeItems resource NodeType.KnService
                        data resources) = 1
           /\ map node_children
                  (getKnativeTopologyNodeItems resource NodeType.KnService
                     data resources) = [[]]).
Proof.
  intros resource Hno.
  assert (Hfilter : forall revisions,
             filterRevisionsBaseOnTrafficStatus resource revisions = None).
  { intros revisions. unfold filterRevisionsBaseOnTrafficStatus.
    unfold noTrafficList in Hno.
    destruct (status resource) as [st |]; [| reflexivity]. now rewrite Hno. }
  split; [exact Hfilter |].
  intros data resources.
  assert (Hnodes :
            getKnativeTopologyNodeItems resource NodeType.KnService data
                                        resources
            = [getTopologyNodeItem resource NodeType.KnService (Some data)
                 (Some (getKnNodeModelProps NodeType.KnService)) []]).
  { unfold getKnativeTopologyNodeItems.
    destruct resources as [rs |]; [| reflexivity].
    rewrite String.eqb_refl, Hfilter. reflexivity. }
  rewrite Hnodes. repeat split.
Qed.

End Revisions.

Lemma no_traffic_list_single_node_witness :
  noTrafficList Sample.conf1
  /\ length (getKnativeTopologyNodeItems (H := Sample.platform) Sample.conf1
               NodeType.KnService
               (Sample.nodeData Sample.conf1
                  (createKnativeDeploymentItems (H := Sample.platform)
                     Sample.conf1 Sample.servingSnapshot None)
                  NodeType.KnService "icon")
               (Some Sample.servingSnapshot)) = 1.
Proof.
  assert (Hno : noTrafficList Sample.conf1) by exact I.
  split; [exact Hno |].
  exact (proj1 (proj2 (proj2 (@no_traffic_list_single_node
                                Sample.platform Sample.conf1 Hno)
                         _ _))).
Defined.

(** ** Rollup builder *)

Section RollupProperties.

Context `{Platform}.

Lemma applyUtils_revisions utils resource resources item :
  leaveRevisions utils resource resources ->
  kn_revisions (applyUtils utils resource resources item) = kn_revisions item.
Proof.
  unfold leaveRevisions, applyUtils. destruct utils as [us |]; [| reflexivity].
  intros Hleave. specialize (Hleave us).
  revert item. induction us as [| util us IH]; intros item; simpl.
  - reflexivity.
  - rewrite IH.
    + destruct (util resource resources) as [extra |] eqn:Hu; [| reflexivity].
      simpl. rewrite (Hleave util extra eq_refl (or_introl eq_refl) Hu).
      reflexivity.
    + intros util' extra' _ Hin. apply Hleave; [reflexivity | now right].
Qed.

Lemma revisionDeployment_obj resources revision :
  rev_obj (fst (revisionDeployment resources revision)) = revision.
Proof.
  unfold revisionDeployment.
  now destruct (getOwnedResources revision (deployments resources)).
Qed.

Lemma revisions_reducer resources (l : list Resource) acc :
  map rev_obj
      (fst (fold_left
              (fun acc revision =>
                 let '(revisionDep, pods) :=
                   revisionDeployment resources revision in
                 (fst acc ++ [revisionDep],
                  match pods with
                  | Some ps => snd acc ++ ps
                  | None => snd acc
                  end))
              l acc))
  = map rev_obj (fst acc) ++ l.
Proof.
  revert acc. induction l as [| r l IH]; intros acc; simpl.
  - now rewrite app_nil_r.
  - rewrite IH. pose proof (revisionDeployment_obj resources r) as Hobj.
    destruct (revisionDeployment resources r) as [dep pods]. simpl in *.
    rewrite map_app, <- app_assoc. simpl. now rewrite Hobj.
Qed.

(** C3, as the code has it.  For a resource with no owned deployment, and
    enrichment functions that supply no [revisions] of their own, the
    [revisions] of the overview item are the revisions owned by the first
    owned configuration, in snapshot order (each possibly extended with
    the pods of its deployment), and none when the resource owns no
    configuration. *)
Theorem createKnativeDeploymentItems_revisions :
  forall (resource : Resource) (resources : TopologyDataResources)
         (utils : option (list KnativeUtil)),
    getOwnedResources resource (deployments resources) = [] ->
    leaveRevisions utils resource resources ->
    exists revs,
      kn_revisions (facets (createKnativeDeploymentItems resource resources
                                                         utils))
      = Some revs
      /\ map rev_obj revs
         = match getOwnedResources resource (configurations resources) with
           | c0 :: _ => getOwnedResources c0 (revisions resources)
           | [] => []
           end.
Proof.
  intros resource resources utils Hnodep Hleave.
  unfold createKnativeDeploymentItems. rewrite Hnodep.
  cbn [facets spread kn_revisions override].
  unfold getKnativeServiceData. rewrite applyUtils_revisions by assumption.
  cbn [kn_revisions override]. eexists. split; [reflexivity |].
  rewrite revisions_reducer. simpl.
  now destruct (getOwnedResources resource (configurations resources)).
Qed.

End RollupProperties.

Lemma createKnativeDeploymentItems_revisions_witness :
  getOwnedResources Sample.svc (deployments Sample.servingSnapshot) = []
  /\ leaveRevisions None Sample.svc Sample.servingSnapshot
  /\ exists revs,
      kn_revisions (facets (createKnativeDeploymentItems
                              (H := Sample.platform) Sample.svc
                              Sample.servingSnapshot None))
      = Some revs
      /\ map rev_obj revs = [Sample.rev1].
Proof.
  assert (Hnodep : getOwnedResources Sample.svc
                     (deployments Sample.servingSnapshot) = [])
    by reflexivity.
  assert (Hleave : leaveRevisions None Sample.svc Sample.servingSnapshot)
    by (intros us util extra Hus; discriminate Hus).
  split; [exact Hnodep | split; [exact Hleave |]].
  exact (@createKnativeDeploymentItems_revisions Sample.platform
           Sample.svc Sample.servingSnapshot None Hnodep Hleave).
Defined.

(** C3, as the specification states it, fails: the service owns two
    configurations and no deployment; the revision owned by the second
    configuration is not among the [revisions] of its overview item. *)
Lemma revisions_per_configuration_counterexample :
  getOwnedResources Sample.svc (deployments Sample.servingSnapshot) = []
  /\ In Sample.conf2
        (getOwnedResources Sample.svc (configurations Sample.servingSnapshot))
  /\ In Sample.rev2
        (getOwnedResources Sample.conf2 (revisions Sample.servingSnapshot))
  /\ exists revs,
      kn_revisions (facets (createKnativeDeploymentItems
                              (H := Sample.platform) Sample.svc
                              Sample.servingSnapshot None))
      = Some revs
      /\ ~ In Sample.rev2 (map rev_obj revs).
Proof.
  split; [reflexivity |].
  split; [simpl; auto |].
  split; [simpl; auto |].
  eexists. split; [reflexivity |].
  simpl. intros [Heq | []]. discriminate Heq.
Qed.

(** ** Traffic edges *)

Lemma append_inj (a x y : string) :
  (a ++ x)%string = (a ++ y)%string -> x = y.
Proof.
  induction a as [| c a IH]; simpl; intros Heq.
  - assumption.
  - injection Heq as Heq. now apply IH.
Qed.

Lemma edgeId_inj (a x y : string) : edgeId a x = edgeId a y -> x = y.
Proof.
  unfold edgeId. intros Heq. apply append_inj in Heq.
  now apply (append_inj "_") in Heq.
Qed.

Lemma findIndex_Some {A} (q : A -> bool) (l : list A) (i : nat) :
  Js.findIndex q l = Some i ->
  exists l1 x l2,
    l = l1 ++ x :: l2 /\ length l1 = i /\ q x = true /\
    forall y, In y l1 -> q y = false.
Proof.
  revert i. induction l as [| a l IH]; simpl; intros i Hfind.
  - discriminate.
  - destruct (q a) eqn:Hqa.
    + injection Hfind as <-. exists [], a, l. simpl. intuition.
    + destruct (Js.findIndex q l) as [j |]; [| discriminate].
      injection Hfind as <-.
      destruct (IH j eq_refl) as (l1 & x & l2 & -> & Hlen & Hqx & Hl1).
      exists (a :: l1), x, l2. simpl. repeat split; try congruence.
      intros y [<- | Hy]; auto.
Qed.

Lemma findIndex_None {A} (q : A -> bool) (l : list A) :
  Js.findIndex q l = None -> forall y, In y l -> q y = false.
Proof.
  induction l as [| a l IH]; simpl; intros Hfind y Hy.
  - destruct Hy.
  - destruct (q a) eqn:Hqa; [discriminate |].
    destruct (Js.findIndex q l); [discriminate |].
    destruct Hy as [<- | Hy]; auto.
Qed.

Lemma update_at_middle {A} (f : A -> A) (l1 : list A) (x : A) (l2 : list A) :
  Js.update_at (length l1) f (l1 ++ x :: l2) = l1 ++ f x :: l2.
Proof.
  induction l1 as [| a l1 IH]; simpl; [reflexivity | now rewrite IH].
Qed.

Lemma totalPercent_snoc (l : list Traffic) (t : Traffic) :
  l <> [] -> totalPercent (l ++ [t]) = Js.add (totalPercent l) (percent t).
Proof.
  destruct l as [| a [| b l]]; intros Hne; [contradiction | reflexivity |].
  change (totalPercent ((a :: b :: l) ++ [t]))
    with (Some (fold_left (fun acc t' => (acc + percentValue t')%float)
                          ((b :: l) ++ [t]) (percentValue a))).
  rewrite fold_left_app. reflexivity.
Qed.

Lemma entriesFor_snoc data ru processed t :
  entriesFor data ru (processed ++ [t])
  = entriesFor data ru processed
    ++ (if Js.strict_eq (resolvedUid data t) (Some ru) then [t] else []).
Proof.
  unfold entriesFor. rewrite filter_app. simpl.
  now destruct (Js.strict_eq (resolvedUid data t) (Some ru)).
Qed.

Lemma strict_eq_Some (a : option string) (b : string) :
  Js.strict_eq a (Some b) = true <-> a = Some b.
Proof.
  destruct a as [x |]; simpl.
  - rewrite String.eqb_eq. split; congruence.
  - split; discriminate.
Qed.

Lemma NoDup_pairs (es : list EdgeModel) :
  NoDup (map target es) -> NoDup (map (fun e => (source e, target e)) es).
Proof.
  induction es as [| e es IH]; simpl; intros Hnd.
  - constructor.
  - inversion Hnd as [| ? ? Hnotin Hnd']; subst. constructor; [| now apply IH].
    intros Hin. apply Hnotin. apply in_map_iff in Hin.
    destruct Hin as (e' & Heq & Hin). injection Heq as _ Heq.
    apply in_map_iff. now exists e'.
Qed.

Lemma filter_none {A} (q : A -> bool) (l : list A) :
  (forall y, In y l -> q y = false) -> filter q l = [].
Proof.
  induction l as [| a l IH]; simpl; intros Hall; [reflexivity |].
  rewrite (Hall a) by (now left). apply IH. intros y Hy. apply Hall. now right.
Qed.

Lemma filter_unique {A} (q : A -> bool) (g : A -> string) (l : list A)
    (x : A) :
  NoDup (map g l) -> In x l -> (forall y, In y l -> q y = true <-> g y = g x) ->
  filter q l = [x].
Proof.
  induction l as [| a l IH]; simpl; intros Hnd Hin Hq.
  - destruct Hin.
  - inversion Hnd as [| ? ? Hnotin Hnd']; subst.
    destruct Hin as [<- | Hin].
    + rewrite (proj2 (Hq a (or_introl eq_refl)) eq_refl). f_equal.
      apply filter_none. intros y Hy.
      destruct (q y) eqn:Hqy; [| reflexivity].
      exfalso. apply Hnotin. apply in_map_iff. exists y. split; [| assumption].
      now apply (proj1 (Hq y (or_intror Hy))).
    + destruct (q a) eqn:Hqa.
      * exfalso. apply Hnotin. apply in_map_iff. exists x. split; [| assumption].
        symmetry. now apply (proj1 (Hq a (or_introl eq_refl))).
      * apply IH; try assumption. intros y Hy. apply Hq. now right.
Qed.

Lemma NoDup_rev_snoc {A} (l : list A) (x : A) :
  NoDup l -> ~ In x l -> NoDup (l ++ [x]).
Proof.
  intros Hnd Hnotin. apply NoDup_rev in Hnd.
  rewrite <- (rev_involutive (l ++ [x])). apply NoDup_rev.
  rewrite rev_app_distr. simpl. constructor; [| assumption].
  now rewrite <- in_rev.
Qed.

Section TrafficEdges.

Lemma getTrafficTopologyEdgeItems_fold resource data :
  getTrafficTopologyEdgeItems resource data
  = fold_left (trafficStep (uid (metadata resource)) data)
              (trafficOf resource) [].
Proof. reflexivity. Qed.

Lemma trafficStep_unresolved uid data es t :
  resolvedUid data t = None -> trafficStep uid data es t = es.
Proof.
  unfold resolvedUid, trafficStep.
  destruct (find _ data) as [rev |]; [| reflexivity].
  now destruct (Js.truthy (metaUid rev)).
Qed.

Lemma trafficStep_resolved uid data es t ru :
  resolvedUid data t = Some ru ->
  trafficStep uid data es t
  = match Js.findIndex (fun edge => edge_id edge =? edgeId uid ru) es with
    | Some i => Js.update_at i (addPercent (percent t)) es
    | None => es ++ [trafficEdge uid ru (percent t)]
    end.
Proof.
  unfold resolvedUid, trafficStep.
  destruct (find _ data) as [rev |]; [| discriminate].
  destruct (Js.truthy (metaUid rev)); [| discriminate].
  now intros [= <-].
Qed.

Lemma trafficInv_step uid data processed es t :
  trafficInv uid data processed es ->
  trafficInv uid data (processed ++ [t]) (trafficStep uid data es t).
Proof.
  intros (Hnd & Hedges & Hcover).
  destruct (resolvedUid data t) as [ru |] eqn:Hres.
  - rewrite (@trafficStep_resolved uid data es t ru Hres).
    assert (Hsnoc : forall ru',
               entriesFor data ru' (processed ++ [t])
               = entriesFor data ru' processed
                 ++ (if ru =? ru' then [t] else [])).
    { intros ru'. rewrite entriesFor_snoc, Hres. reflexivity. }
    destruct (Js.findIndex _ es) as [i |] eqn:Hfind.
    + apply findIndex_Some in Hfind.
      destruct Hfind as (l1 & x & l2 & -> & <- & Hqx & Hl1).
      rewrite update_at_middle.
      apply String.eqb_eq in Hqx.
      destruct (Hedges x) as [Hxne Hx]; [apply in_elt |].
      assert (Htx : target x = ru).
      { rewrite Hx in Hqx. simpl in Hqx. now apply edgeId_inj in Hqx. }
      assert (Hmap : map target (l1 ++ addPercent (percent t) x :: l2)
                     = map target (l1 ++ x :: l2)).
      { now rewrite !map_app. }
      split; [now rewrite Hmap |]. split.
      * intros e He. apply in_app_or in He. rewrite Hsnoc.
        assert (Hother : In e (l1 ++ x :: l2) -> target e <> ru ->
                         entriesFor data (target e) processed ++
                           (if ru =? target e then [t] else []) <> []
                         /\ e = trafficEdge uid (target e)
                                  (totalPercent
                                     (entriesFor data (target e) processed ++
                                        (if ru =? target e then [t] else [])))).
        { intros Hin Hne. destruct (String.eqb_spec ru (target e)) as [-> | _];
            [congruence |].
          rewrite app_nil_r. now apply Hedges. }
        assert (Hnotin : forall e', In e' l1 \/ In e' l2 -> target e' <> ru).
        { intros e' He' Heq. rewrite map_app in Hnd. simpl in Hnd.
          apply NoDup_remove_2 in Hnd. apply Hnd. rewrite Htx, <- Heq.
          apply in_or_app. destruct He'; [left | right]; now apply in_map. }
        destruct He as [He | [<- | He]].
        -- apply Hother; [apply in_or_app; now left | apply Hnotin; now left].
        -- simpl. rewrite Htx, String.eqb_refl. split.
           ++ intros Hnil. now apply app_eq_nil in Hnil as [_ Hnil].
           ++ rewrite Htx in Hxne. rewrite (totalPercent_snoc _ Hxne).
              unfold addPercent, trafficEdge.
              rewrite Hx. simpl. rewrite Htx. reflexivity.
        -- apply Hother; [apply in_or_app; right; now right
                         | apply Hnotin; now right].
      * intros ru' Hne. rewrite Hmap. rewrite Hsnoc in Hne.
        destruct (String.eqb_spec ru ru') as [Heq | _].
        -- rewrite <- Heq, <- Htx. apply in_map, in_elt.
        -- rewrite app_nil_r in Hne. now apply Hcover.
    + pose proof (findIndex_None _ _ Hfind) as Hnone.
      assert (Hfresh : ~ In ru (map target es)).
      { intros Hin. apply in_map_iff in Hin. destruct Hin as (e & Hte & He).
        specialize (Hnone e He). destruct (Hedges e He) as [_ Hx].
        rewrite Hx in Hnone. simpl in Hnone. rewrite Hte, String.eqb_refl in Hnone.
        discriminate. }
      assert (Hempty : entriesFor data ru processed = []).
      { destruct (entriesFor data ru processed) eqn:Hent; [reflexivity |].
        exfalso. apply Hfresh, Hcover. rewrite Hent. discriminate. }
      split; [| split].
      * rewrite map_app. simpl. apply NoDup_rev_snoc; assumption.
      * intros e He. rewrite Hsnoc. apply in_app_or in He.
        destruct He as [He | [<- | []]].
        -- destruct (String.eqb_spec ru (target e)) as [Heq | _].
           ++ exfalso. apply Hfresh. rewrite Heq. now apply in_map.
           ++ rewrite app_nil_r. now apply Hedges.
        -- simpl. rewrite String.eqb_refl, Hempty. simpl. split.
           ++ discriminate.
           ++ reflexivity.
      * intros ru' Hne. rewrite map_app. apply in_or_app. rewrite Hsnoc in Hne.
        destruct (String.eqb_spec ru ru') as [Heq | _].
        -- right. simpl. now left.
        -- left. rewrite app_nil_r in Hne. now apply Hcover.
  - rewrite (@trafficStep_unresolved uid data es t Hres).
    assert (Hsame : forall ru, entriesFor data ru (processed ++ [t])
                               = entriesFor data ru processed).
    { intros ru. rewrite entriesFor_snoc, Hres. simpl. apply app_nil_r. }
    split; [assumption |]. split.
    + intros e He. rewrite Hsame. now apply Hedges.
    + intros ru. rewrite Hsame. apply Hcover.
Qed.

Lemma trafficInv_fold uid data (l processed : list Traffic) es :
  trafficInv uid data processed es ->
  trafficInv uid data (processed ++ l) (fold_left (trafficStep uid data) l es).
Proof.
  revert processed es. induction l as [| t l IH]; intros processed es Hinv.
  - now rewrite app_nil_r.
  - simpl. replace (processed ++ t :: l) with ((processed ++ [t]) ++ l)
      by (now rewrite <- app_assoc).
    apply IH. now apply trafficInv_step.
Qed.

Lemma trafficInv_result resource data :
  trafficInv (uid (metadata resource)) data (trafficOf resource)
             (getTrafficTopologyEdgeItems resource data).
Proof.
  rewrite getTrafficTopologyEdgeItems_fold.
  apply (@trafficInv_fold _ data (trafficOf resource) [] []).
  split; [constructor | split].
  - intros e [].
  - intros ru Hne. now contradiction Hne.
Qed.

(** C1. The traffic edges of a service never repeat a (source, target)
    pair.  Every edge is a traffic edge from the service to a revision
    that some entry of [status.traffic] resolves to; and for every
    revision that entries resolve to there is exactly one edge of id
    [<service-uid>_<revision-uid>], whose percent is the sum of the
    percents of those entries: the percents are doubles, added with [+]
    from the first of those entries on, in their order (an entry without
    percent counts as [NaN] in a sum).  In particular entries r1:30 and
    r1:20 with one matching revision give the single edge of percent 50. *)
Theorem getTrafficTopologyEdgeItems_merges :
  forall (resource : Resource) (data : list Resource),
    NoDup (map (fun e => (source e, target e))
               (getTrafficTopologyEdgeItems resource data))
    /\ (forall e,
           In e (getTrafficTopologyEdgeItems resource data) ->
           edge_type e = EdgeType.Traffic
           /\ source e = uid (metadata resource)
           /\ entriesFor data (target e) (trafficOf resource) <> [])
    /\ (forall ru,
           entriesFor data ru (trafficOf resource) <> [] ->
           filter (fun e => edge_id e =? edgeId (uid (metadata resource)) ru)
                  (getTrafficTopologyEdgeItems resource data)
           = [trafficEdge (uid (metadata resource)) ru
                (totalPercent (entriesFor data ru (trafficOf resource)))])
    /\ (forall t1 t2 rev,
           trafficOf resource = [t1; t2] ->
           revisionName t1 = "r1" -> percent t1 = Some 30%float ->
           revisionName t2 = "r1" -> percent t2 = Some 20%float ->
           data = [rev] -> name (metadata rev) = "r1" ->
           uid (metadata rev) <> "" ->
           getTrafficTopologyEdgeItems resource data
           = [trafficEdge (uid (metadata resource)) (uid (metadata rev))
                          (Some 50%float)]).
Proof.
  intros resource data.
  destruct (trafficInv_result resource data) as (Hnd & Hedges & Hcover).
  split; [now apply NoDup_pairs |]. split; [| split].
  - intros e He. destruct (Hedges e He) as [Hne Heq].
    repeat split; try assumption; rewrite Heq; reflexivity.
  - intros ru Hne. specialize (Hcover ru Hne). apply in_map_iff in Hcover.
    destruct Hcover as (e & Hte & He).
    destruct (Hedges e He) as [_ Heq]. rewrite Hte in Heq. rewrite <- Heq.
    apply filter_unique with (g := target); try assumption.
    intros y Hy. destruct (Hedges y Hy) as [_ Hyeq].
    rewrite String.eqb_eq, Hte. split.
    + rewrite Hyeq at 1. simpl. apply edgeId_inj.
    + intros Hty. rewrite Hyeq, Hty. reflexivity.
  - intros t1 t2 rev Htr Hn1 Hp1 Hn2 Hp2 -> Hname Huid.
    rewrite getTrafficTopologyEdgeItems_fold, Htr. simpl.
    unfold trafficStep. simpl. rewrite Hname, Hn1, Hn2. simpl.
    unfold Js.truthy, metaUid.
    destruct (String.eqb_spec (uid (metadata rev)) "") as [Hempty | _];
      [contradiction |].
    simpl. rewrite String.eqb_refl. simpl.
    unfold addPercent, trafficEdge. simpl. rewrite Hp1, Hp2. reflexivity.
Qed.

End TrafficEdges.

Lemma getTrafficTopologyEdgeItems_merges_witness :
  trafficOf Sample.svc = [Sample.entry "r1" 30; Sample.entry "r1" 20]
  /\ name (metadata Sample.rev1) = "r1"
  /\ uid (metadata Sample.rev1) <> ""
  /\ getTrafficTopologyEdgeItems Sample.svc [Sample.rev1]
     = [trafficEdge "svc-uid" "r1-uid" (Some 50%float)].
Proof.
  assert (Huid : uid (metadata Sample.rev1) <> "") by (simpl; discriminate).
  split; [reflexivity | split; [reflexivity | split; [exact Huid |]]].
  exact (proj2 (proj2 (proj2 (@getTrafficTopologyEdgeItems_merges
                                Sample.svc [Sample.rev1])))
           (Sample.entry "r1" 30) (Sample.entry "r1" 20) Sample.rev1
           eq_refl eq_refl eq_refl eq_refl eq_refl eq_refl eq_refl Huid).
Defined.

(** The percents are added as doubles.  Past 2^53 the sum rounds, so that
    entries of percent 2^53, 1 and 1 give 2^53; fractions add up as
    doubles do; a lone entry without percent leaves the edge without
    percent, and a second entry on it gives [NaN]. *)
Lemma getTrafficTopologyEdgeItems_percent_is_double :
  let service entries :=
    Sample.withStatus (Sample.mk "Service" "svc-uid" "svc" None)
                      (Some entries) in
  let bare := {| revisionName := "r1"; percent := None;
                 traffic_url := None |} in
  getTrafficTopologyEdgeItems
    (service [Sample.entry "r1" 9007199254740992; Sample.entry "r1" 1;
              Sample.entry "r1" 1])
    [Sample.rev1]
  = [trafficEdge "svc-uid" "r1-uid" (Some 9007199254740992%float)]
  /\ getTrafficTopologyEdgeItems
       (service [Sample.entry "r1" 0.5; Sample.entry "r1" 0.25])
       [Sample.rev1]
     = [trafficEdge "svc-uid" "r1-uid" (Some 0.75%float)]
  /\ getTrafficTopologyEdgeItems (service [bare]) [Sample.rev1]
     = [trafficEdge "svc-uid" "r1-uid" None]
  /\ getTrafficTopologyEdgeItems
       (service [Sample.entry "r1" 100; bare]) [Sample.rev1]
     = [trafficEdge "svc-uid" "r1-uid" (Some nan)].
Proof. repeat split. Qed.

(** ** Mutation operations *)

Section MutationProperties.

Context `{Platform}.

Variable cluster : ApiClient.

Lemma createEventingTrigger_run random broker service :
  createEventingTrigger cluster random broker service
  = match cluster (Create EventingTriggerModel
                          (triggerFor random broker service)) with
    | Resolved created =>
        ([Issued (Create EventingTriggerModel
                         (triggerFor random broker service))],
         Resolved (Some created))
    | Rejected failure =>
        ([Issued (Create EventingTriggerModel
                         (triggerFor random broker service));
          Notified {| title := "Error creating trigger";
                      error_message := message failure;
                      showIcon := true |}],
         Resolved None)
    end.
Proof.
  unfold createEventingTrigger, k8sCreate, bind, triggerFor.
  now destruct (cluster _).
Qed.

(** C7. [createEventingTrigger] issues one create, of the trigger model,
    whose object is named [<broker-name>-trigger-<random>], lives in the
    namespace of the broker, names the broker and refers to the service as
    subscriber.  When the create succeeds the promise resolves with the
    created object; when it fails the error is shown in an error modal and
    the promise resolves with [undefined]; it never rejects. *)
Theorem createEventingTrigger_reports_failure :
  forall (random : string) (broker service : Resource),
    let trigger := triggerFor random broker service in
    let call := Create EventingTriggerModel trigger in
    trigger_name trigger
    = (name (metadata broker) ++ "-trigger-" ++ random)%string
    /\ trigger_namespace trigger = namespace (metadata broker)
    /\ trigger_broker trigger = name (metadata broker)
    /\ ref_name (trigger_subscriber_ref trigger)
       = Some (name (metadata service))
    /\ (forall created,
           cluster call = Resolved created ->
           createEventingTrigger cluster random broker service
           = ([Issued call], Resolved (Some created)))
    /\ (forall failure,
           cluster call = Rejected failure ->
           createEventingTrigger cluster random broker service
           = ([Issued call;
               Notified {| title := "Error creating trigger";
                           error_message := message failure;
                           showIcon := true |}],
              Resolved None))
    /\ (forall reason,
           result (createEventingTrigger cluster random broker service)
           <> Rejected reason).
Proof.
  intros random broker service trigger call.
  pose proof (createEventingTrigger_run random broker service) as Hrun.
  fold trigger in Hrun. fold call in Hrun.
  repeat split.
  - intros created Hcall. now rewrite Hrun, Hcall.
  - intros failure Hcall. now rewrite Hrun, Hcall.
  - intros reason. rewrite Hrun. destruct (cluster call); discriminate.
Qed.

(** C8. [createKnativeEventSourceSink] rejects, having issued nothing,
    exactly when the source is missing, the target is missing, or the two
    are the same object.  Otherwise it issues one update, of the model of
    the source, and returns its promise; the payload is the source without
    [status], whose [spec] differs from the source's only in [sink]:
    [{uri}] for a sink-uri target, [{ref: {apiVersion, kind, name}}] of
    the target otherwise. *)
Theorem createKnativeEventSourceSink_rejects_or_updates :
  forall (source : option (Ref Resource))
         (target : option (Ref TopologyResourceObject)),
    (createKnativeEventSourceSink cluster source target = ([], Rejected None)
     <-> source = None \/ target = None
         \/ exists s t, source = Some s /\ target = Some t
                        /\ sameRef s t = true)
    /\ (forall s t,
           source = Some s -> target = Some t -> sameRef s t = false ->
           exists payload sp,
             let call :=
               Update (modelFor (referenceFor (K8sObject (deref s))))
                      payload in
             createKnativeEventSourceSink cluster source target
             = ([Issued call], passOn (cluster call))
             /\ status payload = None
             /\ apiVersion payload = apiVersion (deref s)
             /\ kind payload = kind (deref s)
             /\ metadata payload = metadata (deref s)
             /\ spec payload = Some sp
             /\ (forall sp0, spec (deref s) = Some sp0 -> sameButSink sp sp0)
             /\ (forall o,
                    deref t = SinkUriObject o ->
                    su_nodeType o = NodeType.SinkUri ->
                    sink sp = Some (uriOnly (su_sinkUri o)))
             /\ (forall o,
                    deref t = SinkUriObject o ->
                    su_nodeType o <> NodeType.SinkUri ->
                    sink sp = Some (refOnly None None None))
             /\ (forall r,
                    deref t = K8sObject r ->
                    sink sp
                    = Some (refOnly (apiVersion r) (Some (kind r))
                                    (Some (name (metadata r)))))).
Proof.
  intros source target. split.
  - unfold createKnativeEventSourceSink. split.
    + destruct source as [s |]; [| now left].
      destruct target as [t |]; [| right; now left].
      destruct (sameRef s t) eqn:Hsame.
      * intros _. right. right. now exists s, t.
      * unfold bind, k8sUpdate. simpl. discriminate.
    + intros [-> | [-> | (s & t & -> & -> & Hsame)]].
      * reflexivity.
      * now destruct source.
      * now rewrite Hsame.
  - intros s t -> -> Hsame. unfold createKnativeEventSourceSink.
    rewrite Hsame. eexists. eexists. cbv zeta.
    split; [reflexivity |]. cbn [status apiVersion kind metadata spec].
    do 5 (split; [reflexivity |]).
    split; [| split; [| split]].
    + intros sp0 Hsp0. rewrite Hsp0. unfold sameButSink. simpl. tauto.
    + intros o -> Htype. unfold sinkFor. rewrite Htype, String.eqb_refl.
      now destruct (spec (deref s)).
    + intros o -> Htype. unfold sinkFor.
      destruct (String.eqb_spec NodeType.SinkUri (su_nodeType o));
        [congruence |].
      now destruct (spec (deref s)).
    + intros r ->. unfold sinkFor. now destruct (spec (deref s)).
Qed.

End MutationProperties.

Lemma createEventingTrigger_reports_failure_witness :
  Sample.failing
    (Create (EventingTriggerModel (Platform := Sample.platform))
            (triggerFor (H := Sample.platform) "x7k2q" Sample.chan Sample.svc))
  = Rejected {| message := "admission webhook denied the request" |}
  /\ createEventingTrigger (H := Sample.platform) Sample.failing "x7k2q"
                           Sample.chan Sample.svc
     = ([Issued (Create (EventingTriggerModel (Platform := Sample.platform))
                        (triggerFor (H := Sample.platform) "x7k2q"
                                    Sample.chan Sample.svc));
         Notified {| title := "Error creating trigger";
                     error_message := "admission webhook denied the request";
                     showIcon := true |}],
        Resolved None).
Proof.
  split; [reflexivity |].
  exact (proj1 (proj2 (proj2 (proj2 (proj2 (proj2
           (@createEventingTrigger_reports_failure Sample.platform
              Sample.failing "x7k2q" Sample.chan Sample.svc))))))
           {| message := "admission webhook denied the request" |} eq_refl).
Defined.

Lemma createKnativeEventSourceSink_rejects_or_updates_witness :
  sameRef {| addr := 1; deref := Sample.src3 |}
          {| addr := 2; deref := K8sObject Sample.chan |} = false
  /\ exists payload sp,
      createKnativeEventSourceSink (H := Sample.platform) Sample.accepting
        (Some {| addr := 1; deref := Sample.src3 |})
        (Some {| addr := 2; deref := K8sObject Sample.chan |})
      = ([Issued (Update (modelFor (Platform := Sample.platform) "PingSource")
                         payload)],
         Resolved payload)
      /\ status payload = None
      /\ spec payload = Some sp
      /\ sink sp = Some (refOnly (Some "v1") (Some "InMemoryChannel")
                                 (Some "ch")).
Proof.
  split; [reflexivity |].
  destruct (proj2 (@createKnativeEventSourceSink_rejects_or_updates
                     Sample.platform Sample.accepting
                     (Some {| addr := 1; deref := Sample.src3 |})
                     (Some {| addr := 2; deref := K8sObject Sample.chan |}))
              _ _ eq_refl eq_refl eq_refl)
    as (payload & sp & Hrun & Hstatus & _ & _ & _ & Hspec & _ & _ & _ & Href).
  exists payload, sp. repeat split.
  - exact Hrun.
  - exact Hstatus.
  - exact Hspec.
  - exact (Href Sample.chan eq_refl).
Defined.

(** ** Graph assembler: sink URIs *)

Lemma encodeURIComponent_empty (u : string) :
  Uri.encodeURIComponent u = "" -> u = "".
Proof.
  destruct u as [| c u]; simpl; [reflexivity |].
  destruct (Uri.unreserved c); discriminate.
Qed.

Lemma truthy_iff (s : string) : Js.truthy s = true <-> s <> "".
Proof.
  unfold Js.truthy. destruct (String.eqb_spec s ""); simpl; split; congruence.
Qed.

Lemma sinkEntries_app (l1 l2 : list NodeModel) :
  sinkEntries (l1 ++ l2) = sinkEntries l1 ++ sinkEntries l2.
Proof. apply flat_map_app. Qed.

Lemma getSinkTargetUid_entries (ns : list NodeModel) (u : string) :
  getSinkTargetUid ns (Some u)
  = match filter (fun e => fst e =? u) (sinkEntries ns) with
    | e :: _ => fst (snd e)
    | [] => ""
    end.
Proof.
  unfold getSinkTargetUid. induction ns as [| n ns IH]; simpl; [reflexivity |].
  destruct (nodeSinkUri n) as [v |]; simpl.
  - rewrite (String.eqb_sym v u). destruct (u =? v); [reflexivity | exact IH].
  - exact IH.
Qed.

Lemma sinkNodesFor_entries (u : string) (ns : list NodeModel) :
  map (fun n => (u, (node_id n, node_type n))) (sinkNodesFor u ns)
  = filter (fun e => fst e =? u) (sinkEntries ns).
Proof.
  unfold sinkNodesFor. induction ns as [| n ns IH]; simpl; [reflexivity |].
  destruct (nodeSinkUri n) as [v |]; simpl.
  - destruct (String.eqb_spec v u) as [-> | _]; simpl; now rewrite IH.
  - exact IH.
Qed.

Lemma fold_left_push_some {A B C} (c : A -> option C) (g : C -> list B)
    (l : list A) (acc : list B) :
  fold_left (fun es x => match c x with
                         | Some d => es ++ g d
                         | None => es
                         end) l acc
  = acc ++ flat_map (fun x => match c x with Some d => g d | None => [] end) l.
Proof.
  revert acc. induction l as [| a l IH]; intros acc; simpl.
  - now rewrite app_nil_r.
  - rewrite IH. destruct (c a); [now rewrite <- app_assoc | reflexivity].
Qed.

Section SinkUris.

Context `{Platform}.

Hypothesis helpers : HelpersKeepSinkUri.

Variable dyn : DynamicModels.
Variable resources : TopologyDataResources.
Variable utils : option (list KnativeUtil).

Lemma eventSource_node_entries res data :
  sinkUri (tdo_data data) = None ->
  sinkEntries (getKnativeTopologyNodeItems res NodeType.EventSource data
                                           (Some resources)) = [].
Proof.
  intros Hnone. unfold getKnativeTopologyNodeItems. simpl.
  unfold nodeSinkUri. simpl. now rewrite Hnone.
Qed.

Lemma eventSourceStep_nodes m res :
  sinkEntries (nodes (eventSourceStep dyn resources utils
                                      NodeType.EventSource m res))
  = sinkEntries (nodes m)
    ++ match specSinkUri res with
       | Some u =>
           if Js.truthy u
              && negb (Js.truthy
                         (match filter (fun e => fst e =? u)
                                       (sinkEntries (nodes m)) with
                          | e :: _ => fst (snd e)
                          | [] => ""
                          end))
           then [(u, (Uri.encodeURIComponent u, NodeType.SinkUri))]
           else []
       | None => []
       end.
Proof.
  destruct helpers as [Hdata Hmerge].
  unfold eventSourceStep. cbv zeta. cbn [nodes]. rewrite Hmerge.
  set (data := createTopologyNodeData res _ _ _).
  assert (Hnodes1 :
            sinkEntries (nodes m
                         ++ getKnativeTopologyNodeItems
                              res NodeType.EventSource data (Some resources))
            = sinkEntries (nodes m)).
  { rewrite sinkEntries_app, eventSource_node_entries by apply Hdata.
    apply app_nil_r. }
  destruct (specSinkUri res) as [u |]; cbn [fst];
    [| now rewrite Hnodes1, app_nil_r].
  destruct (Js.truthy u); cbn [fst andb];
    [| now rewrite Hnodes1, app_nil_r].
  rewrite getSinkTargetUid_entries, Hnodes1.
  destruct (negb (Js.truthy _)); cbn [fst].
  - rewrite sinkEntries_app, Hnodes1. reflexivity.
  - now rewrite Hnodes1, app_nil_r.
Qed.

Lemma eventSourceStep_edges m res :
  edges (eventSourceStep dyn resources utils NodeType.EventSource m res)
  = edges m
    ++ getEventTopologyEdgeItems res (ksservices resources)
    ++ match specSinkUri res with
       | Some u =>
           if Js.truthy u then
             getSinkUriTopologyEdgeItems res
               (let found :=
                  match filter (fun e => fst e =? u)
                               (sinkEntries (nodes m)) with
                  | e :: _ => fst (snd e)
                  | [] => ""
                  end in
                if negb (Js.truthy found) then Uri.encodeURIComponent u
                else found)
           else []
       | None => []
       end
    ++ (if negb (isInternalResource res)
        then flat_map (fun prop => match category resources prop with
                                   | Some d => getEventTopologyEdgeItems res d
                                   | None => []
                                   end)
                      (channelModelRefs dyn)
        else [])
    ++ getEventTopologyEdgeItems res (brokers resources).
Proof.
  destruct helpers as [Hdata Hmerge].
  unfold eventSourceStep. cbv zeta. cbn [edges].
  set (data := createTopologyNodeData res _ _ _).
  assert (Hnodes1 :
            sinkEntries (nodes m
                         ++ getKnativeTopologyNodeItems
                              res NodeType.EventSource data (Some resources))
            = sinkEntries (nodes m)).
  { rewrite sinkEntries_app, eventSource_node_entries by apply Hdata.
    apply app_nil_r. }
  assert (Hchannels : forall es,
             (if negb (isInternalResource res)
              then fold_left
                     (fun es currentProp =>
                        match category resources currentProp with
                        | Some d => es ++ getEventTopologyEdgeItems res d
                        | None => es
                        end)
                     (channelModelRefs dyn) es
              else es)
             = es ++ (if negb (isInternalResource res)
                      then flat_map
                             (fun prop =>
                                match category resources prop with
                                | Some d => getEventTopologyEdgeItems res d
                                | None => []
                                end)
                             (channelModelRefs dyn)
                      else [])).
  { intros es. destruct (negb (isInternalResource res)).
    - apply fold_left_push_some.
    - now rewrite app_nil_r. }
  rewrite Hchannels.
  destruct (specSinkUri res) as [u |]; cbn [snd].
  - destruct (Js.truthy u); cbn [snd].
    + rewrite getSinkTargetUid_entries, Hnodes1.
      destruct (negb (Js.truthy _)); cbn [snd fst];
        now rewrite <- !app_assoc.
    + now rewrite <- !app_assoc.
  - now rewrite <- !app_assoc.
Qed.

Lemma sinkInv_found processed ns u :
  sinkInv processed ns -> u <> "" ->
  match filter (fun e => fst e =? u) (sinkEntries ns) with
  | e :: _ => fst (snd e)
  | [] => ""
  end
  = if existsb (usesUri u) processed then Uri.encodeURIComponent u else "".
Proof.
  intros Hinv Hu. rewrite (Hinv u). apply truthy_iff in Hu. rewrite Hu.
  now destruct (existsb (usesUri u) processed).
Qed.

Lemma encodeURIComponent_truthy u :
  u <> "" -> Js.truthy (Uri.encodeURIComponent u) = true.
Proof.
  intros Hu. apply truthy_iff. intros Hempty.
  now apply encodeURIComponent_empty in Hempty.
Qed.

Lemma eventSourceStep_inv processed m res :
  sinkInv processed (nodes m) ->
  sinkInv (processed ++ [res])
          (nodes (eventSourceStep dyn resources utils NodeType.EventSource
                                  m res))
  /\ edges (eventSourceStep dyn resources utils NodeType.EventSource m res)
     = edges m ++ eventSourceEdges dyn resources res.
Proof.
  intros Hinv. split.
  - intros u. rewrite eventSourceStep_nodes, filter_app, existsb_app.
    cbn [existsb]. rewrite orb_false_r, (Hinv u). unfold usesUri.
    destruct (specSinkUri res) as [u0 |]; cbn [Js.strict_eq];
      [| now rewrite orb_false_r, app_nil_r].
    destruct (Js.truthy u0) eqn:Htruthy; cbn [andb].
    + pose proof Htruthy as Hne. apply truthy_iff in Hne.
      rewrite (@sinkInv_found processed (nodes m) u0 Hinv Hne).
      destruct (existsb (usesUri u0) processed) eqn:Hused.
      * rewrite (@encodeURIComponent_truthy u0 Hne). cbn [negb filter].
        rewrite app_nil_r.
        destruct (String.eqb_spec u0 u) as [<- | _].
        -- unfold usesUri in Hused. now rewrite Hused.
        -- now rewrite orb_false_r.
      * cbn [Js.truthy String.eqb negb filter fst].
        destruct (String.eqb_spec u0 u) as [<- | _].
        -- unfold usesUri in Hused. now rewrite Hused, Htruthy.
        -- now rewrite orb_false_r, app_nil_r.
    + cbn [filter]. rewrite app_nil_r.
      destruct (String.eqb_spec u0 u) as [<- | _];
        [| now rewrite orb_false_r].
      now rewrite Htruthy.
  - rewrite eventSourceStep_edges. unfold eventSourceEdges.
    do 2 f_equal.
    destruct (specSinkUri res) as [u0 |]; [| reflexivity].
    destruct (Js.truthy u0) eqn:Htruthy; [| reflexivity].
    apply truthy_iff in Htruthy. do 2 f_equal. cbv zeta.
    rewrite (@sinkInv_found processed (nodes m) u0 Hinv Htruthy).
    destruct (existsb (usesUri u0) processed).
    + now rewrite (@encodeURIComponent_truthy u0 Htruthy).
    + reflexivity.
Qed.

Lemma eventSource_fold_inv rs processed m :
  sinkInv processed (nodes m) ->
  sinkInv (processed ++ rs)
          (nodes (fold_left (eventSourceStep dyn resources utils
                                             NodeType.EventSource) rs m))
  /\ edges (fold_left (eventSourceStep dyn resources utils
                                       NodeType.EventSource) rs m)
     = edges m ++ flat_map (eventSourceEdges dyn resources) rs.
Proof.
  revert processed m. induction rs as [| res rs IH]; intros processed m Hinv.
  - simpl. now rewrite !app_nil_r.
  - simpl. destruct (@eventSourceStep_inv processed m res Hinv) as [Hinv' Hedges'].
    destruct (IH _ _ Hinv') as [Hinv'' Hedges''].
    rewrite <- app_assoc in Hinv''. split; [exact Hinv'' |].
    now rewrite Hedges'', Hedges', <- app_assoc.
Qed.

Lemma transformKnNodeData_eventSources rs :
  transformKnNodeData dyn rs NodeType.EventSource resources utils
  = fold_left (eventSourceStep dyn resources utils NodeType.EventSource) rs
              {| nodes := []; edges := [] |}.
Proof. reflexivity. Qed.

Lemma eventSource_result rs :
  sinkInv rs (nodes (transformKnNodeData dyn rs NodeType.EventSource
                                         resources utils))
  /\ edges (transformKnNodeData dyn rs NodeType.EventSource resources utils)
     = flat_map (eventSourceEdges dyn resources) rs.
Proof.
  rewrite transformKnNodeData_eventSources.
  apply (@eventSource_fold_inv rs [] {| nodes := []; edges := [] |}).
  intros u. cbn [existsb]. now rewrite andb_false_r.
Qed.

Lemma getEventTopologyEdgeItems_filter res data :
  getEventTopologyEdgeItems res data
  = match sinkTargetName res with
    | Some targetName =>
        map (fun r =>
               {| edge_id := edgeId (uid (metadata res)) (metaUid r);
                  edge_type := EdgeType.EventSource;
                  source := uid (metadata res);
                  target := metaUid r;
                  data := NoData |})
            (filter (fun r => Js.strict_eq (Some (name (metadata r)))
                                           targetName) data)
    | None => []
    end.
Proof.
  unfold getEventTopologyEdgeItems.
  destruct (sinkTargetName res) as [targetName |]; [| reflexivity].
  exact (@fold_left_push_if _ _
           (fun r => Js.strict_eq (Some (name (metadata r))) targetName)
           (fun r =>
              {| edge_id := edgeId (uid (metadata res)) (metaUid r);
                 edge_type := EdgeType.EventSource;
                 source := uid (metadata res);
                 target := metaUid r;
                 data := NoData |})
           data []).
Qed.

Lemma uri_sink_edges res u :
  specSink res = Some (uriOnly u) -> Js.truthy u = true ->
  Js.truthy (uid (metadata res)) = true ->
  eventSourceEdges dyn resources res = [sinkEdge res u].
Proof.
  intros Hsink Hu Huid.
  assert (Hnone : forall data, getEventTopologyEdgeItems res data = []).
  { intros data. rewrite getEventTopologyEdgeItems_filter.
    unfold sinkTargetName. rewrite Hsink. simpl.
    rewrite filter_none; reflexivity. }
  unfold eventSourceEdges. rewrite !Hnone.
  assert (Hchannels :
            flat_map (fun prop => match category resources prop with
                                  | Some d => getEventTopologyEdgeItems res d
                                  | None => []
                                  end) (channelModelRefs dyn) = []).
  { induction (channelModelRefs dyn) as [| prop props IH]; simpl;
      [reflexivity |].
    rewrite IH, app_nil_r.
    destruct (category resources prop); [apply Hnone | reflexivity]. }
  rewrite Hchannels.
  unfold specSinkUri, getSinkUriTopologyEdgeItems, specSinkUri.
  rewrite Hsink. cbn [sink_uri uriOnly Js.truthy_opt]. rewrite Hu, Huid.
  now destruct (negb (isInternalResource res)).
Qed.

(** C2. Built from event sources, the graph holds, for every URI, one node
    carrying that URI when it is not empty and some event source sends to
    it, and none otherwise; the node has the URI-escaped string as id and
    the sink-uri type.  Every event source sending to the URI (and having a
    uid) has its edge to that node, whether it came first or later.  In
    particular two event sources whose sink is the URI http://x yield one
    such node and the two edges to it, and nothing else. *)
Theorem transformKnNodeData_sink_uri_once :
  forall rs : list Resource,
    (forall u,
        length (sinkNodesFor
                  u (nodes (transformKnNodeData dyn rs NodeType.EventSource
                                                resources utils)))
        = (if Js.truthy u && existsb (usesUri u) rs then 1 else 0)
        /\ forall n,
            In n (sinkNodesFor
                    u (nodes (transformKnNodeData dyn rs NodeType.EventSource
                                                  resources utils))) ->
            node_id n = Uri.encodeURIComponent u
            /\ node_type n = NodeType.SinkUri)
    /\ (forall res u,
           In res rs -> specSinkUri res = Some u -> u <> "" ->
           uid (metadata res) <> "" ->
           In (sinkEdge res u)
              (edges (transformKnNodeData dyn rs NodeType.EventSource
                                          resources utils)))
    /\ (forall es1 es2,
           rs = [es1; es2] ->
           specSink es1 = Some (uriOnly "http://x") ->
           specSink es2 = Some (uriOnly "http://x") ->
           uid (metadata es1) <> "" -> uid (metadata es2) <> "" ->
           length (sinkNodesFor
                     "http://x"
                     (nodes (transformKnNodeData dyn rs NodeType.EventSource
                                                 resources utils))) = 1
           /\ edges (transformKnNodeData dyn rs NodeType.EventSource
                                         resources utils)
              = [sinkEdge es1 "http://x"; sinkEdge es2 "http://x"]).
Proof.
  intros rs. destruct (eventSource_result rs) as [Hinv Hedges].
  assert (Hnodes : forall u,
             map (fun n => (u, (node_id n, node_type n)))
                 (sinkNodesFor
                    u (nodes (transformKnNodeData dyn rs NodeType.EventSource
                                                  resources utils)))
             = if Js.truthy u && existsb (usesUri u) rs
               then [(u, (Uri.encodeURIComponent u, NodeType.SinkUri))]
               else []).
  { intros u. rewrite sinkNodesFor_entries. now apply Hinv. }
  split; [| split].
  - intros u. specialize (Hnodes u). split.
    + rewrite <- (length_map (fun n => (u, (node_id n, node_type n)))), Hnodes.
      now destruct (Js.truthy u && existsb (usesUri u) rs).
    + intros n Hn.
      apply (in_map (fun n => (u, (node_id n, node_type n)))) in Hn.
      rewrite Hnodes in Hn.
      destruct (Js.truthy u && existsb (usesUri u) rs); [| destruct Hn].
      destruct Hn as [Heq | []]. now injection Heq as <- <-.
  - intros res u Hres Huri Hu Huid. rewrite Hedges. apply in_flat_map.
    exists res. split; [assumption |]. unfold eventSourceEdges.
    apply in_or_app. right. apply in_or_app. left. rewrite Huri.
    apply truthy_iff in Hu. apply truthy_iff in Huid. rewrite Hu.
    unfold getSinkUriTopologyEdgeItems. rewrite Huri. cbn [Js.truthy_opt].
    rewrite Hu, Huid. now left.
  - intros es1 es2 -> Hs1 Hs2 Hu1 Hu2. split.
    + rewrite <- (length_map (fun n => ("http://x", (node_id n, node_type n)))),
        (Hnodes "http://x").
      cbn [existsb]. unfold usesUri at 1, specSinkUri. now rewrite Hs1.
    + rewrite Hedges. cbn [flat_map]. apply truthy_iff in Hu1, Hu2.
      rewrite (@uri_sink_edges es1 "http://x" Hs1 eq_refl Hu1),
        (@uri_sink_edges es2 "http://x" Hs2 eq_refl Hu2).
      reflexivity.
Qed.

End SinkUris.

(** ** Graph assembler: what the graph depends on *)

Lemma getSinkTargetUid_key (ns ns' : list NodeModel) (u : option string) :
  map nodeKey ns = map nodeKey ns' ->
  getSinkTargetUid ns u = getSinkTargetUid ns' u.
Proof.
  unfold getSinkTargetUid. revert ns'.
  induction ns as [| n ns IH]; intros [| n' ns'] Hkeys; try discriminate.
  - reflexivity.
  - simpl in Hkeys. injection Hkeys as Hid _ _ _ Huri Hrest. simpl.
    rewrite Huri. destruct (Js.strict_eq u (nodeSinkUri n')); [assumption |].
    now apply IH.
Qed.

Section Dependence.

Context `{Platform}.

Hypothesis grouping : GroupingByKey.

Variable resources : TopologyDataResources.
Variable utils : option (list KnativeUtil).

Lemma getKnativeTopologyNodeItems_key res type d1 d2 :
  sinkUri (tdo_data d1) = sinkUri (tdo_data d2) ->
  map nodeKey (getKnativeTopologyNodeItems res type d1 (Some resources))
  = map nodeKey (getKnativeTopologyNodeItems res type d2 (Some resources)).
Proof.
  intros Huri. unfold getKnativeTopologyNodeItems. rewrite !map_app.
  f_equal. simpl. unfold nodeKey, nodeSinkUri. simpl. now rewrite Huri.
Qed.

Lemma eventSourceStep_key dyn1 dyn2 type m1 m2 res :
  channelModelRefs dyn1 = channelModelRefs dyn2 ->
  sameGraph m1 m2 ->
  sameGraph (eventSourceStep dyn1 resources utils type m1 res)
            (eventSourceStep dyn2 resources utils type m2 res).
Proof.
  intros Hchannels [Hnodes Hedges]. unfold eventSourceStep. cbv zeta.
  set (data := createTopologyNodeData res _ _ _).
  set (own := getKnativeTopologyNodeItems res type data (Some resources)).
  assert (Hnodes1 : map nodeKey (nodes m1 ++ own)
                    = map nodeKey (nodes m2 ++ own))
    by (now rewrite !map_app, Hnodes).
  rewrite (@getSinkTargetUid_key _ _ (specSinkUri res) Hnodes1).
  rewrite Hedges, Hchannels.
  split; cbn [nodes edges].
  - apply grouping.
    destruct (specSinkUri res) as [u |]; [| exact Hnodes1].
    destruct (Js.truthy u); [| exact Hnodes1]. cbn [fst].
    destruct (negb (Js.truthy _)); cbn [fst]; [| exact Hnodes1].
    rewrite (map_app _ (nodes m1 ++ own)), (map_app _ (nodes m2 ++ own)),
      Hnodes1.
    reflexivity.
  - do 2 f_equal.
    destruct (specSinkUri res) as [u |]; [| reflexivity].
    destruct (Js.truthy u); [| reflexivity]. cbn [snd].
    now destruct (negb (Js.truthy _)).
Qed.

Lemma knServiceStep_key type m1 m2 res :
  sameGraph m1 m2 ->
  sameGraph (knServiceStep resources utils type m1 res)
            (knServiceStep resources utils type m2 res).
Proof.
  intros [Hnodes Hedges]. unfold knServiceStep. cbv zeta.
  split; cbn [nodes edges].
  - apply grouping. now rewrite !map_app, Hnodes.
  - now rewrite Hedges.
Qed.

Lemma pubSubStep_key dyn1 dyn2 type m1 m2 res :
  sameGraph m1 m2 ->
  sameGraph (pubSubStep dyn1 resources utils type m1 res)
            (pubSubStep dyn2 resources utils type m2 res).
Proof.
  intros [Hnodes Hedges]. unfold pubSubStep.
  destruct (negb (isInternalResource res)); [| now split].
  cbv zeta. split; cbn [nodes edges].
  - apply grouping. rewrite !map_app, Hnodes. f_equal.
    now apply getKnativeTopologyNodeItems_key.
  - now rewrite Hedges.
Qed.

Lemma transformKnNodeData_key dyn1 dyn2 rs type :
  channelModelRefs dyn1 = channelModelRefs dyn2 ->
  sameGraph (transformKnNodeData dyn1 rs type resources utils)
            (transformKnNodeData dyn2 rs type resources utils).
Proof.
  intros Hchannels. unfold transformKnNodeData.
  assert (Hstart : sameGraph {| nodes := []; edges := [] |}
                             {| nodes := []; edges := [] |}) by now split.
  revert Hstart. generalize {| nodes := []; edges := [] |} at 1 3.
  generalize {| nodes := []; edges := [] |}.
  induction rs as [| res rs IH]; intros m2 m1 Hsame; [exact Hsame |].
  simpl. apply IH.
  destruct (type =? NodeType.EventSource);
    [now apply eventSourceStep_key |].
  destruct (type =? NodeType.KnService); [now apply knServiceStep_key |].
  destruct (type =? NodeType.PubSub); [now apply pubSubStep_key |].
  exact Hsame.
Qed.

(** C9, as the code has it.  Two runs of the assembler on the same
    resources, node type, snapshot and enrichment functions, made while
    the registry of dynamically discovered channel categories reads the
    same, produce the same node ids, the same edge ids and the same edge
    data; the registry of event-source categories may even differ
    between the two runs. *)
Theorem transformKnNodeData_same_registry_same_graph :
  forall (dyn1 dyn2 : DynamicModels) (rs : list Resource) (type : string),
    channelModelRefs dyn1 = channelModelRefs dyn2 ->
    map node_id (nodes (transformKnNodeData dyn1 rs type resources utils))
    = map node_id (nodes (transformKnNodeData dyn2 rs type resources utils))
    /\ map edge_id
           (edges (transformKnNodeData dyn1 rs type resources utils))
       = map edge_id
             (edges (transformKnNodeData dyn2 rs type resources utils))
    /\ map data (edges (transformKnNodeData dyn1 rs type resources utils))
       = map data (edges (transformKnNodeData dyn2 rs type resources utils)).
Proof.
  intros dyn1 dyn2 rs type Hchannels.
  destruct (@transformKnNodeData_key dyn1 dyn2 rs type Hchannels)
    as [Hnodes Hedges].
  split; [| now rewrite Hedges].
  apply (f_equal (map (fun k => fst (fst (fst (fst k)))))) in Hnodes.
  now rewrite !map_map in Hnodes.
Qed.

End Dependence.

(** ** The sample platform meets the assumptions on helpers *)

Lemma findIndex_map {A B} (f : A -> B) (q : B -> bool) (l : list A) :
  Js.findIndex (fun x => q (f x)) l = Js.findIndex q (map f l).
Proof.
  induction l as [| a l IH]; simpl; [reflexivity |]. now rewrite IH.
Qed.

Lemma map_update_at {A B} (f : A -> B) (h : A -> A) (h' : B -> B) (i : nat)
    (l : list A) :
  (forall x, f (h x) = h' (f x)) ->
  map f (Js.update_at i h l) = Js.update_at i h' (map f l).
Proof.
  intros Hcomm. revert i. induction l as [| a l IH]; intros i.
  - now destruct i.
  - destruct i as [| i]; simpl; [now rewrite Hcomm | now rewrite IH].
Qed.

Lemma sinkEntries_update_at (h : NodeModel -> NodeModel) (i : nat)
    (l : list NodeModel) :
  (forall x, nodeSinkUri (h x) = nodeSinkUri x /\ node_id (h x) = node_id x
             /\ node_type (h x) = node_type x) ->
  sinkEntries (Js.update_at i h l) = sinkEntries l.
Proof.
  intros Hsame. unfold sinkEntries. revert i.
  induction l as [| a l IH]; intros i; [now destruct i |].
  destruct i as [| i]; simpl.
  - destruct (Hsame a) as (-> & -> & ->). reflexivity.
  - now rewrite IH.
Qed.

Lemma sample_keeps_sink_uri : HelpersKeepSinkUri (H := Sample.platform).
Proof.
  split; [reflexivity |].
  intros res ns. simpl. unfold Sample.merge, Sample.groupItems.
  destruct (Sample.partOf res) as [app |]; [| reflexivity].
  destruct (Js.findIndex _ ns) as [i |].
  - apply sinkEntries_update_at. intros x. repeat split.
  - rewrite sinkEntries_app. simpl. apply app_nil_r.
Qed.

Lemma sample_groups_by_key : GroupingByKey (H := Sample.platform).
Proof.
  intros g ns ns' Hkeys. simpl. unfold Sample.merge.
  destruct g as [g |]; [| exact Hkeys].
  set (same := fun n => (node_id n =? node_id g) && (node_type n =? "part-of")).
  set (sameKey :=
         fun k : string * string * list string * option ModelProps
                 * option string =>
           (fst (fst (fst (fst k))) =? node_id g)
           && (snd (fst (fst (fst k))) =? "part-of")).
  set (grow :=
         fun k : string * string * list string * option ModelProps
                 * option string =>
           (fst (fst (fst (fst k))), snd (fst (fst (fst k))),
            snd (fst (fst k))
            ++ filter (fun c => negb (Js.includes (snd (fst (fst k))) c))
                      (node_children g),
            snd (fst k), snd k)).
  assert (Hfind : forall l,
             Js.findIndex same l = Js.findIndex sameKey (map nodeKey l))
    by (intros l; exact (findIndex_map nodeKey sameKey l)).
  assert (Hgrow : forall i l,
             map nodeKey (Js.update_at i (Sample.addChildren (node_children g)) l)
             = Js.update_at i grow (map nodeKey l))
    by (intros i l; apply map_update_at; intros x; reflexivity).
  rewrite !Hfind, Hkeys.
  destruct (Js.findIndex sameKey (map nodeKey ns')) as [i |].
  - now rewrite !Hgrow, Hkeys.
  - now rewrite !map_app, Hkeys.
Qed.

Lemma transformKnNodeData_sink_uri_once_witness :
  HelpersKeepSinkUri (H := Sample.platform)
  /\ specSink Sample.src1 = Some (uriOnly "http://x")
  /\ specSink Sample.src2 = Some (uriOnly "http://x")
  /\ uid (metadata Sample.src1) <> "" /\ uid (metadata Sample.src2) <> ""
  /\ length (sinkNodesFor
               "http://x"
               (nodes (transformKnNodeData (H := Sample.platform)
                         Sample.registryLoaded [Sample.src1; Sample.src2]
                         NodeType.EventSource Sample.eventingSnapshot None)))
     = 1
  /\ edges (transformKnNodeData (H := Sample.platform)
              Sample.registryLoaded [Sample.src1; Sample.src2]
              NodeType.EventSource Sample.eventingSnapshot None)
     = [sinkEdge Sample.src1 "http://x"; sinkEdge Sample.src2 "http://x"].
Proof.
  assert (Hu1 : uid (metadata Sample.src1) <> "") by (simpl; discriminate).
  assert (Hu2 : uid (metadata Sample.src2) <> "") by (simpl; discriminate).
  split; [exact sample_keeps_sink_uri |].
  split; [reflexivity |]. split; [reflexivity |].
  split; [exact Hu1 |]. split; [exact Hu2 |].
  exact (proj2 (proj2 (@transformKnNodeData_sink_uri_once
                         Sample.platform sample_keeps_sink_uri
                         Sample.registryLoaded Sample.eventingSnapshot None
                         [Sample.src1; Sample.src2]))
           Sample.src1 Sample.src2 eq_refl eq_refl eq_refl Hu1 Hu2).
Defined.

Lemma transformKnNodeData_same_registry_same_graph_witness :
  GroupingByKey (H := Sample.platform)
  /\ channelModelRefs Sample.registryLoaded
     = channelModelRefs
         {| eventSourceModelRefs := ["sources.knative.dev~v1~PingSource"];
            channelModelRefs := [Sample.channelKey] |}
  /\ map edge_id
         (edges (transformKnNodeData (H := Sample.platform)
                   Sample.registryLoaded [Sample.src1; Sample.src3]
                   NodeType.EventSource Sample.eventingSnapshot None))
     = map edge_id
           (edges (transformKnNodeData (H := Sample.platform)
                     {| eventSourceModelRefs :=
                          ["sources.knative.dev~v1~PingSource"];
                        channelModelRefs := [Sample.channelKey] |}
                     [Sample.src1; Sample.src3]
                     NodeType.EventSource Sample.eventingSnapshot None)).
Proof.
  split; [exact sample_groups_by_key |]. split; [reflexivity |].
  exact (proj1 (proj2 (@transformKnNodeData_same_registry_same_graph
                         Sample.platform sample_groups_by_key
                         Sample.eventingSnapshot None
                         Sample.registryLoaded
                         {| eventSourceModelRefs :=
                              ["sources.knative.dev~v1~PingSource"];
                            channelModelRefs := [Sample.channelKey] |}
                         [Sample.src1; Sample.src3] NodeType.EventSource
                         eq_refl))).
Defined.

(** C9, as the specification states it, fails: the same event source,
    snapshot and enrichment functions give a graph without the edge to the
    channel while the channel registry is still empty, and a graph with it
    once the channel category has been discovered. *)
Lemma transformKnNodeData_registry_counterexample :
  map edge_id
      (edges (transformKnNodeData (H := Sample.platform) Sample.registryEmpty
                [Sample.src3] NodeType.EventSource Sample.eventingSnapshot
                None))
  = []
  /\ map edge_id
         (edges (transformKnNodeData (H := Sample.platform)
                   Sample.registryLoaded [Sample.src3] NodeType.EventSource
                   Sample.eventingSnapshot None))
     = ["es3-uid_ch-uid"].
Proof. split; reflexivity. Qed.

(** * Further properties *)

(** ** Route of a Knative service *)

(** Doubles are compared through their specification: [<] is the strict
    order of the numbers, and nothing compares with [NaN]. *)

Lemma SFltb_trans (a b c : spec_float) :
  SFltb a b = true -> SFltb b c = true -> SFltb a c = true.
Proof.
  unfold SFltb.
  destruct a as [sa | sa | | sa ma ea], b as [sb | sb | | sb mb eb],
    c as [sc | sc | | sc mc ec]; simpl;
    repeat match goal with s : bool |- _ => destruct s end; simpl;
    try discriminate; try reflexivity;
    rewrite ?Pos.compare_cont_spec; simpl;
    destruct (Z.compare_spec ea eb), (Z.compare_spec eb ec),
      (Z.compare_spec ea ec); simpl; try discriminate; try reflexivity;
      try lia;
    destruct (Pos.compare_spec ma mb), (Pos.compare_spec mb mc),
      (Pos.compare_spec ma mc); simpl; try discriminate; try reflexivity;
      try lia.
Qed.

Lemma SFltb_not_greater (a b c : spec_float) :
  SFeqb a a = true -> SFltb b a = false -> SFltb b c = true ->
  SFltb a c = true.
Proof.
  unfold SFltb, SFeqb.
  destruct a as [sa | sa | | sa ma ea], b as [sb | sb | | sb mb eb],
    c as [sc | sc | | sc mc ec]; simpl;
    repeat match goal with s : bool |- _ => destruct s end; simpl;
    try discriminate; try reflexivity;
    rewrite ?Pos.compare_cont_spec; simpl;
    destruct (Z.compare_spec eb ea), (Z.compare_spec eb ec),
      (Z.compare_spec ea ec); simpl; try discriminate; try reflexivity;
      try lia;
    destruct (Pos.compare_spec mb ma), (Pos.compare_spec mb mc),
      (Pos.compare_spec ma mc); simpl; try discriminate; try reflexivity;
      try lia.
Qed.

Lemma SFltb_number (a b : spec_float) :
  SFltb a b = true -> SFeqb b b = true.
Proof.
  unfold SFltb, SFeqb.
  destruct a as [sa | sa | | sa ma ea], b as [sb | sb | | sb mb eb]; simpl;
    repeat match goal with s : bool |- _ => destruct s end; simpl;
    try discriminate; try reflexivity;
    rewrite ?Pos.compare_cont_spec, ?Z.compare_refl, ?Pos.compare_refl;
    reflexivity.
Qed.

Lemma float_ltb_trans (a b c : float) :
  (a <? b)%float = true -> (b <? c)%float = true -> (a <? c)%float = true.
Proof. rewrite !ltb_spec. apply SFltb_trans. Qed.

Lemma float_ltb_not_greater (a b c : float) :
  (a =? a)%float = true -> (b <? a)%float = false ->
  (b <? c)%float = true -> (a <? c)%float = true.
Proof. rewrite !ltb_spec, FloatAxioms.eqb_spec. apply SFltb_not_greater. Qed.

Lemma float_ltb_number (a b : float) :
  (a <? b)%float = true -> (b =? b)%float = true.
Proof. rewrite ltb_spec, FloatAxioms.eqb_spec. apply SFltb_number. Qed.

Lemma is_nan_false (x : float) : is_nan x = false <-> (x =? x)%float = true.
Proof. unfold is_nan. apply negb_false_iff. Qed.

Lemma maxByStep_from (l : list Traffic) (c : float) (b : Traffic) :
  exists x t,
    fold_left maxByStep l (Some (c, b)) = Some (x, t)
    /\ ((x = c /\ t = b
         /\ forall t' y,
             In t' l -> percent t' = Some y -> (c <? y)%float = false)
        \/ exists before after,
            l = before ++ t :: after /\ percent t = Some x
            /\ (c <? x)%float = true
            /\ (forall t' y,
                   In t' before -> percent t' = Some y ->
                   (y =? y)%float = true -> (y <? x)%float = true)
            /\ (forall t' y,
                   In t' after -> percent t' = Some y ->
                   (x <? y)%float = false)).
Proof.
  revert c b. induction l as [| a l IH]; intros c b.
  - exists c, b. split; [reflexivity |]. left.
    split; [reflexivity |]. split; [reflexivity |]. intros t' y [].
  - cbn [fold_left]. unfold maxByStep at 2.
    destruct (percent a) as [y |] eqn:Hy.
    + unfold Js.gt. destruct (c <? y)%float eqn:Hcy.
      * destruct (IH y a) as (x & t & Hfold & Hcases).
        exists x, t. split; [exact Hfold |]. right.
        destruct Hcases
          as [(-> & -> & Hall)
             | (before & after & -> & Hx & Hlt & Hb & Ha)].
        -- exists [], l. split; [reflexivity |]. split; [exact Hy |].
           split; [exact Hcy |]. split; [intros t' y' [] | exact Hall].
        -- exists (a :: before), after. split; [reflexivity |].
           split; [exact Hx |].
           split; [exact (@float_ltb_trans _ _ _ Hcy Hlt) |].
           split; [| exact Ha].
           intros t' y' [<- | Hin] Hy' Hnum; [| now apply (Hb t')].
           rewrite Hy in Hy'. injection Hy' as <-. exact Hlt.
      * destruct (IH c b) as (x & t & Hfold & Hcases).
        exists x, t. split; [exact Hfold |].
        destruct Hcases
          as [(-> & -> & Hall)
             | (before & after & -> & Hx & Hlt & Hb & Ha)].
        -- left. split; [reflexivity |]. split; [reflexivity |].
           intros t' y' [<- | Hin] Hy'; [| now apply (Hall t')].
           rewrite Hy in Hy'. injection Hy' as <-. exact Hcy.
        -- right. exists (a :: before), after. split; [reflexivity |].
           split; [exact Hx |]. split; [exact Hlt |]. split; [| exact Ha].
           intros t' y' [<- | Hin] Hy' Hnum; [| now apply (Hb t')].
           rewrite Hy in Hy'. injection Hy' as <-.
           exact (@float_ltb_not_greater _ _ _ Hnum Hcy Hlt).
    + destruct (IH c b) as (x & t & Hfold & Hcases).
      exists x, t. split; [exact Hfold |].
      destruct Hcases
        as [(-> & -> & Hall)
           | (before & after & -> & Hx & Hlt & Hb & Ha)].
      * left. split; [reflexivity |]. split; [reflexivity |].
        intros t' y' [<- | Hin] Hy'; [congruence | now apply (Hall t')].
      * right. exists (a :: before), after. split; [reflexivity |].
        split; [exact Hx |]. split; [exact Hlt |]. split; [| exact Ha].
        intros t' y' [<- | Hin] Hy' Hnum; [congruence | now apply (Hb t')].
Qed.

Lemma maxByPercent_first_greatest (l : list Traffic) :
  match maxByPercent l with
  | None =>
      forall t x, In t l -> percent t = Some x -> (x =? x)%float = false
  | Some t =>
      exists before x after,
        l = before ++ t :: after /\ percent t = Some x
        /\ (x =? x)%float = true
        /\ (forall t' y,
               In t' before -> percent t' = Some y ->
               (y =? y)%float = true -> (y <? x)%float = true)
        /\ (forall t' y,
               In t' after -> percent t' = Some y -> (x <? y)%float = false)
  end.
Proof.
  unfold maxByPercent. induction l as [| a l IH].
  - intros t x [].
  - cbn [fold_left]. unfold maxByStep at 2.
    destruct (percent a) as [y |] eqn:Hy.
    + destruct (y =? y)%float eqn:Hnum.
      * destruct (maxByStep_from l y a) as (x & t & -> & Hcases).
        cbn [option_map snd].
        destruct Hcases
          as [(-> & -> & Hall)
             | (before & after & -> & Hx & Hlt & Hb & Ha)].
        -- exists [], y, l. split; [reflexivity |]. split; [exact Hy |].
           split; [exact Hnum |]. split; [intros t' y' [] | exact Hall].
        -- exists (a :: before), x, after. split; [reflexivity |].
           split; [exact Hx |].
           split; [exact (@float_ltb_number _ _ Hlt) |]. split; [| exact Ha].
           intros t' y' [<- | Hin] Hy' Hnum'; [| now apply (Hb t')].
           rewrite Hy in Hy'. injection Hy' as <-. exact Hlt.
      * destruct (option_map snd (fold_left maxByStep l None)) as [t |].
        -- destruct IH as (before & x & after & -> & Hx & Hxnum & Hb & Ha).
           exists (a :: before), x, after. split; [reflexivity |].
           split; [exact Hx |]. split; [exact Hxnum |]. split; [| exact Ha].
           intros t' y' [<- | Hin] Hy' Hnum'; [| now apply (Hb t')].
           rewrite Hy in Hy'. injection Hy' as <-. congruence.
        -- intros t x [<- | Hin] Hx; [| now apply (IH t)].
           rewrite Hy in Hx. injection Hx as <-. exact Hnum.
    + destruct (option_map snd (fold_left maxByStep l None)) as [t |].
      * destruct IH as (before & x & after & -> & Hx & Hxnum & Hb & Ha).
        exists (a :: before), x, after. split; [reflexivity |].
        split; [exact Hx |]. split; [exact Hxnum |]. split; [| exact Ha].
        intros t' y' [<- | Hin] Hy' Hnum'; [congruence | now apply (Hb t')].
      * intros t x [<- | Hin] Hx; [congruence | now apply (IH t)].
Qed.

(** X1. The route of a Knative service is empty without [status]; with a
    [status] whose traffic list has no entry [_.maxBy] ranks (the list is
    absent or empty, or no percent in it is a number other than [NaN]) it
    is [status.url]; otherwise it is the url of the first ranked entry of
    greatest percent (every ranked entry before it has a strictly smaller
    percent, no entry after it a greater one), and [status.url] when that
    entry has no url. *)
Theorem getKnativeServiceRoutesURL_greatest_traffic :
  forall ksvc : Resource,
    (status ksvc = None ->
     getKnativeServiceRoutesURL (K8sObject ksvc) = Some "")
    /\ (forall st,
           status ksvc = Some st ->
           (forall t, In t (trafficOf ksvc) -> ~ ranked t) ->
           getKnativeServiceRoutesURL (K8sObject ksvc) = status_url st)
    /\ (forall st,
           status ksvc = Some st ->
           (exists t, In t (trafficOf ksvc) /\ ranked t) ->
           exists before t x after,
             trafficOf ksvc = before ++ t :: after
             /\ percent t = Some x /\ is_nan x = false
             /\ (forall t' y,
                    In t' before -> percent t' = Some y -> is_nan y = false ->
                    (y <? x)%float = true)
             /\ (forall t' y,
                    In t' after -> percent t' = Some y ->
                    (x <? y)%float = false)
             /\ getKnativeServiceRoutesURL (K8sObject ksvc)
                = if Js.truthy_opt (traffic_url t) then traffic_url t
                  else status_url st).
Proof.
  intros ksvc. unfold getKnativeServiceRoutesURL, trafficOf.
  split; [| split].
  - now intros ->.
  - intros st -> Hnone.
    pose proof (maxByPercent_first_greatest
                  (match traffic st with Some l => l | None => [] end)) as Hmax.
    destruct (maxByPercent _) as [t |]; [| reflexivity].
    destruct Hmax as (before & x & after & Heq & Hx & Hnum & _).
    exfalso. apply (Hnone t).
    + rewrite Heq. apply in_elt.
    + exists x. split; [exact Hx | now apply is_nan_false].
  - intros st -> (t0 & Hin & x0 & Hx0 & Hnum0).
    pose proof (maxByPercent_first_greatest
                  (match traffic st with Some l => l | None => [] end)) as Hmax.
    destruct (maxByPercent _) as [t |].
    + destruct Hmax as (before & x & after & Heq & Hx & Hnum & Hb & Ha).
      exists before, t, x, after. split; [exact Heq |]. split; [exact Hx |].
      split; [now apply is_nan_false |]. split; [| split; [exact Ha |]].
      * intros t' y Hin' Hy Hynum. apply (Hb t' y Hin' Hy).
        now apply is_nan_false.
      * reflexivity.
    + apply is_nan_false in Hnum0. rewrite (Hmax t0 x0 Hin Hx0) in Hnum0.
      discriminate.
Qed.

Lemma getKnativeServiceRoutesURL_greatest_traffic_witness :
  status Sample.svc
  = Some {| traffic := Some [Sample.entry "r1" 30; Sample.entry "r1" 20];
            status_url := None |}
  /\ (exists t, In t (trafficOf Sample.svc) /\ ranked t)
  /\ exists before t x after,
      trafficOf Sample.svc = before ++ t :: after
      /\ percent t = Some x /\ is_nan x = false
      /\ (forall t' y,
             In t' before -> percent t' = Some y -> is_nan y = false ->
             (y <? x)%float = true)
      /\ (forall t' y,
             In t' after -> percent t' = Some y -> (x <? y)%float = false)
      /\ getKnativeServiceRoutesURL (K8sObject Sample.svc)
         = if Js.truthy_opt (traffic_url t) then traffic_url t else None.
Proof.
  assert (Hranked : exists t, In t (trafficOf Sample.svc) /\ ranked t).
  { exists (Sample.entry "r1" 30). split; [now left |].
    exists 30%float. split; reflexivity. }
  split; [reflexivity | split; [exact Hranked |]].
  exact (proj2 (proj2 (@getKnativeServiceRoutesURL_greatest_traffic
                         Sample.svc))
           _ eq_refl Hranked).
Defined.

(** ** Dynamically discovered categories *)

Lemma getKnativeDynamicResources_from resources (props : list string)
    (acc : list Resource) :
  fold_left (fun acc currProp => acc ++ categoryOrEmpty resources currProp)
            props acc
  = acc ++ flat_map (categoryOrEmpty resources) props.
Proof.
  revert acc. induction props as [| p props IH]; intros acc; simpl.
  - now rewrite app_nil_r.
  - now rewrite IH, app_assoc.
Qed.

(** X2. The resources of a list of dynamically discovered categories are
    the collections of those categories, each in its own order,
    concatenated in the order of the keys: a key the snapshot has adds its
    collection, as it is, at the end; a key the snapshot does not have
    contributes nothing; and the resources of two lists of keys put end to
    end are those of the first followed by those of the second. *)
Theorem getKnativeDynamicResources_concatenates :
  forall (resources : TopologyDataResources) (props more : list string),
    (forall r,
        In r (getKnativeDynamicResources resources props) <->
        exists key l,
          In key props /\ category resources key = Some l /\ In r l)
    /\ getKnativeDynamicResources resources (props ++ more)
       = getKnativeDynamicResources resources props
         ++ getKnativeDynamicResources resources more
    /\ (forall key,
           category resources key = None ->
           getKnativeDynamicResources resources (props ++ [key])
           = getKnativeDynamicResources resources props)
    /\ getKnativeDynamicResources resources props
       = flat_map (fun key =>
                     match category resources key with
                     | Some l => l
                     | None => []
                     end)
                  props
    /\ (forall key l,
           category resources key = Some l ->
           getKnativeDynamicResources resources (props ++ [key])
           = getKnativeDynamicResources resources props ++ l).
Proof.
  intros resources props more.
  assert (Hflat : forall l,
             getKnativeDynamicResources resources l
             = flat_map (categoryOrEmpty resources) l)
    by (intros l; exact (getKnativeDynamicResources_from resources l [])).
  split; [| split; [| split; [| split]]]; cycle 3.
  - rewrite Hflat. reflexivity.
  - intros key l Hcat. rewrite !Hflat, flat_map_app. simpl.
    unfold categoryOrEmpty at 2. rewrite Hcat. now rewrite app_nil_r.
  - intros r. rewrite Hflat, in_flat_map. unfold categoryOrEmpty. split.
    + intros (key & Hkey & Hin).
      destruct (category resources key) as [l |] eqn:Hcat; [| destruct Hin].
      now exists key, l.
    + intros (key & l & Hkey & Hcat & Hin). exists key. now rewrite Hcat.
  - now rewrite !Hflat, flat_map_app.
  - intros key Hcat. rewrite !Hflat, flat_map_app. simpl.
    unfold categoryOrEmpty at 2. rewrite Hcat. now rewrite !app_nil_r.
Qed.

Lemma getKnativeDynamicResources_concatenates_witness :
  category Sample.eventingSnapshot "no-such-category" = None
  /\ getKnativeDynamicResources Sample.eventingSnapshot
       ([Sample.channelKey] ++ ["no-such-category"])
     = getKnativeDynamicResources Sample.eventingSnapshot [Sample.channelKey].
Proof.
  split; [reflexivity |].
  exact (proj1 (proj2 (proj2 (@getKnativeDynamicResources_concatenates
                                Sample.eventingSnapshot [Sample.channelKey]
                                [])))
           "no-such-category" eq_refl).
Defined.

(** ** Revisions in the traffic of a service *)

Lemma fold_left_push_found {A B} (g : A -> option B) (l : list A)
    (acc : list B) :
  fold_left (fun acc x => match g x with
                          | Some el => acc ++ [el]
                          | None => acc
                          end) l acc
  = acc ++ flat_map (fun x => match g x with Some el => [el] | None => [] end) l.
Proof.
  revert acc. induction l as [| a l IH]; intros acc; simpl.
  - now rewrite app_nil_r.
  - rewrite IH. destruct (g a); [now rewrite <- app_assoc | reflexivity].
Qed.

Lemma length_flat_map_found {A B} (g : A -> option B) (l : list A) :
  length (flat_map (fun x => match g x with Some el => [el] | None => [] end) l)
  = length (filter (fun x => match g x with Some _ => true | None => false end)
                   l).
Proof.
  induction l as [| a l IH]; simpl; [reflexivity |].
  destruct (g a); simpl; now rewrite IH.
Qed.

Lemma find_existsb {A} (p : A -> bool) (l : list A) :
  match find p l with Some _ => true | None => false end = existsb p l.
Proof.
  induction l as [| a l IH]; simpl; [reflexivity |]. now destruct (p a).
Qed.

Lemma filterRevisionsBaseOnTrafficStatus_flat resource revisions :
  filterRevisionsBaseOnTrafficStatus resource revisions
  = match status resource with
    | Some st =>
        match traffic st with
        | Some tr =>
            Some (flat_map
                    (fun curr =>
                       match find (fun rev =>
                                     revisionName curr =? name (metadata rev))
                                  revisions with
                       | Some el => [el]
                       | None => []
                       end) tr)
        | None => None
        end
    | None => None
    end.
Proof.
  unfold filterRevisionsBaseOnTrafficStatus.
  destruct (status resource) as [st |]; [| reflexivity].
  destruct (traffic st) as [tr |]; [| reflexivity].
  f_equal.
  exact (fold_left_push_found
           (fun curr => find (fun rev => revisionName curr =? name (metadata rev))
                             revisions) tr []).
Qed.

Lemma filterRevisionsBaseOnTrafficStatus_members resource revisions kept :
  filterRevisionsBaseOnTrafficStatus resource revisions = Some kept ->
  forall r,
    In r kept <->
    exists t,
      In t (trafficOf resource)
      /\ find (fun rev => revisionName t =? name (metadata rev)) revisions
         = Some r.
Proof.
  rewrite filterRevisionsBaseOnTrafficStatus_flat. unfold trafficOf.
  destruct (status resource) as [st |]; [| discriminate].
  destruct (traffic st) as [tr |]; [| discriminate].
  intros [= <-] r. rewrite in_flat_map. split.
  - intros (t & Ht & Hin). exists t. split; [assumption |].
    destruct (find _ revisions) as [el |]; [| destruct Hin].
    destruct Hin as [<- | []]. reflexivity.
  - intros (t & Ht & Hfind). exists t. split; [assumption |].
    rewrite Hfind. now left.
Qed.

(** X3. [filterRevisionsBaseOnTrafficStatus] returns [undefined] exactly
    when the resource has no [status.traffic].  Otherwise it returns, entry
    by entry and in the order of the entries, the first revision named by
    the entry, and nothing for an entry that names no known revision: a
    revision is in the result exactly when some entry resolves to it, the
    result has as many elements as there are entries that name a known
    revision, and two entries naming one revision return it twice. *)
Theorem filterRevisionsBaseOnTrafficStatus_by_entry :
  forall (resource : Resource) (revisions : list Resource),
    (filterRevisionsBaseOnTrafficStatus resource revisions = None
     <-> noTrafficList resource)
    /\ (forall kept,
           filterRevisionsBaseOnTrafficStatus resource revisions = Some kept ->
           (forall r,
               In r kept <->
               exists t,
                 In t (trafficOf resource)
                 /\ find (fun rev => revisionName t =? name (metadata rev))
                         revisions = Some r)
           /\ length kept
              = length (filter
                          (fun t =>
                             existsb (fun rev =>
                                        revisionName t =? name (metadata rev))
                                     revisions)
                          (trafficOf resource))
           /\ kept
              = flat_map
                  (fun t =>
                     match find (fun rev =>
                                   revisionName t =? name (metadata rev))
                                revisions with
                     | Some rev => [rev]
                     | None => []
                     end)
                  (trafficOf resource)).
Proof.
  intros resource revisions.
  rewrite filterRevisionsBaseOnTrafficStatus_flat.
  unfold noTrafficList, trafficOf.
  destruct (status resource) as [st |].
  - destruct (traffic st) as [tr |].
    + split; [split; discriminate |].
      intros kept [= <-]. split; [| split; [| reflexivity]].
      * intros r. rewrite in_flat_map. split.
        -- intros (t & Ht & Hin). exists t. split; [assumption |].
           destruct (find _ revisions) as [el |]; [| destruct Hin].
           destruct Hin as [<- | []]. reflexivity.
        -- intros (t & Ht & Hfind). exists t. split; [assumption |].
           rewrite Hfind. now left.
      * rewrite (length_flat_map_found
                   (fun curr =>
                      find (fun rev => revisionName curr =? name (metadata rev))
                           revisions)).
        f_equal. apply filter_ext. intros t. apply find_existsb.
    + split; [tauto |]. discriminate.
  - split; [tauto |]. discriminate.
Qed.

Lemma filterRevisionsBaseOnTrafficStatus_by_entry_witness :
  filterRevisionsBaseOnTrafficStatus Sample.svc [Sample.rev1; Sample.rev2]
  = Some [Sample.rev1; Sample.rev1]
  /\ length [Sample.rev1; Sample.rev1]
     = length (filter
                 (fun t =>
                    existsb (fun rev => revisionName t =? name (metadata rev))
                            [Sample.rev1; Sample.rev2])
                 (trafficOf Sample.svc)).
Proof.
  split; [reflexivity |].
  exact (proj1 (proj2 (proj2 (@filterRevisionsBaseOnTrafficStatus_by_entry
                                Sample.svc [Sample.rev1; Sample.rev2])
                         [Sample.rev1; Sample.rev1] eq_refl))).
Defined.

(** ** Nodes of one resource *)

Lemma revision_nodes_fold {A B} (f : Resource -> A) (g : Resource -> B)
    (kept : list Resource) (acc : list A * list B) :
  fold_left (fun acc c => (fst acc ++ [f c], snd acc ++ [g c])) kept acc
  = (fst acc ++ map f kept, snd acc ++ map g kept).
Proof.
  revert acc. induction kept as [| c kept IH]; intros [a b]; simpl.
  - now rewrite !app_nil_r.
  - rewrite IH. simpl. now rewrite <- !app_assoc.
Qed.

Section NodeItems.

Context `{Platform}.

Lemma getKnativeTopologyNodeItems_kept resource type data resources :
  exists kept,
    getKnativeTopologyNodeItems resource type data resources
    = map revisionNode kept
      ++ [getTopologyNodeItem resource type (Some data)
            (Some (getKnNodeModelProps type)) (map metaUid kept)]
    /\ (type <> NodeType.KnService \/ resources = None -> kept = [])
    /\ (forall rs,
           resources = Some rs -> type = NodeType.KnService ->
           filterRevisionsBaseOnTrafficStatus
             resource
             (filter
                (fun rev =>
                   match getOwnedResources resource (configurations rs) with
                   | c0 :: _ =>
                       Js.includes (parentUids (Some rev)) (uid (metadata c0))
                   | [] => false
                   end)
                (revisions rs))
           = Some kept \/
           (filterRevisionsBaseOnTrafficStatus
              resource
              (filter
                 (fun rev =>
                    match getOwnedResources resource (configurations rs) with
                    | c0 :: _ =>
                        Js.includes (parentUids (Some rev)) (uid (metadata c0))
                    | [] => false
                    end)
                 (revisions rs))
            = None /\ kept = [])).
Proof.
  unfold getKnativeTopologyNodeItems.
  destruct resources as [rs |].
  - destruct (String.eqb_spec type NodeType.KnService) as [-> | Hne].
    + set (ChildData := filter _ (revisions rs)).
      assert (HChild :
                ChildData
                = filter
                    (fun rev =>
                       match getOwnedResources resource (configurations rs) with
                       | c0 :: _ =>
                           Js.includes (parentUids (Some rev))
                                       (uid (metadata c0))
                       | [] => false
                       end)
                    (revisions rs)).
      { unfold ChildData. apply filter_ext. intros rev.
        now destruct (getOwnedResources resource (configurations rs)). }
      destruct (filterRevisionsBaseOnTrafficStatus resource ChildData)
        as [kept |] eqn:Hkept.
      * exists kept.
        match goal with
        | |- context [fold_left ?f kept ?a] =>
            change (fold_left f kept a)
              with (fold_left
                      (fun acc c =>
                         (fst acc ++ [metaUid c], snd acc ++ [revisionNode c]))
                      kept ([], []))
        end.
        rewrite (revision_nodes_fold metaUid revisionNode kept ([], [])).
        simpl. split; [reflexivity |]. split.
        -- intros [Hne | Hnone]; [now contradiction Hne | discriminate].
        -- intros rs' Hrs _. assert (Hsame : rs' = rs) by congruence.
           subst rs'. left. rewrite HChild in Hkept. exact Hkept.
      * exists []. simpl. split; [reflexivity |]. split; [reflexivity |].
        intros rs' Hrs _. assert (Hsame : rs' = rs) by congruence.
        subst rs'. right. rewrite HChild in Hkept. now split.
    + exists []. simpl. split; [reflexivity |]. split; [reflexivity |].
      intros rs' _ Heq. contradiction.
  - exists []. simpl. split; [reflexivity |]. split; [reflexivity |].
    discriminate.
Qed.

(** X4. The nodes of a resource end with the node of the resource itself;
    the nodes before it are revision nodes without data or children, and
    the children of the resource's node are exactly their ids, in order.
    There are no revision nodes unless the type is the Knative service type
    and a snapshot is given; and then each of them stands for a revision of
    the snapshot that is owned by the first configuration the resource owns
    and is named by an entry of the resource's [status.traffic]. *)
Theorem getKnativeTopologyNodeItems_children :
  forall (resource : Resource) (type : string) (data : TopologyDataObject)
         (resources : option TopologyDataResources),
  exists revisionNodes,
    getKnativeTopologyNodeItems resource type data resources
    = revisionNodes
      ++ [getTopologyNodeItem resource type (Some data)
            (Some (getKnNodeModelProps type)) (map node_id revisionNodes)]
    /\ (forall n,
           In n revisionNodes ->
           node_type n = NodeType.Revision /\ node_data n = None
           /\ node_children n = [])
    /\ (type <> NodeType.KnService \/ resources = None -> revisionNodes = [])
    /\ (forall rs n,
           resources = Some rs -> In n revisionNodes ->
           exists conf rev t,
             Js.first (getOwnedResources resource (configurations rs))
             = Some conf
             /\ In rev (revisions rs) /\ listedOwner (Some rev) conf
             /\ In t (trafficOf resource)
             /\ revisionName t = name (metadata rev)
             /\ node_id n = uid (metadata rev)).
Proof.
  intros resource type data resources.
  destruct (getKnativeTopologyNodeItems_kept resource type data resources)
    as (kept & Hnodes & Hempty & Hkept).
  exists (map revisionNode kept). split; [| split; [| split]].
  - rewrite Hnodes. do 3 f_equal. rewrite map_map. reflexivity.
  - intros n Hn. apply in_map_iff in Hn. destruct Hn as (c & <- & _).
    repeat split.
  - intros Hcase. now rewrite (Hempty Hcase).
  - intros rs n Hrs Hn. apply in_map_iff in Hn. destruct Hn as (rev & <- & Hrev).
    destruct (String.eqb_spec type NodeType.KnService) as [Htype | Hne];
      [| rewrite (Hempty (or_introl Hne)) in Hrev; destruct Hrev].
    destruct (Hkept rs Hrs Htype) as [Hsome | [_ Hnil]];
      [| rewrite Hnil in Hrev; destruct Hrev].
    apply (filterRevisionsBaseOnTrafficStatus_members _ _ Hsome) in Hrev. destruct Hrev as (t & Ht & Hfind).
    apply find_some in Hfind. destruct Hfind as [Hin Hname].
    apply filter_In in Hin. destruct Hin as [Hin Hown].
    destruct (getOwnedResources resource (configurations rs)) as [| conf confs];
      [discriminate |].
    exists conf, rev, t. repeat split; try assumption.
    + now apply parentUids_listed.
    + now apply String.eqb_eq.
Qed.

End NodeItems.

(** ** Edge factory *)

Lemma fold_left_extend {A B} (f : list B -> A -> list B) (g : A -> list B)
    (l : list A) (acc : list B) :
  (forall acc x, f acc x = acc ++ g x) ->
  fold_left f l acc = acc ++ flat_map g l.
Proof.
  intros Hf. revert acc. induction l as [| a l IH]; intros acc; simpl.
  - now rewrite app_nil_r.
  - now rewrite IH, Hf, <- app_assoc.
Qed.

(** X5. The edges of an event source to a collection of candidate sinks:
    none without [spec.sink]; otherwise one edge, in order, to every
    candidate whose name is the one the sink refers to, where the name of
    [sink.ref] is used whenever the sink has a [ref].  A sink with neither
    a [ref] nor a [name] (a sink given by URI) has no such edge.  Every edge
    starts at the event source and has the id [<source>_<target>]. *)
Theorem getEventTopologyEdgeItems_by_name :
  forall (res : Resource) (candidates : list Resource),
    (specSink res = None -> getEventTopologyEdgeItems res candidates = [])
    /\ (forall s,
           specSink res = Some s ->
           getEventTopologyEdgeItems res candidates
           = map (eventEdge res)
                 (filter (fun cand =>
                            Js.strict_eq (Some (name (metadata cand)))
                                         (wantedName s))
                         candidates))
    /\ (forall s,
           specSink res = Some s -> sink_ref s = None -> sink_name s = None ->
           getEventTopologyEdgeItems res candidates = [])
    /\ (forall e,
           In e (getEventTopologyEdgeItems res candidates) ->
           source e = uid (metadata res)
           /\ edge_id e = edgeId (source e) (target e)
           /\ exists cand, In cand candidates /\ target e = uid (metadata cand)).
Proof.
  intros res candidates. rewrite getEventTopologyEdgeItems_filter.
  unfold sinkTargetName, wantedName.
  assert (Hsome : forall s,
             specSink res = Some s ->
             match
               match specSink res with
               | Some s0 =>
                   match sink_ref s0 with
                   | Some rf => Some (ref_name rf)
                   | None => Some (sink_name s0)
                   end
               | None => None
               end
             with
             | Some targetName =>
                 map (fun r =>
                        {| edge_id := edgeId (uid (metadata res)) (metaUid r);
                           edge_type := EdgeType.EventSource;
                           source := uid (metadata res);
                           target := metaUid r;
                           data := NoData |})
                     (filter (fun r => Js.strict_eq (Some (name (metadata r)))
                                                    targetName) candidates)
             | None => []
             end
             = map (eventEdge res)
                   (filter (fun cand =>
                              Js.strict_eq (Some (name (metadata cand)))
                                           match sink_ref s with
                                           | Some rf => ref_name rf
                                           | None => sink_name s
                                           end)
                           candidates)).
  { intros s ->. now destruct (sink_ref s). }
  split; [| split; [| split]].
  - now intros ->.
  - exact Hsome.
  - intros s Hs Href Hname. rewrite (Hsome s Hs), Href, Hname.
    rewrite filter_none; reflexivity.
  - intros e He.
    destruct (specSink res) as [s |] eqn:Hs; [| destruct He].
    rewrite (Hsome s eq_refl) in He. apply in_map_iff in He.
    destruct He as (cand & <- & Hcand). apply filter_In in Hcand.
    repeat split. exists cand. split; [apply Hcand | reflexivity].
Qed.

Lemma getEventTopologyEdgeItems_by_name_witness :
  specSink Sample.src3 = Some (Sample.refSink "InMemoryChannel" "ch")
  /\ getEventTopologyEdgeItems Sample.src3 [Sample.svc; Sample.chan]
     = [eventEdge Sample.src3 Sample.chan].
Proof.
  split; [reflexivity |].
  exact (proj1 (proj2 (@getEventTopologyEdgeItems_by_name
                         Sample.src3 [Sample.svc; Sample.chan]))
           _ eq_refl).
Defined.

Lemma getTriggerTopologyEdgeItems_flat broker resources :
  getTriggerTopologyEdgeItems broker resources
  = flat_map
      (fun trigger =>
         if namesBroker broker trigger then
           match find (deliversTo trigger) (ksservices resources) with
           | Some svc => [pubSubEdge broker svc trigger]
           | None => []
           end
         else [])
      (categoryOrEmpty resources "triggers").
Proof.
  unfold getTriggerTopologyEdgeItems.
  rewrite (fold_left_extend _
             (fun trigger =>
                if namesBroker broker trigger then
                  match find (deliversTo trigger) (ksservices resources) with
                  | Some svc => [pubSubEdge broker svc trigger]
                  | None => []
                  end
                else [])); [reflexivity |].
  intros acc trigger. unfold namesBroker.
  destruct (Js.strict_eq _ (specBroker trigger)); [| now rewrite app_nil_r].
  unfold deliversTo.
  destruct (find _ (ksservices resources)); [reflexivity | now rewrite app_nil_r].
Qed.

(** X6. The edges of a broker: one edge per trigger that names the broker
    and whose subscriber name is that of a known service, to the first such
    service, carrying the trigger and the two ends; nothing is merged, so
    the number of edges is the number of such triggers, and two triggers
    binding the broker to one service give two edges of the same id.
    Without a triggers category there is no edge. *)
Theorem getTriggerTopologyEdgeItems_per_trigger :
  forall (broker : Resource) (resources : TopologyDataResources),
    (category resources "triggers" = None ->
     getTriggerTopologyEdgeItems broker resources = [])
    /\ (forall e,
           In e (getTriggerTopologyEdgeItems broker resources) <->
           exists trigger svc,
             In trigger (categoryOrEmpty resources "triggers")
             /\ namesBroker broker trigger = true
             /\ find (deliversTo trigger) (ksservices resources) = Some svc
             /\ e = pubSubEdge broker svc trigger)
    /\ length (getTriggerTopologyEdgeItems broker resources)
       = length (filter
                   (fun trigger =>
                      namesBroker broker trigger
                      && existsb (deliversTo trigger) (ksservices resources))
                   (categoryOrEmpty resources "triggers")).
Proof.
  intros broker resources. rewrite getTriggerTopologyEdgeItems_flat.
  split; [| split].
  - intros Hnone. unfold categoryOrEmpty. now rewrite Hnone.
  - intros e. rewrite in_flat_map. split.
    + intros (trigger & Htrigger & He).
      destruct (namesBroker broker trigger) eqn:Hnames; [| destruct He].
      destruct (find _ (ksservices resources)) as [svc |] eqn:Hfind;
        [| destruct He].
      destruct He as [<- | []]. now exists trigger, svc.
    + intros (trigger & svc & Htrigger & Hnames & Hfind & ->).
      exists trigger. split; [assumption |]. rewrite Hnames, Hfind. now left.
  - induction (categoryOrEmpty resources "triggers") as [| trigger l IH];
      simpl; [reflexivity |].
    rewrite length_app, IH, <- find_existsb.
    destruct (namesBroker broker trigger); simpl; [| reflexivity].
    now destruct (find _ (ksservices resources)).
Qed.

Lemma getSubscriptionTopologyEdgeItems_flat resource resources :
  getSubscriptionTopologyEdgeItems resource resources
  = flat_map
      (fun subRes =>
         if onChannel resource subRes then
           match subscriberRef subRes with
           | Some svcData =>
               map (fun svc => pubSubEdge resource svc subRes)
                   (filter (fun svc =>
                              Js.strict_eq (Some (name (metadata svc)))
                                           (ref_name svcData))
                           (ksservices resources))
           | None => []
           end
         else [])
      (categoryOrEmpty resources "eventingsubscription").
Proof.
  unfold getSubscriptionTopologyEdgeItems.
  rewrite (fold_left_extend _
             (fun subRes =>
                if onChannel resource subRes then
                  match subscriberRef subRes with
                  | Some svcData =>
                      map (fun svc => pubSubEdge resource svc subRes)
                          (filter (fun svc =>
                                     Js.strict_eq (Some (name (metadata svc)))
                                                  (ref_name svcData))
                                  (ksservices resources))
                  | None => []
                  end
                else [])); [reflexivity |].
  intros acc subRes. unfold onChannel.
  destruct (Js.strict_eq _ (refName _)); [| now rewrite app_nil_r].
  destruct (subscriberRef subRes) as [svcData |]; [| now rewrite app_nil_r].
  exact (fold_left_push_if
           (fun svc => Js.strict_eq (Some (name (metadata svc)))
                                    (ref_name svcData))
           (fun svc => pubSubEdge resource svc subRes)
           (ksservices resources) acc).
Qed.

(** X7. The edges of a channel: for every subscription on the channel that
    has a subscriber reference, one edge to every known service of the
    referenced name (not only the first), carrying the subscription and
    the two ends.  Without a subscriptions category there is no edge. *)
Theorem getSubscriptionTopologyEdgeItems_per_service :
  forall (resource : Resource) (resources : TopologyDataResources),
    (category resources "eventingsubscription" = None ->
     getSubscriptionTopologyEdgeItems resource resources = [])
    /\ (forall e,
           In e (getSubscriptionTopologyEdgeItems resource resources) <->
           exists subRes svcData svc,
             In subRes (categoryOrEmpty resources "eventingsubscription")
             /\ onChannel resource subRes = true
             /\ subscriberRef subRes = Some svcData
             /\ In svc (ksservices resources)
             /\ ref_name svcData = Some (name (metadata svc))
             /\ e = pubSubEdge resource svc subRes).
Proof.
  intros resource resources. rewrite getSubscriptionTopologyEdgeItems_flat.
  split.
  - intros Hnone. unfold categoryOrEmpty. now rewrite Hnone.
  - intros e. rewrite in_flat_map. split.
    + intros (subRes & Hsub & He).
      destruct (onChannel resource subRes) eqn:Hon; [| destruct He].
      destruct (subscriberRef subRes) as [svcData |] eqn:Href; [| destruct He].
      apply in_map_iff in He. destruct He as (svc & <- & Hsvc).
      apply filter_In in Hsvc. destruct Hsvc as [Hsvc Hname].
      exists subRes, svcData, svc. repeat split; try assumption.
      destruct (ref_name svcData) as [n |]; [| discriminate].
      simpl in Hname. apply String.eqb_eq in Hname. now subst.
    + intros (subRes & svcData & svc & Hsub & Hon & Href & Hsvc & Hname & ->).
      exists subRes. split; [assumption |]. rewrite Hon, Href.
      apply in_map_iff. exists svc. split; [reflexivity |].
      apply filter_In. split; [assumption |].
      rewrite Hname. simpl. apply String.eqb_refl.
Qed.

(** ** Graph assembler: edges *)

Lemma getEventTopologyEdgeItems_from res candidates e :
  In e (getEventTopologyEdgeItems res candidates) ->
  edgeFrom res EdgeType.EventSource e.
Proof.
  rewrite getEventTopologyEdgeItems_filter.
  destruct (sinkTargetName res); [| intros []].
  intros He. apply in_map_iff in He. destruct He as (cand & <- & _).
  repeat split.
Qed.

Lemma getSinkUriTopologyEdgeItems_from res targetUid e :
  In e (getSinkUriTopologyEdgeItems res targetUid) ->
  edgeFrom res EdgeType.EventSource e.
Proof.
  unfold getSinkUriTopologyEdgeItems.
  destruct (Js.truthy_opt (specSinkUri res) && Js.truthy (uid (metadata res)));
    [| intros []].
  intros [<- | []]. repeat split.
Qed.

Lemma getTrafficTopologyEdgeItems_from res revisions e :
  In e (getTrafficTopologyEdgeItems res revisions) ->
  edgeFrom res EdgeType.Traffic e.
Proof.
  intros He.
  destruct (trafficInv_result res revisions) as (_ & Hedges & _).
  destruct (Hedges e He) as [_ ->]. repeat split.
Qed.

Lemma getTriggerTopologyEdgeItems_from broker resources e :
  In e (getTriggerTopologyEdgeItems broker resources) ->
  edgeFrom broker EdgeType.EventPubSubLink e.
Proof.
  rewrite getTriggerTopologyEdgeItems_flat, in_flat_map.
  intros (trigger & _ & He).
  destruct (namesBroker broker trigger); [| destruct He].
  destruct (find _ (ksservices resources)); [| destruct He].
  destruct He as [<- | []]. repeat split.
Qed.

Lemma getSubscriptionTopologyEdgeItems_from resource resources e :
  In e (getSubscriptionTopologyEdgeItems resource resources) ->
  edgeFrom resource EdgeType.EventPubSubLink e.
Proof.
  rewrite getSubscriptionTopologyEdgeItems_flat, in_flat_map.
  intros (subRes & _ & He).
  destruct (onChannel resource subRes); [| destruct He].
  destruct (subscriberRef subRes); [| destruct He].
  apply in_map_iff in He. destruct He as (svc & <- & _). repeat split.
Qed.

Section AssemblerEdges.

Context `{Platform}.

Variable dyn : DynamicModels.
Variable resources : TopologyDataResources.
Variable utils : option (list KnativeUtil).

Lemma eventSourceStep_from type m res e :
  In e (edges (eventSourceStep dyn resources utils type m res)) ->
  In e (edges m) \/ edgeFrom res EdgeType.EventSource e.
Proof.
  unfold eventSourceStep. cbv zeta. cbn [edges].
  set (own := nodes m ++ _).
  set (sinkPart := match specSinkUri res with Some _ => _ | None => _ end).
  assert (Hsink : forall e, In e (snd sinkPart) ->
                            In e (edges m) \/ edgeFrom res EdgeType.EventSource e).
  { intros e' He'. unfold sinkPart in He'.
    assert (Hfirst : In e' (edges m
                            ++ getEventTopologyEdgeItems res (ksservices resources))
                     -> In e' (edges m)
                        \/ edgeFrom res EdgeType.EventSource e').
    { intros Hin. apply in_app_or in Hin. destruct Hin as [Hin | Hin];
        [now left | right; now apply getEventTopologyEdgeItems_from in Hin]. }
    destruct (specSinkUri res) as [u |]; [| now apply Hfirst].
    destruct (Js.truthy u); [| now apply Hfirst]. cbn [snd] in He'.
    apply in_app_or in He'. destruct He' as [Hin | Hin]; [now apply Hfirst |].
    right. now apply getSinkUriTopologyEdgeItems_from in Hin. }
  intros He. apply in_app_or in He. destruct He as [He | He];
    [| right; now apply getEventTopologyEdgeItems_from in He].
  destruct (negb (isInternalResource res)); [| now apply Hsink].
  rewrite fold_left_push_some in He. apply in_app_or in He.
  destruct He as [He | He]; [now apply Hsink |].
  apply in_flat_map in He. destruct He as (prop & _ & He).
  destruct (category resources prop); [| destruct He].
  right. now apply getEventTopologyEdgeItems_from in He.
Qed.

Lemma knServiceStep_edges type m res :
  edges (knServiceStep resources utils type m res)
  = edges m ++ getTrafficTopologyEdgeItems res (revisions resources).
Proof. reflexivity. Qed.

Lemma pubSubStep_edges type m res :
  edges (pubSubStep dyn resources utils type m res)
  = edges m ++ pubSubEdges resources res.
Proof.
  unfold pubSubStep, pubSubEdges.
  destruct (isInternalResource res); cbn [negb]; [now rewrite app_nil_r |].
  cbv zeta. cbn [edges].
  now destruct (kind res =? model_kind EventingBrokerModel).
Qed.

Lemma pubSubEdges_from res e :
  In e (pubSubEdges resources res) -> edgeFrom res EdgeType.EventPubSubLink e.
Proof.
  unfold pubSubEdges. destruct (isInternalResource res); [intros [] |].
  destruct (kind res =? model_kind EventingBrokerModel).
  - apply getTriggerTopologyEdgeItems_from.
  - apply getSubscriptionTopologyEdgeItems_from.
Qed.

Lemma transformKnNodeData_step_from type m res e :
  In e (edges
          (if type =? NodeType.EventSource then
             eventSourceStep dyn resources utils type m res
           else if type =? NodeType.KnService then
             knServiceStep resources utils type m res
           else if type =? NodeType.PubSub then
             pubSubStep dyn resources utils type m res
           else m)) ->
  In e (edges m) \/ edgeFrom res (edgeTypeFor type) e.
Proof.
  unfold edgeTypeFor.
  destruct (type =? NodeType.EventSource); [apply eventSourceStep_from |].
  destruct (type =? NodeType.KnService).
  - rewrite knServiceStep_edges. intros He. apply in_app_or in He.
    destruct He as [He | He]; [now left | right].
    now apply getTrafficTopologyEdgeItems_from in He.
  - destruct (type =? NodeType.PubSub); [| now left].
    rewrite pubSubStep_edges. intros He. apply in_app_or in He.
    destruct He as [He | He]; [now left | right].
    now apply pubSubEdges_from in He.
Qed.

(** X8. Whatever the node type, every edge of the assembled graph starts at
    one of the resources the graph was built from, has the id
    [<source>_<target>], and has the edge type of the node type:
    event-source links for event sources, traffic edges for Knative
    services, pub/sub links otherwise. *)
Theorem transformKnNodeData_edges_from_resources :
  forall (rs : list Resource) (type : string) (e : EdgeModel),
    In e (edges (transformKnNodeData dyn rs type resources utils)) ->
    (exists res, In res rs /\ source e = uid (metadata res))
    /\ edge_id e = edgeId (source e) (target e)
    /\ edge_type e = edgeTypeFor type.
Proof.
  intros rs type e. unfold transformKnNodeData.
  assert (Hgen : forall m,
             In e (edges
                     (fold_left
                        (fun knDataModel res =>
                           if type =? NodeType.EventSource then
                             eventSourceStep dyn resources utils type
                                             knDataModel res
                           else if type =? NodeType.KnService then
                             knServiceStep resources utils type knDataModel res
                           else if type =? NodeType.PubSub then
                             pubSubStep dyn resources utils type knDataModel res
                           else knDataModel) rs m)) ->
             In e (edges m)
             \/ exists res, In res rs /\ edgeFrom res (edgeTypeFor type) e).
  { induction rs as [| res rs IH]; intros m He; simpl in He; [now left |].
    apply IH in He. destruct He as [He | (res' & Hres' & Hfrom)].
    - apply transformKnNodeData_step_from in He.
      destruct He as [He | Hfrom]; [now left | right].
      exists res. split; [now left | assumption].
    - right. exists res'. split; [now right | assumption]. }
  intros He. apply Hgen in He. destruct He as [[] | (res & Hres & Hs & Hid & Hty)].
  split; [now exists res | now split].
Qed.



(** X11. For Knative services and for pub/sub resources the edges of the
    graph are computed resource by resource, in order: the traffic edges of
    each service; for each broker that is not internal its trigger edges,
    for each other pub/sub resource that is not internal its subscription
    edges.  So the edges of two lists of resources put end to end are the
    edges of the first followed by those of the second. *)
Theorem transformKnNodeData_edges_per_resource :
  forall rs more : list Resource,
    edges (transformKnNodeData dyn rs NodeType.KnService resources utils)
    = flat_map (fun res =>
                  getTrafficTopologyEdgeItems res (revisions resources)) rs
    /\ edges (transformKnNodeData dyn rs NodeType.PubSub resources utils)
       = flat_map (pubSubEdges resources) rs
    /\ edges (transformKnNodeData dyn (rs ++ more) NodeType.KnService
                                  resources utils)
       = edges (transformKnNodeData dyn rs NodeType.KnService resources utils)
         ++ edges (transformKnNodeData dyn more NodeType.KnService
                                       resources utils)
    /\ edges (transformKnNodeData dyn (rs ++ more) NodeType.PubSub
                                  resources utils)
       = edges (transformKnNodeData dyn rs NodeType.PubSub resources utils)
         ++ edges (transformKnNodeData dyn more NodeType.PubSub
                                       resources utils).
Proof.
  assert (Hkn : forall l m,
             edges (fold_left (knServiceStep resources utils NodeType.KnService)
                              l m)
             = edges m
               ++ flat_map (fun res =>
                              getTrafficTopologyEdgeItems
                                res (revisions resources)) l).
  { induction l as [| res l IH]; intros m; simpl; [now rewrite app_nil_r |].
    now rewrite IH, knServiceStep_edges, <- app_assoc. }
  assert (Hps : forall l m,
             edges (fold_left (pubSubStep dyn resources utils NodeType.PubSub) l m)
             = edges m ++ flat_map (pubSubEdges resources) l).
  { induction l as [| res l IH]; intros m; simpl; [now rewrite app_nil_r |].
    now rewrite IH, pubSubStep_edges, <- app_assoc. }
  assert (Hkn' : forall l,
             edges (transformKnNodeData dyn l NodeType.KnService resources utils)
             = flat_map (fun res =>
                           getTrafficTopologyEdgeItems
                             res (revisions resources)) l)
    by (intros l; exact (Hkn l {| nodes := []; edges := [] |})).
  assert (Hps' : forall l,
             edges (transformKnNodeData dyn l NodeType.PubSub resources utils)
             = flat_map (pubSubEdges resources) l)
    by (intros l; exact (Hps l {| nodes := []; edges := [] |})).
  intros rs more. rewrite !Hkn', !Hps', !flat_map_app. repeat split.
Qed.

End AssemblerEdges.


Lemma transformKnNodeData_edges_from_resources_witness :
  In (trafficEdge "svc-uid" "r1-uid" (Some 50%float))
     (edges (transformKnNodeData (H := Sample.platform) Sample.registryLoaded
               [Sample.svc] NodeType.KnService Sample.servingSnapshot None))
  /\ (exists res, In res [Sample.svc] /\ "svc-uid" = uid (metadata res))
  /\ "svc-uid_r1-uid" = edgeId "svc-uid" "r1-uid"
  /\ EdgeType.Traffic = edgeTypeFor NodeType.KnService.
Proof.
  assert (Hin : In (trafficEdge "svc-uid" "r1-uid" (Some 50%float))
                   (edges (transformKnNodeData (H := Sample.platform)
                             Sample.registryLoaded [Sample.svc]
                             NodeType.KnService Sample.servingSnapshot None)))
    by (left; reflexivity).
  split; [exact Hin |].
  exact (@transformKnNodeData_edges_from_resources Sample.platform
           Sample.registryLoaded Sample.servingSnapshot None
           [Sample.svc] NodeType.KnService _ Hin).
Defined.

(** ** Rollup builder: enrichment and the two branches *)

Section RollupBranches.

Context `{Platform}.

(** X12. Enrichment functions are applied in order and the later one wins:
    the result for a list followed by one more function is the result for
    the list with the facets of that function spread on top; a function
    that returns [undefined] changes nothing; the [revisions] the last
    function supplies are the ones kept, and when it supplies none those
    of the functions before it stay. *)
Theorem applyUtils_later_wins :
  forall (us : list KnativeUtil) (util : KnativeUtil) (resource : Resource)
         (resources : TopologyDataResources) (item : KnativeItem),
    applyUtils (Some (us ++ [util])) resource resources item
    = match util resource resources with
      | Some extra =>
          spread (applyUtils (Some us) resource resources item) extra
      | None => applyUtils (Some us) resource resources item
      end
    /\ ((forall u, In u us -> u resource resources = None) ->
        applyUtils (Some us) resource resources item = item)
    /\ (forall extra revs,
           util resource resources = Some extra ->
           kn_revisions extra = Some revs ->
           kn_revisions (applyUtils (Some (us ++ [util])) resource resources
                                    item) = Some revs)
    /\ (forall extra,
           util resource resources = Some extra ->
           kn_revisions extra = None ->
           kn_revisions (applyUtils (Some (us ++ [util])) resource resources
                                    item)
           = kn_revisions (applyUtils (Some us) resource resources item)).
Proof.
  intros us util resource resources item.
  assert (Hlast :
            applyUtils (Some (us ++ [util])) resource resources item
            = match util resource resources with
              | Some extra =>
                  spread (applyUtils (Some us) resource resources item) extra
              | None => applyUtils (Some us) resource resources item
              end).
  { unfold applyUtils. now rewrite fold_left_app. }
  split; [exact Hlast | split; [| split]].
  - clear Hlast. unfold applyUtils. revert item.
    induction us as [| u us IH]; intros item Hnone; simpl; [reflexivity |].
    rewrite (Hnone u) by (now left). apply IH. intros u' Hu'. apply Hnone.
    now right.
  - intros extra revs Hextra Hrevs. rewrite Hlast, Hextra. simpl.
    now rewrite Hrevs.
  - intros extra Hextra Hrevs. rewrite Hlast, Hextra. simpl.
    now rewrite Hrevs.
Qed.

Lemma asModel_typedAs (model : K8sKind) (o : Resource) :
  typedAs model (asModel model o) o.
Proof. repeat split. Qed.

Lemma podsOf_rolledUp (rs : option ReplicaSetItem) :
  rolledUpPods rs (podsOf rs).
Proof.
  unfold rolledUpPods, podsOf. destruct rs as [r |]; [| reflexivity].
  now destruct (rs_pods r).
Qed.

(** X13. When the resource owns a deployment, the overview item is built
    from the first owned deployment given the api version and the kind of
    the deployment model: that object is the associated deployment;
    [current] and [previous] are the first two replica sets the helper
    returns for it; the item is rolling out exactly when there are at
    least two; services and routes come from the helpers on it; and
    without enrichment the pods are the pods of [current] followed by those
    of [previous], the build configs are those of the helper, and there are
    no configurations or revisions. *)
Theorem createKnativeDeploymentItems_deployment :
  forall (resource : Resource) (resources : TopologyDataResources)
         (utils : option (list KnativeUtil)) (d : Resource)
         (rest : list Resource),
    getOwnedResources resource (deployments resources) = d :: rest ->
    exists depObj,
      typedAs DeploymentModel depObj d
      /\ obj (createKnativeDeploymentItems resource resources utils)
         = K8sObject resource
      /\ associatedDeployment (createKnativeDeploymentItems resource resources
                                                            utils)
         = Some depObj
      /\ current (createKnativeDeploymentItems resource resources utils)
         = nth_error (getReplicaSetsForResource depObj resources) 0
      /\ previous (createKnativeDeploymentItems resource resources utils)
         = nth_error (getReplicaSetsForResource depObj resources) 1
      /\ (isRollingOut (createKnativeDeploymentItems resource resources utils)
          = Some true
          <-> 2 <= length (getReplicaSetsForResource depObj resources))
      /\ (isRollingOut (createKnativeDeploymentItems resource resources utils)
          = Some false
          <-> length (getReplicaSetsForResource depObj resources) < 2)
      /\ services (createKnativeDeploymentItems resource resources utils)
         = getServicesForResource depObj resources
      /\ routes (createKnativeDeploymentItems resource resources utils)
         = getRoutesForServices (getServicesForResource depObj resources)
                                resources
      /\ (utils = None ->
          (exists fromCurrent fromPrevious,
              rolledUpPods
                (current (createKnativeDeploymentItems resource resources
                                                       utils))
                fromCurrent
              /\ rolledUpPods
                   (previous (createKnativeDeploymentItems resource resources
                                                           utils))
                   fromPrevious
              /\ kn_pods (facets (createKnativeDeploymentItems
                                    resource resources utils))
                 = Some (fromCurrent ++ fromPrevious))
          /\ kn_buildConfigs (facets (createKnativeDeploymentItems
                                        resource resources utils))
             = Some (getBuildConfigsForResource depObj resources)
          /\ kn_revisions (facets (createKnativeDeploymentItems
                                     resource resources utils)) = None
          /\ kn_configurations (facets (createKnativeDeploymentItems
                                          resource resources utils)) = None).
Proof.
  intros resource resources utils d rest Howned.
  exists (asModel DeploymentModel d).
  split; [apply asModel_typedAs |].
  unfold createKnativeDeploymentItems. rewrite Howned. cbv zeta.
  cbn [obj associatedDeployment current previous isRollingOut facets
       services routes].
  split; [reflexivity |]. split; [reflexivity |]. split; [reflexivity |].
  split; [reflexivity |]. split; [| split].
  - destruct (getReplicaSetsForResource (asModel DeploymentModel d) resources)
      as [| r1 [| r2 l]]; simpl; split; intros Hx;
      try discriminate; try reflexivity; lia.
  - destruct (getReplicaSetsForResource (asModel DeploymentModel d) resources)
      as [| r1 [| r2 l]]; simpl; split; intros Hx;
      try discriminate; try reflexivity; lia.
  - split; [reflexivity |]. split; [reflexivity |].
    intros ->. split; [| repeat split].
    eexists _, _.
    split; [apply podsOf_rolledUp |]. split; [apply podsOf_rolledUp |].
    reflexivity.
Qed.

Lemma revisionDeployment_rollup resources (revision : Resource) :
  revisionRollup resources revision
                 (fst (revisionDeployment resources revision))
  /\ revisionPods resources revision
                  match snd (revisionDeployment resources revision) with
                  | Some ps => ps
                  | None => []
                  end.
Proof.
  unfold revisionRollup, revisionPods, revisionDeployment.
  destruct (getOwnedResources revision (deployments resources)) as [| d l];
    cbv zeta; cbn [fst snd rev_obj rev_resources].
  - repeat split.
  - assert (Hpods :
              exists depObj current previous,
                typedAs DeploymentModel depObj d
                /\ rolledUpPods
                     (nth_error (getReplicaSetsForResource depObj resources) 0)
                     current
                /\ rolledUpPods
                     (nth_error (getReplicaSetsForResource depObj resources) 1)
                     previous
                /\ podsOf (nth_error
                             (getReplicaSetsForResource
                                (asModel DeploymentModel d) resources) 0)
                   ++ podsOf (nth_error
                                (getReplicaSetsForResource
                                   (asModel DeploymentModel d) resources) 1)
                   = current ++ previous).
    { exists (asModel DeploymentModel d). eexists _, _.
      split; [apply asModel_typedAs |].
      split; [apply podsOf_rolledUp |]. split; [apply podsOf_rolledUp |].
      reflexivity. }
    split; [| exact Hpods]. split; [reflexivity |].
    exists (asModel DeploymentModel d). eexists.
    split; [apply asModel_typedAs |]. split; [reflexivity |].
    split; [exact Hpods | reflexivity].
Qed.

Lemma rollup_reducer resources (l : list Resource) acc :
  exists listed podLists,
    fold_left
      (fun acc revision =>
         let '(revisionDep, pods) := revisionDeployment resources revision in
         (fst acc ++ [revisionDep],
          match pods with
          | Some ps => snd acc ++ ps
          | None => snd acc
          end))
      l acc
    = (fst acc ++ listed, snd acc ++ concat podLists)
    /\ Forall2 (revisionRollup resources) l listed
    /\ Forall2 (revisionPods resources) l podLists.
Proof.
  revert acc. induction l as [| r l IH]; intros acc; simpl.
  - exists [], []. simpl. rewrite !app_nil_r.
    split; [now destruct acc |]. split; constructor.
  - destruct (revisionDeployment_rollup resources r) as [Hlisted Hpods].
    destruct (revisionDeployment resources r) as [dep pods] eqn:Hdep.
    cbn [fst snd] in Hlisted, Hpods.
    destruct (IH (fst acc ++ [dep],
                  match pods with
                  | Some ps => snd acc ++ ps
                  | None => snd acc
                  end))
      as (listed & podLists & Heq & Hl & Hp).
    exists (dep :: listed),
      (match pods with Some ps => ps | None => [] end :: podLists).
    rewrite Heq. cbn [fst snd concat]. split.
    + f_equal; [now rewrite <- app_assoc |].
      destruct pods; [now rewrite <- app_assoc | reflexivity].
    + split; constructor; assumption.
Qed.

(** X14. When the resource owns no deployment and no enrichment function is
    given, the overview item has no routes, services or deployment; its
    configurations are the owned ones; its build configs are those of the
    build-config helper (the empty default never shows); it has no Knative
    routes exactly when the snapshot has no routes category, and otherwise
    those the resource owns.  Its revisions are, in order, those owned by
    the first owned configuration, each with the pods and the first
    replica set of the first deployment it owns, typed as a deployment,
    when it owns one; and its pods are the pods of those revisions, put
    end to end in the order of the revisions: for each, the pods of the
    first and then of the second replica set of that deployment. *)
Theorem createKnativeDeploymentItems_knative_facets :
  forall (resource : Resource) (resources : TopologyDataResources),
    getOwnedResources resource (deployments resources) = [] ->
    routes (createKnativeDeploymentItems resource resources None) = []
    /\ services (createKnativeDeploymentItems resource resources None) = []
    /\ associatedDeployment (createKnativeDeploymentItems resource resources
                                                          None) = None
    /\ kn_configurations (facets (createKnativeDeploymentItems
                                    resource resources None))
       = Some (getOwnedResources resource (configurations resources))
    /\ kn_buildConfigs (facets (createKnativeDeploymentItems
                                  resource resources None))
       = Some (getBuildConfigsForResource resource resources)
    /\ (kn_ksroutes (facets (createKnativeDeploymentItems resource resources
                                                          None)) = None
        <-> category resources "ksroutes" = None)
    /\ (forall l,
           category resources "ksroutes" = Some l ->
           kn_ksroutes (facets (createKnativeDeploymentItems resource resources
                                                             None))
           = Some (getOwnedResources resource l))
    /\ exists listed podLists,
        kn_revisions (facets (createKnativeDeploymentItems resource resources
                                                           None))
        = Some listed
        /\ kn_pods (facets (createKnativeDeploymentItems resource resources
                                                         None))
           = Some (concat podLists)
        /\ Forall2 (revisionRollup resources)
                   match getOwnedResources resource (configurations resources)
                   with
                   | c0 :: _ => getOwnedResources c0 (revisions resources)
                   | [] => []
                   end
                   listed
        /\ Forall2 (revisionPods resources)
                   match getOwnedResources resource (configurations resources)
                   with
                   | c0 :: _ => getOwnedResources c0 (revisions resources)
                   | [] => []
                   end
                   podLists.
Proof.
  intros resource resources Howned.
  unfold createKnativeDeploymentItems. rewrite Howned.
  cbn [routes services associatedDeployment facets].
  unfold getKnativeServiceData, applyUtils.
  cbn [spread kn_configurations kn_buildConfigs kn_pods kn_ksroutes
       kn_revisions override].
  split; [reflexivity |]. split; [reflexivity |]. split; [reflexivity |].
  split; [reflexivity |]. split; [reflexivity |]. split; [| split].
  - destruct (category resources "ksroutes"); split; intros Hx;
      try discriminate Hx; reflexivity.
  - intros l ->. reflexivity.
  - match goal with
    | |- context [fold_left ?f ?l ?a] =>
        destruct (rollup_reducer resources l a)
          as (listed & podLists & Heq & Hl & Hp);
        change (fold_left f l a)
          with (fold_left
                  (fun acc revision =>
                     let '(revisionDep, pods) :=
                       revisionDeployment resources revision in
                     (fst acc ++ [revisionDep],
                      match pods with
                      | Some ps => snd acc ++ ps
                      | None => snd acc
                      end))
                  l a)
    end.
    rewrite Heq. cbn [fst snd app].
    exists listed, podLists. split; [reflexivity |]. split; [reflexivity |].
    destruct (getOwnedResources resource (configurations resources));
      split; assumption.
Qed.

Variable dyn : DynamicModels.

Lemma createPubSubDataItems_eventSources resource resources :
  kn_eventSources (facets (createPubSubDataItems dyn resource resources))
  = Some (filter (sinksTo resource)
                 (getKnativeDynamicResources resources
                                             (eventSourceModelRefs dyn))).
Proof.
  unfold createPubSubDataItems. cbv zeta. cbn [facets].
  assert (Hover : forall base extra,
             kn_eventSources extra = None ->
             kn_eventSources (spread base extra) = kn_eventSources base).
  { intros base extra Hnone. simpl. now rewrite Hnone. }
  rewrite Hover.
  - cbn [kn_eventSources]. f_equal.
    rewrite (fold_left_push_if (sinksTo resource) (fun r => r)).
    simpl. apply map_id.
  - now destruct (kind resource =? model_kind EventingBrokerModel).
Qed.

(** X15. The event sources rolled up under a pub/sub resource are the
    resources of the dynamically discovered event-source categories whose
    [spec.sink.ref] has the kind and the name of the resource, in order; a
    sink given by URI or by a bare name is not counted.  A resource that is
    not a broker has no triggers, pods or deployments in its item. *)
Theorem createPubSubDataItems_facets :
  forall (resource : Resource) (resources : TopologyDataResources),
    (exists evs,
        kn_eventSources (facets (createPubSubDataItems dyn resource resources))
        = Some evs
        /\ forall ev,
            In ev evs <->
            In ev (getKnativeDynamicResources resources
                                              (eventSourceModelRefs dyn))
            /\ exists s rf,
                specSink ev = Some s /\ sink_ref s = Some rf
                /\ ref_kind rf = Some (kind resource)
                /\ ref_name rf = Some (name (metadata resource)))
    /\ (kind resource <> model_kind EventingBrokerModel ->
        kn_triggers (facets (createPubSubDataItems dyn resource resources))
        = None
        /\ kn_pods (facets (createPubSubDataItems dyn resource resources))
           = None
        /\ kn_deployments (facets (createPubSubDataItems dyn resource
                                                         resources)) = None).
Proof.
  intros resource resources. split.
  - eexists. split; [apply createPubSubDataItems_eventSources |].
    intros ev. rewrite filter_In. unfold sinksTo.
    split; intros [Hin Hsink]; (split; [exact Hin |]).
    + destruct (specSink ev) as [s |]; [| discriminate].
      destruct (sink_ref s) as [rf |] eqn:Hrf; [| discriminate].
      simpl in Hsink. apply andb_true_iff in Hsink. destruct Hsink as [Hk Hn].
      exists s, rf. split; [reflexivity |]. split; [exact Hrf |]. split.
      * destruct (ref_kind rf) as [k |]; [| discriminate].
        apply String.eqb_eq in Hk. now subst.
      * destruct (ref_name rf) as [n |]; [| discriminate].
        apply String.eqb_eq in Hn. now subst.
    + destruct Hsink as (s & rf & -> & -> & Hk & Hn). simpl.
      rewrite Hk, Hn. simpl. now rewrite !String.eqb_refl.
  - intros Hkind. apply String.eqb_neq in Hkind.
    unfold createPubSubDataItems. cbv zeta. cbn [facets]. rewrite Hkind.
    repeat split.
Qed.

End RollupBranches.

Lemma createKnativeDeploymentItems_knative_facets_witness :
  getOwnedResources Sample.svc (deployments PubSubSample.rolloutSnapshot) = []
  /\ kn_configurations (facets (createKnativeDeploymentItems
                                  (H := PubSubSample.rollingPlatform)
                                  Sample.svc PubSubSample.rolloutSnapshot
                                  None))
     = Some [Sample.conf1]
  /\ kn_pods (facets (createKnativeDeploymentItems
                        (H := PubSubSample.rollingPlatform)
                        Sample.svc PubSubSample.rolloutSnapshot None))
     = Some [PubSubSample.podNew; PubSubSample.podOld].
Proof.
  split; [reflexivity |].
  split; [| reflexivity].
  exact (proj1 (proj2 (proj2 (proj2
           (@createKnativeDeploymentItems_knative_facets
              PubSubSample.rollingPlatform
              Sample.svc PubSubSample.rolloutSnapshot eq_refl))))).
Defined.

(** ** Subscriber of a subscription *)

Section PubSubSink.

Context `{Platform}.

Variable cluster : ApiClient.

(** X16. [createEventingPubSubSink] rejects, having issued nothing, exactly
    when the subscription or the target is missing; it does not compare
    the two.  Otherwise it issues one update and returns its promise, so a
    failed update rejects with the error of the API client and opens no
    modal.  The payload is the subscription without [status], whose [spec]
    differs from the subscription's only in [subscriber], which becomes
    [{ref: {apiVersion, kind, name}}] of the target. *)
Theorem createEventingPubSubSink_rejects_or_updates :
  forall (subObj target : option Resource),
    (createEventingPubSubSink cluster subObj target = ([], Rejected None)
     <-> subObj = None \/ target = None)
    /\ (forall s t,
           subObj = Some s -> target = Some t ->
           exists call payload sp,
             createEventingPubSubSink cluster subObj target
             = ([Issued call], passOn (cluster call))
             /\ call
                = Update (modelFor
                            (referenceFor
                               (K8sObject
                                  {| apiVersion := apiVersion s;
                                     kind := kind s;
                                     metadata := metadata s;
                                     spec := spec s;
                                     status := None |})))
                         payload
             /\ status payload = None
             /\ apiVersion payload = apiVersion s
             /\ kind payload = kind s
             /\ metadata payload = metadata s
             /\ spec payload = Some sp
             /\ subscriber sp
                = Some {| subscriber_ref :=
                            Some {| ref_apiVersion := apiVersion t;
                                    ref_kind := Some (kind t);
                                    ref_name := Some (name (metadata t)) |} |}
             /\ (forall sp0,
                    spec s = Some sp0 ->
                    sink sp = sink sp0 /\ broker sp = broker sp0
                    /\ channel sp = channel sp0
                    /\ subscribable_subscribers sp
                       = subscribable_subscribers sp0
                    /\ subscribers sp = subscribers sp0
                    /\ spec_rest sp = spec_rest sp0)
             /\ (forall failure,
                    cluster call = Rejected failure ->
                    createEventingPubSubSink cluster subObj target
                    = ([Issued call], Rejected (Some failure)))).
Proof.
  intros subObj target. split.
  - unfold createEventingPubSubSink. split.
    + destruct subObj as [s |]; [| now left].
      destruct target as [t |]; [| now right].
      unfold bind, k8sUpdate. simpl. discriminate.
    + intros [-> | ->]; [reflexivity | now destruct subObj].
  - intros s t -> ->. unfold createEventingPubSubSink.
    eexists. eexists. eexists.
    split; [reflexivity |]. split; [reflexivity |].
    cbn [status apiVersion kind metadata spec].
    do 5 (split; [reflexivity |]).
    split; [now destruct (spec s) |]. split.
    + intros sp0 ->. simpl. repeat split.
    + intros failure Hfail. unfold bind, k8sUpdate, ret. cbv zeta.
      cbn [apiVersion kind metadata spec status]. cbn [apiVersion kind metadata spec status] in Hfail.
      rewrite Hfail. reflexivity.
Qed.

End PubSubSink.

Lemma createEventingPubSubSink_rejects_or_updates_witness :
  exists call,
    Sample.failing call
    = Rejected {| message := "admission webhook denied the request" |}
    /\ createEventingPubSubSink (H := Sample.platform) Sample.failing
         (Some Sample.chan) (Some Sample.chan)
       = ([Issued call],
          Rejected (Some {| message := "admission webhook denied the request" |})).
Proof.
  destruct (proj2 (@createEventingPubSubSink_rejects_or_updates
                     Sample.platform Sample.failing
                     (Some Sample.chan) (Some Sample.chan))
              Sample.chan Sample.chan eq_refl eq_refl)
    as (call & payload & sp & _ & _ & _ & _ & _ & _ & _ & _ & _ & Hfail).
  exists call. split; [reflexivity |].
  exact (Hfail _ eq_refl).
Defined.

(** ** Data of revisions *)

Lemma getProperty_setProperty {V} (k k' : string) (v : V)
    (o : list (string * V)) :
  getProperty k' (setProperty k v o)
  = if k =? k' then Some v else getProperty k' o.
Proof.
  unfold getProperty. induction o as [| [k0 v0] o IH]; simpl.
  - now destruct (k =? k').
  - destruct (String.eqb_spec k0 k) as [-> | Hne]; simpl.
    + now destruct (k =? k').
    + destruct (String.eqb_spec k0 k') as [-> | Hne'].
      * apply String.eqb_neq in Hne. rewrite String.eqb_sym in Hne.
        now rewrite Hne.
      * exact IH.
Qed.

Lemma setProperty_keys {V} (k : string) (v : V) (o : list (string * V)) :
  map fst (setProperty k v o)
  = if existsb (fun k0 => k0 =? k) (map fst o) then map fst o
    else map fst o ++ [k].
Proof.
  induction o as [| [k0 v0] o IH]; simpl; [reflexivity |].
  destruct (String.eqb_spec k0 k) as [-> | Hne]; simpl; [reflexivity |].
  rewrite IH. now destruct (existsb _ (map fst o)).
Qed.

Section RevisionsData.

Context `{Platform}.

Variable resources : TopologyDataResources.
Variable utils : option (list KnativeUtil).

Lemma getRevisionsData_snoc rs r :
  getRevisionsData (rs ++ [r]) resources utils
  = setProperty (uid (metadata r)) (revisionNodeData resources utils r)
                (getRevisionsData rs resources utils).
Proof. unfold getRevisionsData. now rewrite fold_left_app. Qed.

(** X17. [getRevisionsData] maps each uid of the resources to a data object
    and nothing else: a uid is a key exactly when some resource has it, no
    key is repeated, and when several resources share a uid the data of the
    last one is the one stored.  The data object is built by the node-data
    helper, for the revision type and the icon-openshift image, from an
    item that is the overview item of the resource in every field and
    facet, but has no build configs, pipelines or pipeline runs. *)
Theorem getRevisionsData_last_wins :
  forall rs : list Resource,
    NoDup (map fst (getRevisionsData rs resources utils))
    /\ (forall k,
           In k (map fst (getRevisionsData rs resources utils)) <->
           exists res, In res rs /\ uid (metadata res) = k)
    /\ (forall k,
           getProperty k (getRevisionsData rs resources utils)
           = match find (fun res => uid (metadata res) =? k) (rev rs) with
             | Some res => Some (revisionNodeData resources utils res)
             | None => None
             end)
    /\ (forall res,
           exists item,
             revisionNodeData resources utils res
             = createTopologyNodeData res item NodeType.Revision
                 (getImageForIconClass "icon-openshift")
             /\ kn_buildConfigs (facets item) = None
             /\ kn_pipelines (facets item) = None
             /\ kn_pipelineRuns (facets item) = None
             /\ obj item = K8sObject res
             /\ (let full :=
                   createKnativeDeploymentItems res resources utils in
                 obj item = obj full
                 /\ alerts item = alerts full
                 /\ current item = current full
                 /\ isRollingOut item = isRollingOut full
                 /\ previous item = previous full
                 /\ routes item = routes full
                 /\ services item = services full
                 /\ associatedDeployment item = associatedDeployment full
                 /\ kn_configurations (facets item)
                    = kn_configurations (facets full)
                 /\ kn_revisions (facets item) = kn_revisions (facets full)
                 /\ kn_ksroutes (facets item) = kn_ksroutes (facets full)
                 /\ kn_pods (facets item) = kn_pods (facets full)
                 /\ kn_eventSources (facets item)
                    = kn_eventSources (facets full)
                 /\ kn_eventingsubscription (facets item)
                    = kn_eventingsubscription (facets full)
                 /\ kn_ksservices (facets item) = kn_ksservices (facets full)
                 /\ kn_triggers (facets item) = kn_triggers (facets full)
                 /\ kn_deployments (facets item)
                    = kn_deployments (facets full))).
Proof.
  intros rs. split; [| split; [| split]].
  - induction rs as [| r rs IH] using rev_ind; [constructor |].
    rewrite getRevisionsData_snoc, setProperty_keys.
    destruct (existsb _ _) eqn:Hex; [exact IH |].
    apply NoDup_rev_snoc; [exact IH |]. intros Hin.
    assert (Htrue : existsb (fun k0 => k0 =? uid (metadata r))
                            (map fst (getRevisionsData rs resources utils))
                    = true).
    { apply existsb_exists. exists (uid (metadata r)).
      split; [exact Hin | apply String.eqb_refl]. }
    congruence.
  - induction rs as [| r rs IH] using rev_ind; intros k.
    + simpl. split; [intros [] | intros (res & [] & _)].
    + rewrite getRevisionsData_snoc, setProperty_keys.
      assert (Hgoal :
                In k (map fst (getRevisionsData rs resources utils)
                      ++ [uid (metadata r)]) <->
                exists res, In res (rs ++ [r]) /\ uid (metadata res) = k).
      { rewrite in_app_iff, IH. split.
        - intros [(res & Hres & Hk) | [Hk | []]].
          + exists res. split; [apply in_or_app; now left | exact Hk].
          + exists r. split; [apply in_or_app; right; now left | exact Hk].
        - intros (res & Hres & Hk). apply in_app_or in Hres.
          destruct Hres as [Hres | [<- | []]].
          + left. now exists res.
          + right. now left. }
      destruct (existsb _ _) eqn:Hex; [| exact Hgoal].
      rewrite <- Hgoal, in_app_iff. split; [now left |].
      intros [Hin | [<- | []]]; [exact Hin |].
      apply existsb_exists in Hex. destruct Hex as (k0 & Hk0 & Heq).
      apply String.eqb_eq in Heq. now subst.
  - induction rs as [| r rs IH] using rev_ind; intros k; [reflexivity |].
    rewrite getRevisionsData_snoc, getProperty_setProperty, rev_app_distr.
    simpl. destruct (uid (metadata r) =? k); [reflexivity | apply IH].
  - intros res. eexists. split; [reflexivity |].
    split; [reflexivity |]. split; [reflexivity |]. split; [reflexivity |].
    split; [| cbv zeta; repeat split].
    unfold omitBuildFacets, createKnativeDeploymentItems. cbn [obj].
    now destruct (getOwnedResources res (deployments resources)).
Qed.

End RevisionsData.

(** ** Graph assembler: ids of sink nodes and order of event sources *)

Lemma hexDigit_inj (n m : nat) :
  n < 16 -> m < 16 -> Uri.hexDigit n = Uri.hexDigit m -> n = m.
Proof.
  intros Hn Hm Heq. unfold Uri.hexDigit in Heq.
  apply (f_equal nat_of_ascii) in Heq.
  destruct (Nat.ltb_spec n 10), (Nat.ltb_spec m 10);
    rewrite !nat_ascii_embedding in Heq by lia; lia.
Qed.

Lemma unreserved_percent : Uri.unreserved "%" = false.
Proof. reflexivity. Qed.

Lemma encodeURIComponent_inj (s1 s2 : string) :
  Uri.encodeURIComponent s1 = Uri.encodeURIComponent s2 -> s1 = s2.
Proof.
  revert s2. induction s1 as [| c1 s1 IH]; intros s2 Heq.
  - symmetry. apply encodeURIComponent_empty. now rewrite <- Heq.
  - destruct s2 as [| c2 s2];
      [now apply encodeURIComponent_empty in Heq |].
    cbn [Uri.encodeURIComponent] in Heq.
    destruct (Uri.unreserved c1) eqn:Hc1, (Uri.unreserved c2) eqn:Hc2.
    + injection Heq as -> Heq. f_equal. now apply IH.
    + injection Heq as -> _. rewrite unreserved_percent in Hc1. discriminate.
    + injection Heq as <- _. rewrite unreserved_percent in Hc2. discriminate.
    + assert (Hhi : Uri.hexDigit (nat_of_ascii c1 / 16)
                    = Uri.hexDigit (nat_of_ascii c2 / 16)) by congruence.
      assert (Hlo : Uri.hexDigit (nat_of_ascii c1 mod 16)
                    = Uri.hexDigit (nat_of_ascii c2 mod 16)) by congruence.
      assert (Htl : Uri.encodeURIComponent s1 = Uri.encodeURIComponent s2)
        by congruence.
      clear Heq.
      pose proof (nat_ascii_bounded c1) as Hb1.
      pose proof (nat_ascii_bounded c2) as Hb2.
      apply hexDigit_inj in Hhi;
        [| apply Nat.Div0.div_lt_upper_bound; lia
         | apply Nat.Div0.div_lt_upper_bound; lia].
      apply hexDigit_inj in Hlo;
        [| apply Nat.mod_upper_bound; lia | apply Nat.mod_upper_bound; lia].
      assert (Hn : nat_of_ascii c1 = nat_of_ascii c2).
      { rewrite (Nat.div_mod_eq (nat_of_ascii c1) 16),
          (Nat.div_mod_eq (nat_of_ascii c2) 16). now rewrite Hhi, Hlo. }
      apply (f_equal ascii_of_nat) in Hn. rewrite !ascii_nat_embedding in Hn.
      subst c2. f_equal. now apply IH.
Qed.

Section SinkNodeIds.

Context `{Platform}.

Hypothesis helpers : HelpersKeepSinkUri.

Variable dyn : DynamicModels.
Variable resources : TopologyDataResources.
Variable utils : option (list KnativeUtil).

(** X18. In the graph built from event sources, two nodes that carry
    different sink URIs never have the same id: the id of such a node is
    the escaped URI, and escaping maps different URIs to different
    strings. *)
Theorem transformKnNodeData_sink_ids_differ :
  forall (rs : list Resource) (u1 u2 : string) (n1 n2 : NodeModel),
    In n1 (sinkNodesFor u1 (nodes (transformKnNodeData
                                     dyn rs NodeType.EventSource resources
                                     utils))) ->
    In n2 (sinkNodesFor u2 (nodes (transformKnNodeData
                                     dyn rs NodeType.EventSource resources
                                     utils))) ->
    node_id n1 = node_id n2 -> u1 = u2.
Proof.
  intros rs u1 u2 n1 n2 Hn1 Hn2 Hid.
  destruct (@eventSource_result _ helpers dyn resources utils rs) as [Hinv _].
  assert (Henc : forall u n,
             In n (sinkNodesFor u (nodes (transformKnNodeData
                                            dyn rs NodeType.EventSource
                                            resources utils))) ->
             node_id n = Uri.encodeURIComponent u).
  { intros u n Hn.
    apply (in_map (fun n => (u, (node_id n, node_type n)))) in Hn.
    rewrite sinkNodesFor_entries, (Hinv u) in Hn.
    destruct (Js.truthy u && existsb (usesUri u) rs); [| destruct Hn].
    destruct Hn as [Heq | []]. now injection Heq as <- _. }
  apply encodeURIComponent_inj.
  now rewrite <- (Henc u1 n1 Hn1), <- (Henc u2 n2 Hn2).
Qed.

(** X19. The edges of the graph built from event sources are computed
    event source by event source, in order, and do not depend on the
    event sources read before: the edge to a sink URI always goes to the
    escaped URI.  So the edges of two lists of event sources put end to end
    are the edges of the first followed by those of the second. *)
Theorem transformKnNodeData_event_edges_per_resource :
  forall rs more : list Resource,
    edges (transformKnNodeData dyn rs NodeType.EventSource resources utils)
    = flat_map (eventSourceEdges dyn resources) rs
    /\ edges (transformKnNodeData dyn (rs ++ more) NodeType.EventSource
                                  resources utils)
       = edges (transformKnNodeData dyn rs NodeType.EventSource resources
                                    utils)
         ++ edges (transformKnNodeData dyn more NodeType.EventSource
                                       resources utils).
Proof.
  intros rs more.
  assert (Hflat : forall l,
             edges (transformKnNodeData dyn l NodeType.EventSource resources
                                        utils)
             = flat_map (eventSourceEdges dyn resources) l)
    by (intros l;
        exact (proj2 (@eventSource_result _ helpers dyn resources utils l))).
  split; [apply Hflat |]. now rewrite !Hflat, flat_map_app.
Qed.

End SinkNodeIds.

Lemma transformKnNodeData_sink_ids_differ_witness :
  HelpersKeepSinkUri (H := Sample.platform)
  /\ forall n1 n2 u2,
      In n1 (sinkNodesFor
               "http://x"
               (nodes (transformKnNodeData (H := Sample.platform)
                         Sample.registryLoaded [Sample.src1; Sample.src2]
                         NodeType.EventSource Sample.eventingSnapshot None))) ->
      In n2 (sinkNodesFor
               u2
               (nodes (transformKnNodeData (H := Sample.platform)
                         Sample.registryLoaded [Sample.src1; Sample.src2]
                         NodeType.EventSource Sample.eventingSnapshot None))) ->
      node_id n1 = node_id n2 -> "http://x" = u2.
Proof.
  split; [exact sample_keeps_sink_uri |].
  intros n1 n2 u2.
  exact (@transformKnNodeData_sink_ids_differ Sample.platform
           sample_keeps_sink_uri Sample.registryLoaded Sample.eventingSnapshot
           None [Sample.src1; Sample.src2] "http://x" u2 n1 n2).
Defined.

Lemma transformKnNodeData_event_edges_per_resource_witness :
  HelpersKeepSinkUri (H := Sample.platform)
  /\ edges (transformKnNodeData (H := Sample.platform) Sample.registryLoaded
              ([Sample.src1] ++ [Sample.src2; Sample.src3])
              NodeType.EventSource Sample.eventingSnapshot None)
     = edges (transformKnNodeData (H := Sample.platform) Sample.registryLoaded
                [Sample.src1] NodeType.EventSource Sample.eventingSnapshot None)
       ++ edges (transformKnNodeData (H := Sample.platform)
                   Sample.registryLoaded [Sample.src2; Sample.src3]
                   NodeType.EventSource Sample.eventingSnapshot None).
Proof.
  split; [exact sample_keeps_sink_uri |].
  exact (proj2 (@transformKnNodeData_event_edges_per_resource Sample.platform
                  sample_keeps_sink_uri Sample.registryLoaded
                  Sample.eventingSnapshot None
                  [Sample.src1] [Sample.src2; Sample.src3])).
Defined.

(** ** Event sources of a sink URI *)

Section SinkUriSources.

Variable dyn : DynamicModels.
Variable resources : TopologyDataResources.



End SinkUriSources.


(** ** Looking up the node of a sink URI *)

Lemma strict_eq_iff (a b : option string) :
  Js.strict_eq a b = true <-> a = b.
Proof.
  destruct a as [x |], b as [y |]; simpl;
    try rewrite String.eqb_eq; split; congruence.
Qed.

(** X21. [getSinkTargetUid] returns the id of the first node whose embedded
    sink URI is the one asked for, and the empty string when no node has
    it.  Asked with no URI, it returns the id of the first node that
    carries no sink URI. *)
Theorem getSinkTargetUid_first_match :
  forall (ns : list NodeModel) (wanted : option string),
    ((forall n, In n ns -> nodeSinkUri n <> wanted) ->
     getSinkTargetUid ns wanted = "")
    /\ (forall before n after,
           ns = before ++ n :: after ->
           (forall m, In m before -> nodeSinkUri m <> wanted) ->
           nodeSinkUri n = wanted ->
           getSinkTargetUid ns wanted = node_id n).
Proof.
  intros ns wanted. unfold getSinkTargetUid. split.
  - intros Hnone.
    destruct (find _ ns) as [n |] eqn:Hfind; [| reflexivity].
    apply find_some in Hfind. destruct Hfind as [Hin Heq].
    apply strict_eq_iff in Heq. symmetry in Heq. now apply Hnone in Heq.
  - intros before n after -> Hbefore Hn.
    induction before as [| m before IH]; simpl.
    + rewrite (proj2 (strict_eq_iff wanted (nodeSinkUri n)))
        by (now symmetry).
      reflexivity.
    + destruct (Js.strict_eq wanted (nodeSinkUri m)) eqn:Hm.
      * apply strict_eq_iff in Hm. symmetry in Hm.
        now apply Hbefore in Hm; [| left].
      * apply IH. intros m' Hm'. apply Hbefore. now right.
Qed.

Lemma getSinkTargetUid_first_match_witness :
  let ns := nodes (transformKnNodeData (H := Sample.platform)
                     Sample.registryLoaded
                     [Sample.src3; Sample.src1; Sample.src2]
                     NodeType.EventSource Sample.eventingSnapshot None) in
  getSinkTargetUid ns (Some "http://x") = "http%3A%2F%2Fx"
  /\ getSinkTargetUid ns None = "es3-uid"
  /\ getSinkTargetUid ns (Some "http://y") = "".
Proof.
  intros ns.
  split; [| split].
  - etransitivity.
    + eapply (proj2 (@getSinkTargetUid_first_match ns (Some "http://x"))
                    (firstn 2 ns) _ (skipn 3 ns)).
      * cbv. reflexivity.
      * intros m [<- | [<- | []]]; discriminate.
      * reflexivity.
    + reflexivity.
  - etransitivity.
    + eapply (proj2 (@getSinkTargetUid_first_match ns None)
                    [] _ (skipn 1 ns)).
      * cbv. reflexivity.
      * intros m [].
      * reflexivity.
    + reflexivity.
  - refine (proj1 (@getSinkTargetUid_first_match ns (Some "http://y")) _).
    intros m [<- | [<- | [<- | [<- | []]]]]; discriminate.
Defined.

(** ** The properties on the samples *)

Lemma createKnativeDeploymentItems_deployment_witness :
  getOwnedResources Sample.rev1 (deployments PubSubSample.rolloutSnapshot)
  = [PubSubSample.bareDeployment]
  /\ exists depObj,
      kind depObj = "Deployment"
      /\ associatedDeployment
           (createKnativeDeploymentItems
              (H := PubSubSample.rollingPlatform) Sample.rev1
              PubSubSample.rolloutSnapshot None)
         = Some depObj
      /\ isRollingOut
           (createKnativeDeploymentItems
              (H := PubSubSample.rollingPlatform) Sample.rev1
              PubSubSample.rolloutSnapshot None)
         = Some true.
Proof.
  split; [reflexivity |].
  destruct (@createKnativeDeploymentItems_deployment
              PubSubSample.rollingPlatform Sample.rev1
              PubSubSample.rolloutSnapshot None
              PubSubSample.bareDeployment [] eq_refl)
    as (depObj & Htyped & _ & Hdep & _).
  exists depObj.
  split; [exact (proj1 (proj2 Htyped)) |].
  split; [exact Hdep | reflexivity].
Defined.

Lemma getTriggerTopologyEdgeItems_per_trigger_witness :
  map edge_id (getTriggerTopologyEdgeItems PubSubSample.brokerRes
                                           PubSubSample.snapshot)
  = ["b-uid_svc-uid"; "b-uid_svc-uid"]
  /\ length (getTriggerTopologyEdgeItems PubSubSample.brokerRes
                                         PubSubSample.snapshot)
     = length (filter
                 (fun trigger =>
                    namesBroker PubSubSample.brokerRes trigger
                    && existsb (deliversTo trigger)
                               (ksservices PubSubSample.snapshot))
                 (categoryOrEmpty PubSubSample.snapshot "triggers")).
Proof.
  split; [reflexivity |].
  exact (proj2 (proj2 (@getTriggerTopologyEdgeItems_per_trigger
                         PubSubSample.brokerRes PubSubSample.snapshot))).
Defined.

Lemma getSubscriptionTopologyEdgeItems_per_service_witness :
  In (pubSubEdge Sample.chan PubSubSample.svcTwin PubSubSample.subscription1)
     (getSubscriptionTopologyEdgeItems Sample.chan PubSubSample.snapshot).
Proof.
  apply (proj2 (@getSubscriptionTopologyEdgeItems_per_service
                  Sample.chan PubSubSample.snapshot)).
  exists PubSubSample.subscription1,
    {| ref_apiVersion := Some "serving.knative.dev/v1";
       ref_kind := Some "Service"; ref_name := Some "svc" |},
    PubSubSample.svcTwin.
  split; [left; reflexivity |]. split; [reflexivity |].
  split; [reflexivity |]. split; [right; left; reflexivity |].
  split; reflexivity.
Defined.
